(** * ocean.js: Pool, SideStaking and NftFactory clients

    A shallow embedding of the TypeScript classes [Pool]
    (src/contracts/pools/Pool.ts), [SideStaking]
    (src/contracts/pools/SideStaking.ts, and the revision of it under
    src/unnamed/part_001) and [NftFactory] (src/unnamed/part_000), and the
    properties of their estimate-then-submit protocol, bound checks, unit
    conversions and failure handling; and of the request helpers of
    src/utils/FetchHelper.ts, over a monad of their own.

    Every method of these classes is an [async] function that talks to
    collaborators: the contract behind an address ([call], [estimateGas],
    [send]), the gas price policy, the unit converter and the logger.  A
    method is embedded as a computation in the monad [M]: it reads the
    answers of the collaborators from an environment, records every
    interaction as an [Event], and ends with a value or with a thrown
    exception.  A JavaScript number that holds an integer is the integer
    itself, and [number_add] is the addition of such numbers. *)

From Stdlib Require Import ZArith List String Bool Lia Ascii.
Import ListNotations.
Local Open Scope string_scope.
Local Open Scope Z_scope.
Local Open Scope list_scope.

(** ** Data *)

Infix "+++" := String.append (right associativity, at level 60).

Definition Address := string.

(** A decimal string such as ["12.5"], as [decimal.js] and [bignumber.js]
    hold it: [coeff / 10 ^ places]. *)
Record Decimal := mkDecimal { coeff : Z; places : nat }.

(** [new Decimal(a).greaterThan(b)] *)
Definition greaterThan (a b : Decimal) : bool :=
  coeff b * 10 ^ Z.of_nat (places a) <? coeff a * 10 ^ Z.of_nat (places b).

(** The integer a JavaScript number holds when it is given the integer [z]:
    [z] itself below 2 ^ 53 in magnitude, from there on the nearest integer
    with a significand of 53 bits, a tie going to the even significand.
    Finite numbers only. *)
Definition to_double (z : Z) : Z :=
  let a := Z.abs z in
  if a <? 2 ^ 53 then z
  else
    let ulp := 2 ^ (Z.log2 a - 52) in
    let q := a / ulp in
    let r := a mod ulp in
    let q' := if 2 * r <? ulp then q
              else if ulp <? 2 * r then q + 1
              else if Z.even q then q else q + 1 in
    Z.sgn z * (q' * ulp).

(** [a + b] on two numbers that hold integers: the sum as a number holds
    it.  [estGas + 1] is such a sum: it is [estGas] itself for an estimate
    of 2 ^ 53. *)
Definition number_add (a b : Z) : Z := to_double (a + b).
Arguments number_add : simpl never.

(** What a [throw] or a rejected promise carries.  [JsError text payload] is
    [new Error(`text${payload}`)] built by the client itself, the template
    literal's interpolated decimal kept apart from its text; [TypeError] is
    the runtime's answer to a property read on [null] or [undefined];
    [Rejected reason] comes from a collaborator (web3, the contract). *)
Inductive Exn :=
| JsError (text : string) (payload : option Decimal)
| TypeError (text : string)
| Rejected (reason : string).

(** [e.name], which [`${e}`] puts before the message. *)
Definition error_name (e : Exn) : string :=
  match e with
  | TypeError _ => "TypeError"
  | _ => "Error"
  end.

Inductive Result (A : Type) :=
| Ok (a : A)
| Thrown (e : Exn).
Arguments Ok {A} a.
Arguments Thrown {A} e.

(** A transaction receipt: the events it carries, by name, each with its
    [returnValues]. *)
Record Receipt := mkReceipt {
  transactionHash : string;
  events : list (string * list Address)
}.

(** JavaScript values that cross the methods' boundaries.  The two string
    representations of a token amount are kept apart: [VUnits] is the
    contract's fixed-point integer, [VAmount] the human-readable decimal. *)
#[warnings="-register-all"]
Inductive Value :=
| VNull
| VUndefined
| VUnits (u : Z)
| VAmount (d : Decimal)
| VAddress (a : Address)
| VBool (b : bool)
| VNumber (n : Z)
| VString (s : string)
| VArray (l : list Value)
| VObject (fields : list (string * Value))
| VPromise (settled : Result Z)
| VReceipt (r : Receipt).

Fixpoint lookup_field (fields : list (string * Value)) (name : string) : Value :=
  match fields with
  | [] => VUndefined
  | (k, v) :: rest => if String.eqb k name then v else lookup_field rest name
  end.

(** [obj.name]: a property read throws on [null] and [undefined], yields
    the field of an object and [undefined] for a missing one. *)
Definition get_field (obj : Value) (name : string) : Result Value :=
  match obj with
  | VNull | VUndefined =>
      Thrown (TypeError (String.append "Cannot read properties of null or undefined, reading " name))
  | VObject fields => Ok (lookup_field fields name)
  | _ => Ok VUndefined
  end.

(** [web3.utils.fromWei(x)]: 18 decimals; anything but an integer string is
    refused. *)
Definition fromWei (x : Value) : Result Value :=
  match x with
  | VUnits u => Ok (VAmount (mkDecimal u 18))
  | _ => Thrown (Rejected "Please pass numbers as strings or BN objects to avoid precision errors.")
  end.

(** [web3.utils.toWei(x)] of web3-utils, for ether: at most 18 decimal
    places.  The reason stands for the message of the library, which also
    quotes the number it was given. *)
Definition toWei (x : Decimal) : Result Z :=
  if (places x <=? 18)%nat
  then Ok (coeff x * 10 ^ Z.of_nat (18 - places x))
  else Thrown (Rejected "too many decimal places").

(** [MAX_UINT_256] of [utils], not under src/: the value the package
    publishes, 2 ^ 256 - 2. *)
Definition MAX_UINT_256 : Z := 2 ^ 256 - 2.

Definition ZERO_ADDRESS : Address := "0x0000000000000000000000000000000000000000".

(** ** Interactions *)

(** One interaction with a collaborator, with the answer it got.
    [EvSend] is the only one that changes the chain. *)
Inductive Event :=
| EvCall (contract : Address) (method : string) (args : list Value)
         (res : Result Value)
| EvEstimateGas (from contract : Address) (method : string) (args : list Value)
                (res : Result Z)
| EvSend (contract : Address) (method : string) (args : list Value)
         (from : Address) (gas : Z) (gasPrice : Value) (res : Result Receipt)
| EvFairGasPrice (res : Result Value)
| EvUnitsToAmount (token : Value) (units : Value) (decimals : option Z)
                  (res : Result Decimal)
| EvAmountToUnits (token : Value) (amount : Decimal) (decimals : option Z)
                  (res : Result Z)
| EvHelper (name : string) (args : list Value) (res : Result Value)
| EvLog (text : string) (cause : option Exn).

Definition History := list Event.

(** The collaborators.  Their code is not part of the three classes (the
    contracts and the gas price policy are external; [calculateEstimatedGas],
    [unitsToAmount], [amountToUnits], [calcMaxExactIn], [calcMaxExactOut] and
    the creation-parameter helpers live in [utils] and in the [SmartContract]
    base class), so each is a parameter: an answer that may depend on
    everything that happened before, which lets reserves, estimates and
    prices change over time.  [getContract] of the base class builds the
    contract object for an address without talking to anyone: whether it
    throws depends on the address and the account it is given. *)
Record Env := mkEnv {
  on_call : History -> Address -> string -> list Value -> Result Value;
  on_estimateGas : History -> Address -> Address -> string -> list Value -> Result Z;
  on_send : History -> Address -> string -> list Value -> Address -> Z -> Value
            -> Result Receipt;
  on_fairGasPrice : History -> Result Value;
  on_unitsToAmount : History -> Value -> Value -> option Z -> Result Decimal;
  on_amountToUnits : History -> Value -> Decimal -> option Z -> Result Z;
  on_helper : History -> string -> list Value -> Result Value;
  on_getContract : Address -> option Address -> Result unit;
  cfg_calcMaxExactIn : Decimal -> Decimal;
  cfg_calcMaxExactOut : Decimal -> Decimal
}.

(** ** The monad of client methods *)

(** A method runs against an environment and the history so far; it yields
    the interactions it added, oldest first, and its outcome. *)
Definition M (A : Type) := Env -> History -> list Event * Result A.

Definition ret {A} (a : A) : M A := fun _ _ => ([], Ok a).

Definition throw {A} (e : Exn) : M A := fun _ _ => ([], Thrown e).

Definition bind {A B} (m : M A) (k : A -> M B) : M B :=
  fun env h =>
    let '(evs, r) := m env h in
    match r with
    | Ok a => let '(evs', r') := k a env (h ++ evs) in (evs ++ evs', r')
    | Thrown e => (evs, Thrown e)
    end.

(** [try { m } catch (e) { handler e }] *)
Definition try_catch {A} (m : M A) (handler : Exn -> M A) : M A :=
  fun env h =>
    let '(evs, r) := m env h in
    match r with
    | Ok a => (evs, Ok a)
    | Thrown e => let '(evs', r') := handler e env (h ++ evs) in (evs ++ evs', r')
    end.

Definition lift {A} (r : Result A) : M A := fun _ _ => ([], r).

Declare Scope client_scope.
Delimit Scope client_scope with client.
Notation "x <- m ;; k" := (bind m (fun x => k))
  (at level 61, m at next level, right associativity) : client_scope.
Notation "m ;; k" := (bind m (fun _ => k))
  (at level 61, right associativity) : client_scope.
Local Open Scope client_scope.

Definition emitted {A} (run : list Event * Result A) : list Event := fst run.
Definition outcome {A} (run : list Event * Result A) : Result A := snd run.

(** *** Primitive interactions *)

(** [contract.methods.method(args).call()] *)
Definition call (contract : Address) (method : string) (args : list Value) : M Value :=
  fun env h =>
    let r := on_call env h contract method args in
    ([EvCall contract method args r], r).

(** [contract.methods.method(args).estimateGas({ from })], and
    [calculateEstimatedGas(from, contract.methods.method, args)] of [utils],
    which is not under src/ and is taken as the same request: its answer, a
    number or an exception, is the environment's. *)
Definition estimateGasRequest (from contract : Address) (method : string)
    (args : list Value) : M Z :=
  fun env h =>
    let r := on_estimateGas env h from contract method args in
    ([EvEstimateGas from contract method args r], r).

Definition calculateEstimatedGas := estimateGasRequest.

(** [estimateGas(from, contract.methods.method, args)], the name the helper
    has in the revision of [SideStaking] under src/unnamed/part_001. *)
Definition estimateGas := estimateGasRequest.

(** [contract.methods.method(args).send({ from, gas, gasPrice })] *)
Definition send (contract : Address) (method : string) (args : list Value)
    (from : Address) (gas : Z) (gasPrice : Value) : M Receipt :=
  fun env h =>
    let r := on_send env h contract method args from gas gasPrice in
    ([EvSend contract method args from gas gasPrice r], r).

(** [this.getFairGasPrice()] and [getFairGasPrice(this.web3, this.config)] *)
Definition getFairGasPrice : M Value :=
  fun env h =>
    let r := on_fairGasPrice env h in ([EvFairGasPrice r], r).

(** [this.unitsToAmount(token, units, tokenDecimals)]; the token is a
    [Value] because callers also pass what an accessor returned, which may
    be [null]. *)
Definition unitsToAmount (token : Value) (units : Value) (decimals : option Z)
    : M Decimal :=
  fun env h =>
    let r := on_unitsToAmount env h token units decimals in
    ([EvUnitsToAmount token units decimals r], r).

(** [this.amountToUnits(token, amount, tokenDecimals)] *)
Definition amountToUnits (token : Value) (amount : Decimal) (decimals : option Z)
    : M Z :=
  fun env h =>
    let r := on_amountToUnits env h token amount decimals in
    ([EvAmountToUnits token amount decimals r], r).

(** The other helpers of [utils]: [generateDtName], [getErcCreationParams],
    [getPoolCreationParams], [getFreCreationParams]. *)
Definition helper (name : string) (args : list Value) : M Value :=
  fun env h =>
    let r := on_helper env h name args in
    ([EvHelper name args r], r).

(** [this.getContract(address)] and [this.getContract(address, account)]:
    the contract object is named by its address in every interaction, so
    all that is left of building it is that it may throw. *)
Definition getContract (address : Address) (account : option Address) : M unit :=
  fun env _ => ([], on_getContract env address account).

(** [LoggerInstance.error(`text${e.message}`)]; where the source breaks the
    template literal with a backslash, the indentation of the next line is
    part of the text. *)
Definition logError (text : string) (cause : option Exn) : M unit :=
  fun _ _ => ([EvLog text cause], Ok tt).

Definition calcMaxExactIn (reserve : Decimal) : M Decimal :=
  fun env _ => ([], Ok (cfg_calcMaxExactIn env reserve)).

Definition calcMaxExactOut (reserve : Decimal) : M Decimal :=
  fun env _ => ([], Ok (cfg_calcMaxExactOut env reserve)).

(** [let x = null; try { x = body } catch (e) { LoggerInstance.error(text + e.message) }]
    leaves [x]. *)
Definition null_on_failure (text : string) (body : M Value) : M Value :=
  try_catch body (fun e => logError text (Some e) ;; ret VNull).

(** [v !== a] for an address string [a] *)
Definition differs_from (v : Value) (a : Address) : bool :=
  match v with
  | VAddress b | VString b => negb (String.eqb b a)
  | _ => true
  end.

(** [.send({ from, gas, gasPrice: await getFairGasPrice() })]: the options
    object is built first, so the price is asked for before the
    transaction is sent. *)
Definition submit (contract : Address) (method : string) (args : list Value)
    (from : Address) (gas : Z) : M Value :=
  gasPrice <- getFairGasPrice ;;
  receipt <- send contract method args from gas gasPrice ;;
  ret (VReceipt receipt).

(** A promise that is built but not awaited: the caller goes on with the
    promise object whatever it settles to. *)
Definition not_awaited (m : M Z) : M Value :=
  fun env h => let '(evs, r) := m env h in (evs, Ok (VPromise r)).

(** [new Decimal(v)] for a value that should be a decimal string *)
Definition new_Decimal (v : Value) : Result Decimal :=
  match v with
  | VAmount d => Ok d
  | VUnits u | VNumber u => Ok (mkDecimal u 0)
  | _ => Thrown (Rejected "[DecimalError] Invalid argument")
  end.

(** ** Pool.ts *)

Module Pool.

Record TokenInOutMarket := mkTokenInOutMarket {
  tokenIn : Address;
  tokenOut : Address;
  marketFeeAddress : Address;
  tokenInDecimals : option Z;
  tokenOutDecimals : option Z
}.

Record AmountsInMaxFee := mkAmountsInMaxFee {
  tokenAmountIn : Decimal;
  minAmountOut : Decimal;
  in_swapMarketFee : Decimal;
  in_maxPrice : option Decimal
}.

Record AmountsOutMaxFee := mkAmountsOutMaxFee {
  maxAmountIn : Decimal;
  tokenAmountOut : Decimal;
  out_swapMarketFee : Decimal;
  out_maxPrice : option Decimal
}.

(** *** Read-only accessors *)

Definition sharesBalance (account poolAddress : Address) : M Value :=
  null_on_failure "ERROR: Failed to get shares of pool : "
    (getContract poolAddress None ;;
     balance <- call poolAddress "balanceOf" [VAddress account] ;;
     lift (fromWei balance)).

Definition getNumTokens (poolAddress : Address) : M Value :=
  getContract poolAddress None ;;
  null_on_failure "ERROR: Failed to get number of tokens: "
    (call poolAddress "getNumTokens" []).

Definition getPoolSharesTotalSupply (poolAddress : Address) : M Value :=
  getContract poolAddress None ;;
  null_on_failure "ERROR: Failed to get total supply of pool shares: "
    (supply <- call poolAddress "totalSupply" [] ;;
     lift (fromWei supply)).

Definition getCurrentTokens (poolAddress : Address) : M Value :=
  getContract poolAddress None ;;
  null_on_failure "ERROR: Failed to get tokens composing this pool: "
    (call poolAddress "getCurrentTokens" []).

Definition getFinalTokens (poolAddress : Address) : M Value :=
  getContract poolAddress None ;;
  null_on_failure "ERROR: Failed to get the final tokens composing this pool "
    (call poolAddress "getFinalTokens" []).

Definition getController (poolAddress : Address) : M Value :=
  getContract poolAddress None ;;
  null_on_failure "ERROR: Failed to get pool controller address: "
    (call poolAddress "getController" []).

Definition getBasetoken (poolAddress : Address) : M Value :=
  getContract poolAddress None ;;
  null_on_failure "ERROR: Failed to get baseToken address: "
    (call poolAddress "getBaseTokenAddress" []).

Definition getDatatoken (poolAddress : Address) : M Value :=
  getContract poolAddress None ;;
  null_on_failure "ERROR: Failed to get datatoken address: "
    (call poolAddress "getDatatokenAddress" []).

(** The conversion is outside the [try]: a failed read leaves [fee] at
    [null] and [fromWei(null)] is reached. *)
Definition getMarketFee (poolAddress : Address) : M Value :=
  getContract poolAddress None ;;
  fee <- null_on_failure "ERROR: Failed to get getMarketFee: "
           (call poolAddress "getMarketFee" []) ;;
  lift (fromWei fee).

Definition getMarketFeeCollector (poolAddress : Address) : M Value :=
  getContract poolAddress None ;;
  null_on_failure "ERROR: Failed to get marketFeeCollector address: "
    (call poolAddress "_publishMarketCollector" []).

Definition isBound (poolAddress token : Address) : M Value :=
  getContract poolAddress None ;;
  null_on_failure "ERROR: Failed to check whether a token       bounded to a pool. "
    (call poolAddress "isBound" [VAddress token]).

(** [amount.toString()] is outside the [try]: a failed read leaves [amount]
    at [null] and the property read throws. *)
Definition getReserve (poolAddress : Address) (token : Value)
    (tokenDecimals : option Z) : M Decimal :=
  amount <- try_catch
              (getContract poolAddress None ;;
               balance <- call poolAddress "getBalance" [token] ;;
               a <- unitsToAmount token balance tokenDecimals ;;
               ret (Some a))
              (fun e =>
                 logError
                   "ERROR: Failed to get how many tokens       are in the pool: "
                   (Some e) ;;
                 ret None) ;;
  match amount with
  | Some a => ret a
  | None => throw (TypeError "Cannot read properties of null (reading 'toString')")
  end.

Definition isFinalized (poolAddress : Address) : M Value :=
  getContract poolAddress None ;;
  null_on_failure "ERROR: Failed to check whether pool is finalized: "
    (call poolAddress "isFinalized" []).

Definition getSwapFee (poolAddress : Address) : M Value :=
  getContract poolAddress None ;;
  null_on_failure "ERROR: Failed to get pool fee: "
    (swapFee <- call poolAddress "getSwapFee" [] ;;
     lift (fromWei swapFee)).

Definition getNormalizedWeight (poolAddress token : Address) : M Value :=
  getContract poolAddress None ;;
  null_on_failure "ERROR: Failed to get normalized weight of a token: "
    (normalizedWeight <- call poolAddress "getNormalizedWeight" [VAddress token] ;;
     lift (fromWei normalizedWeight)).

Definition getDenormalizedWeight (poolAddress token : Address) : M Value :=
  getContract poolAddress None ;;
  null_on_failure "ERROR: Failed to get denormalized weight of a token in pool "
    (denormalizedWeight <- call poolAddress "getDenormalizedWeight" [VAddress token] ;;
     lift (fromWei denormalizedWeight)).

Definition getTotalDenormalizedWeight (poolAddress : Address) : M Value :=
  getContract poolAddress None ;;
  null_on_failure "ERROR: Failed to get total denormalized weight in pool "
    (denormalizedWeight <- call poolAddress "getTotalDenormalizedWeight" [] ;;
     lift (fromWei denormalizedWeight)).

Definition getMarketFees (poolAddress token : Address) (tokenDecimals : option Z)
    : M Value :=
  getContract poolAddress None ;;
  null_on_failure "ERROR: Failed to get market fees for a token: "
    (fee <- call poolAddress "publishMarketFees" [VAddress token] ;;
     weight <- unitsToAmount (VAddress token) fee tokenDecimals ;;
     ret (VAmount weight)).

(** No [return] after the [catch]: a failed read yields [undefined]. *)
Definition getCurrentMarketFees (poolAddress : Address) : M Value :=
  getContract poolAddress None ;;
  try_catch (call poolAddress "getCurrentOPCFees" [])
    (fun e =>
       logError "ERROR: Failed to get community fees for a token: " (Some e) ;;
       ret VUndefined).

Definition getCurrentOPCFees (poolAddress : Address) : M Value :=
  getContract poolAddress None ;;
  try_catch (call poolAddress "getCurrentOPCFees" [])
    (fun e =>
       logError "ERROR: Failed to get community fees for a token: " (Some e) ;;
       ret VUndefined).

Definition getCommunityFees (poolAddress token : Address) (tokenDecimals : option Z)
    : M Value :=
  getContract poolAddress None ;;
  null_on_failure "ERROR: Failed to get community fees for a token: "
    (fee <- call poolAddress "communityFees" [VAddress token] ;;
     weight <- unitsToAmount (VAddress token) fee tokenDecimals ;;
     ret (VAmount weight)).

(** *** Bounds *)

Definition getMaxSwapExactOut (poolAddress : Address) (tokenAddress : Value)
    : M Decimal :=
  reserve <- getReserve poolAddress tokenAddress None ;;
  calcMaxExactOut reserve.

Definition getMaxSwapExactIn (poolAddress : Address) (tokenAddress : Value)
    : M Decimal :=
  reserve <- getReserve poolAddress tokenAddress None ;;
  calcMaxExactIn reserve.

Definition getMaxAddLiquidity (poolAddress : Address) (tokenAddress : Value)
    : M Decimal :=
  reserve <- getReserve poolAddress tokenAddress None ;;
  calcMaxExactIn reserve.

Definition getMaxRemoveLiquidity (poolAddress : Address) (tokenAddress : Value)
    : M Decimal :=
  reserve <- getReserve poolAddress tokenAddress None ;;
  calcMaxExactIn reserve.

(** *** Quotes *)

(** The contract object is built before the [try]; the [catch] logs
    [`${e}`], the name of the error before its message. *)
Definition calcSingleOutGivenPoolIn (poolAddress : Address) (tokenOut : Value)
    (poolAmountIn : Decimal) (poolDecimals tokenOutDecimals : option Z) : M Value :=
  getContract poolAddress None ;;
  try_catch
    (shares <- amountToUnits (VAddress poolAddress) poolAmountIn poolDecimals ;;
     singleOut <- call poolAddress "calcSingleOutPoolIn" [tokenOut; VUnits shares] ;;
     amount <- unitsToAmount tokenOut singleOut tokenOutDecimals ;;
     ret (VAmount amount))
    (fun e =>
       logError
         ("ERROR: Failed to calculate SingleOutGivenPoolIn : "
          +++ error_name e +++ ": ")
         (Some e) ;;
       ret VNull).

Definition getAmountInExactOut (poolAddress tokenIn tokenOut : Address)
    (tokenAmountOut swapMarketFee : Decimal)
    (tokenInDecimals tokenOutDecimals : option Z) : M Value :=
  getContract poolAddress None ;;
  maxSwap <- getMaxSwapExactOut poolAddress (VAddress tokenOut) ;;
  if greaterThan tokenAmountOut maxSwap
  then throw (JsError "tokenAmountOut is greater than " (Some maxSwap))
  else
    amountOutFormatted <- amountToUnits (VAddress tokenOut) tokenAmountOut
                            tokenOutDecimals ;;
    null_on_failure "ERROR: Failed to calcInGivenOut "
      (fee <- lift (toWei swapMarketFee) ;;
       amountIn <- call poolAddress "getAmountInExactOut"
                     [VAddress tokenIn; VAddress tokenOut;
                      VUnits amountOutFormatted; VUnits fee] ;;
       rawAmount <- lift (get_field amountIn "tokenAmountIn") ;;
       tokenAmount <- unitsToAmount (VAddress tokenOut) rawAmount tokenOutDecimals ;;
       rawLp <- lift (get_field amountIn "lpFeeAmount") ;;
       lpFee <- unitsToAmount (VAddress tokenIn) rawLp tokenInDecimals ;;
       rawOcean <- lift (get_field amountIn "oceanFeeAmount") ;;
       oceanFee <- unitsToAmount (VAddress tokenIn) rawOcean tokenInDecimals ;;
       rawPublish <- lift (get_field amountIn "publishMarketSwapFeeAmount") ;;
       publishFee <- unitsToAmount (VAddress tokenIn) rawPublish tokenInDecimals ;;
       rawConsume <- lift (get_field amountIn "consumeMarketSwapFeeAmount") ;;
       consumeFee <- unitsToAmount (VAddress tokenIn) rawConsume tokenInDecimals ;;
       ret (VObject [("tokenAmount", VAmount tokenAmount);
                     ("liquidityProviderSwapFeeAmount", VAmount lpFee);
                     ("oceanFeeAmount", VAmount oceanFee);
                     ("publishMarketSwapFeeAmount", VAmount publishFee);
                     ("consumeMarketSwapFeeAmount", VAmount consumeFee)])).

Definition getAmountOutExactIn (poolAddress tokenIn tokenOut : Address)
    (tokenAmountIn swapMarketFee : Decimal)
    (tokenInDecimals tokenOutDecimals : option Z) : M Value :=
  getContract poolAddress None ;;
  maxSwap <- getMaxSwapExactIn poolAddress (VAddress tokenIn) ;;
  if greaterThan tokenAmountIn maxSwap
  then throw (JsError "tokenAmountIn is greater than " (Some maxSwap))
  else
    amountInFormatted <- amountToUnits (VAddress tokenIn) tokenAmountIn
                           tokenInDecimals ;;
    null_on_failure "ERROR: Failed to calcOutGivenIn "
      (fee <- lift (toWei swapMarketFee) ;;
       amountOut <- call poolAddress "getAmountOutExactIn"
                      [VAddress tokenIn; VAddress tokenOut;
                       VUnits amountInFormatted; VUnits fee] ;;
       rawAmount <- lift (get_field amountOut "tokenAmountOut") ;;
       tokenAmount <- unitsToAmount (VAddress tokenOut) rawAmount tokenOutDecimals ;;
       rawLp <- lift (get_field amountOut "lpFeeAmount") ;;
       lpFee <- unitsToAmount (VAddress tokenIn) rawLp tokenInDecimals ;;
       rawOcean <- lift (get_field amountOut "oceanFeeAmount") ;;
       oceanFee <- unitsToAmount (VAddress tokenIn) rawOcean tokenInDecimals ;;
       rawPublish <- lift (get_field amountOut "publishMarketSwapFeeAmount") ;;
       publishFee <- unitsToAmount (VAddress tokenIn) rawPublish tokenInDecimals ;;
       rawConsume <- lift (get_field amountOut "consumeMarketSwapFeeAmount") ;;
       consumeFee <- unitsToAmount (VAddress tokenIn) rawConsume tokenInDecimals ;;
       ret (VObject [("tokenAmount", VAmount tokenAmount);
                     ("liquidityProviderSwapFeeAmount", VAmount lpFee);
                     ("oceanFeeAmount", VAmount oceanFee);
                     ("publishMarketSwapFeeAmount", VAmount publishFee);
                     ("consumeMarketSwapFeeAmount", VAmount consumeFee)])).

Definition calcPoolOutGivenSingleIn (poolAddress tokenIn : Address)
    (tokenAmountIn : Decimal) (poolDecimals tokenInDecimals : option Z) : M Value :=
  getContract poolAddress None ;;
  null_on_failure "ERROR: Failed to calculate PoolOutGivenSingleIn : "
    (units <- amountToUnits (VAddress tokenIn) tokenAmountIn tokenInDecimals ;;
     poolOut <- call poolAddress "calcPoolOutSingleIn"
                  [VAddress tokenIn; VUnits units] ;;
     amount <- unitsToAmount (VAddress poolAddress) poolOut poolDecimals ;;
     ret (VAmount amount)).

(** The conversion of the input is before the [try]. *)
Definition calcSingleInGivenPoolOut (poolAddress tokenIn : Address)
    (poolAmountOut : Decimal) (poolDecimals tokenInDecimals : option Z) : M Value :=
  getContract poolAddress None ;;
  amountFormatted <- amountToUnits (VAddress poolAddress) poolAmountOut
                       poolDecimals ;;
  null_on_failure "ERROR: Failed to calculate SingleInGivenPoolOut : "
    (singleIn <- call poolAddress "calcSingleInPoolOut"
                   [VAddress tokenIn; VUnits amountFormatted] ;;
     amount <- unitsToAmount (VAddress tokenIn) singleIn tokenInDecimals ;;
     ret (VAmount amount)).

Definition calcPoolInGivenSingleOut (poolAddress tokenOut : Address)
    (tokenAmountOut : Decimal) (poolDecimals tokenOutDecimals : option Z) : M Value :=
  getContract poolAddress None ;;
  null_on_failure "ERROR: Failed to calculate PoolInGivenSingleOut : "
    (units <- amountToUnits (VAddress tokenOut) tokenAmountOut tokenOutDecimals ;;
     poolIn <- call poolAddress "calcPoolInSingleOut"
                 [VAddress tokenOut; VUnits units] ;;
     amount <- unitsToAmount (VAddress poolAddress) poolIn poolDecimals ;;
     ret (VAmount amount)).

(** *** Mutating operations *)

(** The estimate is asked for [fee] as given, the transaction is sent for
    [toWei(fee)], and the gas limit is the bare estimate. *)
Definition setSwapFee (account poolAddress : Address) (fee : Decimal)
    (estimateGas : bool) : M Value :=
  getContract poolAddress (Some account) ;;
  estGas <- calculateEstimatedGas account poolAddress "setSwapFee" [VAmount fee] ;;
  if estimateGas then ret (VNumber estGas)
  else
    null_on_failure "ERROR: Failed to set pool swap fee: "
      (wei <- lift (toWei fee) ;;
       submit poolAddress "setSwapFee" [VUnits wei] account estGas).

Definition collectOPC (address poolAddress : Address) (estimateGas : bool)
    : M Value :=
  getContract poolAddress None ;;
  estGas <- calculateEstimatedGas address poolAddress "collectOPC" [] ;;
  if estimateGas then ret (VNumber estGas)
  else
    null_on_failure "ERROR: Failed to swap exact amount in : "
      (submit poolAddress "collectOPC" [] address (number_add estGas 1)).

Definition collectMarketFee (address poolAddress : Address) (estimateGas : bool)
    : M Value :=
  collector <- getMarketFeeCollector poolAddress ;;
  if differs_from collector address
  then throw (JsError "Caller is not MarketFeeCollector" None)
  else
    getContract poolAddress None ;;
    estGas <- calculateEstimatedGas address poolAddress "collectMarketFee" [] ;;
    if estimateGas then ret (VNumber estGas)
    else
      null_on_failure "ERROR: Failed to swap exact amount in : "
        (submit poolAddress "collectMarketFee" [] address (number_add estGas 1)).

Definition updatePublishMarketFee (address poolAddress : Address)
    (newPublishMarketAddress : Address) (newPublishMarketSwapFee : Decimal)
    (estimateGas : bool) : M Value :=
  collector <- getMarketFeeCollector poolAddress ;;
  if differs_from collector address
  then throw (JsError "Caller is not MarketFeeCollector" None)
  else
    getContract poolAddress None ;;
    fee <- lift (toWei newPublishMarketSwapFee) ;;
    estGas <- calculateEstimatedGas address poolAddress "updatePublishMarketFee"
                [VAddress newPublishMarketAddress; VUnits fee] ;;
    if estimateGas then ret (VNumber estGas)
    else
      null_on_failure "ERROR: Failed to updatePublishMarketFee : "
        (fee' <- lift (toWei newPublishMarketSwapFee) ;;
         submit poolAddress "updatePublishMarketFee"
           [VAddress newPublishMarketAddress; VUnits fee'] address (number_add estGas 1)).

Definition swapExactAmountIn (address poolAddress : Address)
    (tokenInOutMarket : TokenInOutMarket) (amountsInOutMaxFee : AmountsInMaxFee)
    (estimateGas : bool) : M Value :=
  getContract poolAddress None ;;
  maxSwap <- getMaxSwapExactIn poolAddress (VAddress (tokenIn tokenInOutMarket)) ;;
  if greaterThan (tokenAmountIn amountsInOutMaxFee) maxSwap
  then throw (JsError "tokenAmountIn is greater than " (Some maxSwap))
  else
    tokenAmountIn' <- amountToUnits (VAddress (tokenIn tokenInOutMarket))
                        (tokenAmountIn amountsInOutMaxFee)
                        (tokenInDecimals tokenInOutMarket) ;;
    minAmountOut' <- amountToUnits (VAddress (tokenOut tokenInOutMarket))
                       (minAmountOut amountsInOutMaxFee)
                       (tokenOutDecimals tokenInOutMarket) ;;
    maxPrice <- match in_maxPrice amountsInOutMaxFee with
                | Some price =>
                    baseToken <- getBasetoken poolAddress ;;
                    units <- amountToUnits baseToken price None ;;
                    ret (VUnits units)
                | None => ret (VUnits MAX_UINT_256)
                end ;;
    fee <- lift (toWei (in_swapMarketFee amountsInOutMaxFee)) ;;
    estGas <- calculateEstimatedGas address poolAddress "swapExactAmountIn"
                [VArray [VAddress (tokenIn tokenInOutMarket);
                         VAddress (tokenOut tokenInOutMarket);
                         VAddress (marketFeeAddress tokenInOutMarket)];
                 VArray [VUnits tokenAmountIn'; VUnits minAmountOut'; maxPrice;
                         VUnits fee]] ;;
    if estimateGas then ret (VNumber estGas)
    else
      null_on_failure "ERROR: Failed to swap exact amount in : "
        (fee' <- lift (toWei (in_swapMarketFee amountsInOutMaxFee)) ;;
         submit poolAddress "swapExactAmountIn"
           [VArray [VAddress (tokenIn tokenInOutMarket);
                    VAddress (tokenOut tokenInOutMarket);
                    VAddress (marketFeeAddress tokenInOutMarket)];
            VArray [VUnits tokenAmountIn'; VUnits minAmountOut'; maxPrice;
                    VUnits fee']]
           address (number_add estGas 1)).

(** [maxPrice] is built without [await]: the contract is handed the promise. *)
Definition swapExactAmountOut (account poolAddress : Address)
    (tokenInOutMarket : TokenInOutMarket) (amountsInOutMaxFee : AmountsOutMaxFee)
    (estimateGas : bool) : M Value :=
  getContract poolAddress None ;;
  maxSwap <- getMaxSwapExactOut poolAddress (VAddress (tokenOut tokenInOutMarket)) ;;
  if greaterThan (tokenAmountOut amountsInOutMaxFee) maxSwap
  then throw (JsError "tokenAmountOut is greater than " (Some maxSwap))
  else
    maxAmountIn' <- amountToUnits (VAddress (tokenIn tokenInOutMarket))
                      (maxAmountIn amountsInOutMaxFee)
                      (tokenInDecimals tokenInOutMarket) ;;
    tokenAmountOut' <- amountToUnits (VAddress (tokenOut tokenInOutMarket))
                         (tokenAmountOut amountsInOutMaxFee)
                         (tokenOutDecimals tokenInOutMarket) ;;
    maxPrice <- match out_maxPrice amountsInOutMaxFee with
                | Some price =>
                    baseToken <- getBasetoken poolAddress ;;
                    not_awaited (amountToUnits baseToken price None)
                | None => ret (VUnits MAX_UINT_256)
                end ;;
    fee <- lift (toWei (out_swapMarketFee amountsInOutMaxFee)) ;;
    estGas <- calculateEstimatedGas account poolAddress "swapExactAmountOut"
                [VArray [VAddress (tokenIn tokenInOutMarket);
                         VAddress (tokenOut tokenInOutMarket);
                         VAddress (marketFeeAddress tokenInOutMarket)];
                 VArray [VUnits maxAmountIn'; VUnits tokenAmountOut'; maxPrice;
                         VUnits fee]] ;;
    if estimateGas then ret (VNumber estGas)
    else
      null_on_failure "ERROR: Failed to swap exact amount out: "
        (fee' <- lift (toWei (out_swapMarketFee amountsInOutMaxFee)) ;;
         submit poolAddress "swapExactAmountOut"
           [VArray [VAddress (tokenIn tokenInOutMarket);
                    VAddress (tokenOut tokenInOutMarket);
                    VAddress (marketFeeAddress tokenInOutMarket)];
            VArray [VUnits maxAmountIn'; VUnits tokenAmountOut'; maxPrice;
                    VUnits fee']]
           account (number_add estGas 1)).

Definition joinswapExternAmountIn (account poolAddress : Address)
    (tokenAmountIn minPoolAmountOut : Decimal) (tokenInDecimals : option Z)
    (estimateGas : bool) : M Value :=
  getContract poolAddress None ;;
  tokenIn <- getBasetoken poolAddress ;;
  maxSwap <- getMaxAddLiquidity poolAddress tokenIn ;;
  if greaterThan tokenAmountIn maxSwap
  then throw (JsError "tokenAmountOut is greater than " (Some maxSwap))
  else
    amountInFormatted <- amountToUnits tokenIn tokenAmountIn tokenInDecimals ;;
    minOut <- lift (toWei minPoolAmountOut) ;;
    estGas <- calculateEstimatedGas account poolAddress "joinswapExternAmountIn"
                [VUnits amountInFormatted; VUnits minOut] ;;
    if estimateGas then ret (VNumber estGas)
    else
      null_on_failure
        "ERROR: Failed to pay tokens in order to       join the pool: "
        (minOut' <- lift (toWei minPoolAmountOut) ;;
         submit poolAddress "joinswapExternAmountIn"
           [VUnits amountInFormatted; VUnits minOut'] account (number_add estGas 1)).

Definition exitSwapPoolAmountIn (account poolAddress : Address)
    (poolAmountIn minTokenAmountOut : Decimal) (poolDecimals : option Z)
    (estimateGas : bool) : M Value :=
  getContract poolAddress None ;;
  tokenOut <- getBasetoken poolAddress ;;
  tokenAmountOut <- calcSingleOutGivenPoolIn poolAddress tokenOut poolAmountIn
                      None None ;;
  maxSwap <- getMaxRemoveLiquidity poolAddress tokenOut ;;
  amountOut <- lift (new_Decimal tokenAmountOut) ;;
  if greaterThan amountOut maxSwap
  then throw (JsError "tokenAmountOut is greater than " (Some maxSwap))
  else
    baseToken <- getBasetoken poolAddress ;;
    minTokenOutFormatted <- amountToUnits baseToken minTokenAmountOut poolDecimals ;;
    shares <- lift (toWei poolAmountIn) ;;
    estGas <- calculateEstimatedGas account poolAddress "exitswapPoolAmountIn"
                [VUnits shares; VUnits minTokenOutFormatted] ;;
    if estimateGas then ret (VNumber estGas)
    else
      null_on_failure "ERROR: Failed to pay pool shares into the pool: "
        (shares' <- lift (toWei poolAmountIn) ;;
         submit poolAddress "exitswapPoolAmountIn"
           [VUnits shares'; VUnits minTokenOutFormatted] account (number_add estGas 1)).

End Pool.

(** [v.toString()] *)
Definition toString (v : Value) : Result Value :=
  match v with
  | VNull | VUndefined =>
      Thrown (TypeError "Cannot read properties of null (reading 'toString')")
  | _ => Ok v
  end.

(** ** SideStaking.ts *)

Module SideStaking.

Definition getDatatokenCirculatingSupply (ssAddress datatokenAddress : Address)
    : M Value :=
  getContract ssAddress None ;;
  supply <- call ssAddress "getDatatokenCirculatingSupply"
              [VAddress datatokenAddress] ;;
  lift (toString supply).

Definition getDatatokenCurrentCirculatingSupply
    (ssAddress datatokenAddress : Address) : M Value :=
  getContract ssAddress None ;;
  supply <- call ssAddress "getDatatokenCurrentCirculatingSupply"
              [VAddress datatokenAddress] ;;
  lift (toString supply).

Definition getPublisherAddress (ssAddress datatokenAddress : Address) : M Value :=
  getContract ssAddress None ;;
  call ssAddress "getPublisherAddress" [VAddress datatokenAddress].

Definition getBasetoken (ssAddress datatokenAddress : Address) : M Value :=
  getContract ssAddress None ;;
  call ssAddress "getBaseTokenAddress" [VAddress datatokenAddress].

Definition getPoolAddress (ssAddress datatokenAddress : Address) : M Value :=
  getContract ssAddress None ;;
  call ssAddress "getPoolAddress" [VAddress datatokenAddress].

Definition getBasetokenBalance (ssAddress datatokenAddress : Address) : M Value :=
  getContract ssAddress None ;;
  call ssAddress "getBaseTokenBalance" [VAddress datatokenAddress].

Definition getDatatokenBalance (ssAddress datatokenAddress : Address)
    (tokenDecimals : option Z) : M Value :=
  getContract ssAddress None ;;
  balance <- call ssAddress "getDatatokenBalance" [VAddress datatokenAddress] ;;
  balance' <- unitsToAmount (VAddress datatokenAddress) balance tokenDecimals ;;
  ret (VAmount balance').

Definition getVestingEndBlock (ssAddress datatokenAddress : Address) : M Value :=
  getContract ssAddress None ;;
  call ssAddress "getvestingEndBlock" [VAddress datatokenAddress].

Definition getVestingAmount (ssAddress datatokenAddress : Address)
    (tokenDecimals : option Z) : M Value :=
  getContract ssAddress None ;;
  amount <- call ssAddress "getvestingAmount" [VAddress datatokenAddress] ;;
  amount' <- unitsToAmount (VAddress datatokenAddress) amount tokenDecimals ;;
  ret (VAmount amount').

Definition getVestingLastBlock (ssAddress datatokenAddress : Address) : M Value :=
  getContract ssAddress None ;;
  call ssAddress "getvestingLastBlock" [VAddress datatokenAddress].

Definition getVestingAmountSoFar (ssAddress datatokenAddress : Address)
    (tokenDecimals : option Z) : M Value :=
  getContract ssAddress None ;;
  amount <- call ssAddress "getvestingAmountSoFar" [VAddress datatokenAddress] ;;
  amount' <- unitsToAmount (VAddress datatokenAddress) amount tokenDecimals ;;
  ret (VAmount amount').

Definition getVesting (account ssAddress datatokenAddress : Address)
    (estimateGas : bool) : M Value :=
  getContract ssAddress None ;;
  estGas <- calculateEstimatedGas account ssAddress "getVesting"
              [VAddress datatokenAddress] ;;
  if estimateGas then ret (VNumber estGas)
  else submit ssAddress "getVesting" [VAddress datatokenAddress] account (number_add estGas 1).

Definition setPoolSwapFee (account ssAddress datatokenAddress poolAddress : Address)
    (swapFee : Z) (estimateGas : bool) : M Value :=
  getContract ssAddress None ;;
  estGas <- calculateEstimatedGas account ssAddress "setPoolSwapFee"
              [VAddress datatokenAddress; VAddress poolAddress; VNumber swapFee] ;;
  if estimateGas then ret (VNumber estGas)
  else
    submit ssAddress "setPoolSwapFee"
      [VAddress datatokenAddress; VAddress poolAddress; VNumber swapFee]
      account (number_add estGas 1).

Definition getRouter (ssAddress : Address) : M Value :=
  getContract ssAddress None ;;
  call ssAddress "router" [].

End SideStaking.

(** ** SideStaking, the revision under src/unnamed/part_001

    The same class in another revision: no [estimateGas] flag, and every
    read and every submission wrapped in [try]/[catch]. *)

Module SideStakingUnnamed.

(** [result.toString()] is after the [catch]. *)
Definition getDatatokenCirculatingSupply (ssAddress datatokenAddress : Address)
    : M Value :=
  getContract ssAddress None ;;
  result <- null_on_failure "ERROR: Failed to get: "
              (call ssAddress "getDatatokenCirculatingSupply"
                 [VAddress datatokenAddress]) ;;
  lift (toString result).

(** [return result.toString()] is inside the [try], nothing is returned
    after the [catch]. *)
Definition getDatatokenCurrentCirculatingSupply
    (ssAddress datatokenAddress : Address) : M Value :=
  try_catch
    (getContract ssAddress None ;;
     result <- call ssAddress "getDatatokenCurrentCirculatingSupply"
                 [VAddress datatokenAddress] ;;
     lift (toString result))
    (fun e => logError "ERROR: Failed to get: " (Some e) ;; ret VUndefined).

Definition getPublisherAddress (ssAddress datatokenAddress : Address) : M Value :=
  getContract ssAddress None ;;
  null_on_failure "ERROR: Failed to get: "
    (call ssAddress "getPublisherAddress" [VAddress datatokenAddress]).

Definition getBaseToken (ssAddress datatokenAddress : Address) : M Value :=
  getContract ssAddress None ;;
  null_on_failure "ERROR: Failed to get: "
    (call ssAddress "getBaseTokenAddress" [VAddress datatokenAddress]).

Definition getPoolAddress (ssAddress datatokenAddress : Address) : M Value :=
  getContract ssAddress None ;;
  null_on_failure "ERROR: Failed to get: "
    (call ssAddress "getPoolAddress" [VAddress datatokenAddress]).

Definition getvestingEndBlock (ssAddress datatokenAddress : Address) : M Value :=
  getContract ssAddress None ;;
  null_on_failure "ERROR: Failed to get: "
    (call ssAddress "getvestingEndBlock" [VAddress datatokenAddress]).

Definition getvestingAmount (ssAddress datatokenAddress : Address)
    (tokenDecimals : option Z) : M Value :=
  getContract ssAddress None ;;
  result <- null_on_failure "ERROR: Failed to get: "
              (call ssAddress "getvestingAmount" [VAddress datatokenAddress]) ;;
  result' <- unitsToAmount (VAddress datatokenAddress) result tokenDecimals ;;
  ret (VAmount result').

Definition getvestingLastBlock (ssAddress datatokenAddress : Address) : M Value :=
  getContract ssAddress None ;;
  null_on_failure "ERROR: Failed to get: "
    (call ssAddress "getvestingLastBlock" [VAddress datatokenAddress]).

Definition getvestingAmountSoFar (ssAddress datatokenAddress : Address)
    (tokenDecimals : option Z) : M Value :=
  getContract ssAddress None ;;
  result <- null_on_failure "ERROR: Failed to get: "
              (call ssAddress "getvestingAmountSoFar" [VAddress datatokenAddress]) ;;
  result' <- unitsToAmount (VAddress datatokenAddress) result tokenDecimals ;;
  ret (VAmount result').

Definition getRouter (ssAddress : Address) : M Value :=
  getContract ssAddress None ;;
  null_on_failure "ERROR: Failed to get Router address: "
    (call ssAddress "router" []).

Definition getBaseTokenBalance (ssAddress datatokenAddress : Address) : M Value :=
  getContract ssAddress None ;;
  null_on_failure "ERROR: Failed to get: "
    (call ssAddress "getBaseTokenBalance" [VAddress datatokenAddress]).

(** The conversion is outside the [try]: after a failed read it is asked
    for [null]. *)
Definition getDatatokenBalance (ssAddress datatokenAddress : Address)
    (tokenDecimals : option Z) : M Value :=
  getContract ssAddress None ;;
  result <- null_on_failure "ERROR: Failed to get: "
              (call ssAddress "getDatatokenBalance" [VAddress datatokenAddress]) ;;
  result' <- unitsToAmount (VAddress datatokenAddress) result tokenDecimals ;;
  ret (VAmount result').

(** [contractInstance || this.getContract(ssAddress)]: the contract object
    is built only when none is handed in. *)
Definition estGetVesting (account ssAddress datatokenAddress : Address)
    (contractInstance : option Address) : M Z :=
  sideStaking <- match contractInstance with
                 | Some instance => ret instance
                 | None => getContract ssAddress None ;; ret ssAddress
                 end ;;
  estimateGas account sideStaking "getVesting" [VAddress datatokenAddress].

Definition getVesting (account ssAddress datatokenAddress : Address) : M Value :=
  getContract ssAddress None ;;
  estGas <- estimateGas account ssAddress "getVesting"
              [VAddress datatokenAddress] ;;
  try_catch
    (submit ssAddress "getVesting" [VAddress datatokenAddress] account
       (number_add estGas 1))
    (fun _ =>
       logError "ERROR: Failed to join swap pool amount out" None ;;
       ret VNull).

Definition estSetPoolSwapFee (account ssAddress datatokenAddress poolAddress : Address)
    (swapFee : Z) (contractInstance : option Address) : M Z :=
  sideStaking <- match contractInstance with
                 | Some instance => ret instance
                 | None => getContract ssAddress None ;; ret ssAddress
                 end ;;
  estimateGas account sideStaking "setPoolSwapFee"
    [VAddress datatokenAddress; VAddress poolAddress; VNumber swapFee].

Definition setPoolSwapFee (account ssAddress datatokenAddress poolAddress : Address)
    (swapFee : Z) : M Value :=
  getContract ssAddress None ;;
  estGas <- estimateGas account ssAddress "setPoolSwapFee"
              [VAddress datatokenAddress; VAddress poolAddress; VNumber swapFee] ;;
  try_catch
    (submit ssAddress "setPoolSwapFee"
       [VAddress datatokenAddress; VAddress poolAddress; VNumber swapFee]
       account (number_add estGas 1))
    (fun _ =>
       logError "ERROR: Failed to join swap pool amount out" None ;;
       ret VNull).

End SideStakingUnnamed.

(** ** NftFactory *)

(** The numeric value JavaScript compares with; [None] is [NaN]. *)
Definition to_number (v : Value) : option Z :=
  match v with
  | VUnits n | VNumber n => Some n
  | VBool true => Some 1
  | VBool false | VNull => Some 0
  | _ => None
  end.

(** [n > v] *)
Definition exceeds (n : Z) (v : Value) : bool :=
  match to_number v with
  | Some m => m <? n
  | None => false
  end.

(** [v === b] *)
Definition is_bool (v : Value) (b : bool) : bool :=
  match v with
  | VBool c => Bool.eqb c b
  | _ => false
  end.

(** [!v] *)
Definition falsy (v : Value) : bool :=
  match v with
  | VNull | VUndefined | VBool false => true
  | VNumber n | VUnits n => n =? 0
  | VString s => String.eqb s ""
  | _ => false
  end.

Module NftFactory.

Definition GASLIMIT_DEFAULT : Z := 1000000.

(** [name] and [symbol] are values because [createNFT] tests them for
    absence. *)
Record NftCreateData := mkNftCreateData {
  name : Value;
  symbol : Value;
  templateIndex : Z;
  tokenURI : string;
  transferable : bool;
  owner : Address
}.

(** Of the dispenser parameters only the two fields [createNftErc20WithDispenser]
    rewrites are named. *)
Record DispenserCreationParams := mkDispenserCreationParams {
  maxTokens : Value;
  maxBalance : Value;
  otherFields : list (string * Value)
}.

Definition nft_object (nftData : NftCreateData) : Value :=
  VObject [("name", name nftData); ("symbol", symbol nftData);
           ("templateIndex", VNumber (templateIndex nftData));
           ("tokenURI", VString (tokenURI nftData));
           ("transferable", VBool (transferable nftData));
           ("owner", VAddress (owner nftData))].

Definition dispenser_object (dispenserParams : DispenserCreationParams) : Value :=
  VObject (("maxTokens", maxTokens dispenserParams)
           :: ("maxBalance", maxBalance dispenserParams)
           :: otherFields dispenserParams).

(** [Web3.utils.toWei(v)] for a field that holds a decimal string *)
Definition toWei_value (v : Value) : Result Value :=
  match v with
  | VAmount d => match toWei d with Ok u => Ok (VUnits u) | Thrown e => Thrown e end
  | _ => Thrown (Rejected "Please pass numbers as strings or BN objects to avoid precision errors.")
  end.

(** The arguments of [deployERC721Contract] *)
Definition deploy_args (nftData : NftCreateData) : list Value :=
  [name nftData; symbol nftData; VNumber (templateIndex nftData);
   VAddress ZERO_ADDRESS; VAddress ZERO_ADDRESS;
   VString (tokenURI nftData); VBool (transferable nftData);
   VAddress (owner nftData)].

(** [trxReceipt.events.NFTCreated.returnValues[0]] *)
Definition created_address (receipt : Receipt) : Result Value :=
  match find (fun ev => String.eqb (fst ev) "NFTCreated") (events receipt) with
  | None => Thrown (TypeError "Cannot read properties of undefined (reading 'returnValues')")
  | Some (_, a :: _) => Ok (VAddress a)
  | Some (_, []) => Ok VUndefined
  end.

Section Instance.

(** [this.factory721Address], the contract behind [this.factory721]. *)
Variable factory721Address : Address.

(** [.send({ from, gas: estGas + 1, gasPrice: await getFairGasPrice(...) })]
    on [this.factory721]; the receipt is returned as it is, nothing is
    caught. *)
Definition transact (method : string) (args : list Value) (from : Address)
    (estGas : Z) : M Value :=
  submit factory721Address method args from (number_add estGas 1).

Definition estGasCreateNFT (address : Address) (nftData : NftCreateData) : M Z :=
  try_catch
    (estimateGasRequest address factory721Address "deployERC721Contract"
       (deploy_args nftData))
    (fun _ => ret GASLIMIT_DEFAULT).

Definition getCurrentNFTCount : M Value :=
  call factory721Address "getCurrentNFTCount" [].

Definition getCurrentTokenCount : M Value :=
  call factory721Address "getCurrentTokenCount" [].

Definition getOwner : M Value :=
  call factory721Address "owner" [].

Definition getCurrentNFTTemplateCount : M Value :=
  call factory721Address "getCurrentNFTTemplateCount" [].

Definition getCurrentTokenTemplateCount : M Value :=
  call factory721Address "getCurrentTemplateCount" [].

Definition getNFTTemplate (index : Z) : M Value :=
  count <- getCurrentNFTTemplateCount ;;
  if exceeds index count
  then throw (JsError "Template index doesnt exist" None)
  else if index =? 0
  then throw (JsError "Template index cannot be ZERO" None)
  else call factory721Address "getNFTTemplate" [VNumber index].

Definition getTokenTemplate (index : Z) : M Value :=
  call factory721Address "getTokenTemplate" [VNumber index].

Definition checkDatatoken (datatoken : Address) : M Value :=
  call factory721Address "erc20List" [VAddress datatoken].

Definition checkNFT (nftAddress : Address) : M Value :=
  call factory721Address "erc721List" [VAddress nftAddress].

(** [createNFT] fills in its argument first: a missing template index
    becomes 1, a missing name or symbol is generated. *)
Definition createNFT (address : Address) (nftData : NftCreateData) : M Value :=
  let nftData1 :=
    if templateIndex nftData =? 0
    then mkNftCreateData (name nftData) (symbol nftData) 1 (tokenURI nftData)
           (transferable nftData) (owner nftData)
    else nftData in
  nftData2 <- (if falsy (name nftData1) || falsy (symbol nftData1)
               then
                 generated <- helper "generateDtName" [] ;;
                 name' <- lift (get_field generated "name") ;;
                 symbol' <- lift (get_field generated "symbol") ;;
                 ret (mkNftCreateData name' symbol' (templateIndex nftData1)
                        (tokenURI nftData1) (transferable nftData1)
                        (owner nftData1))
               else ret nftData1) ;;
  count <- getCurrentNFTTemplateCount ;;
  if exceeds (templateIndex nftData2) count
  then throw (JsError "Template index doesnt exist" None)
  else if templateIndex nftData2 =? 0
  then throw (JsError "Template index cannot be ZERO" None)
  else
    template <- getNFTTemplate (templateIndex nftData2) ;;
    isActive <- lift (get_field template "isActive") ;;
    if is_bool isActive false
    then throw (JsError "Template is not active" None)
    else
      estGas <- estGasCreateNFT address nftData2 ;;
      gasPrice <- getFairGasPrice ;;
      trxReceipt <- send factory721Address "deployERC721Contract"
                      (deploy_args nftData2) address (number_add estGas 1) gasPrice ;;
      null_on_failure "ERROR: Failed to create datatoken : "
        (lift (created_address trxReceipt)).

Definition estGasAddNFTTemplate (address templateAddress : Address) : M Z :=
  try_catch
    (estimateGasRequest address factory721Address "add721TokenTemplate"
       [VAddress templateAddress])
    (fun _ => ret GASLIMIT_DEFAULT).

Definition addNFTTemplate (address templateAddress : Address) : M Value :=
  owner <- getOwner ;;
  if differs_from owner address
  then throw (JsError "Caller is not Factory Owner" None)
  else if String.eqb templateAddress ZERO_ADDRESS
  then throw (JsError "Template cannot be ZERO address" None)
  else
    estGas <- estGasAddNFTTemplate address templateAddress ;;
    transact "add721TokenTemplate" [VAddress templateAddress] address estGas.

Definition estGasDisableNFTTemplate (address : Address) (templateIndex : Z) : M Z :=
  try_catch
    (estimateGasRequest address factory721Address "disable721TokenTemplate"
       [VNumber templateIndex])
    (fun _ => ret GASLIMIT_DEFAULT).

Definition disableNFTTemplate (address : Address) (templateIndex : Z) : M Value :=
  owner <- getOwner ;;
  if differs_from owner address
  then throw (JsError "Caller is not Factory Owner" None)
  else
    count <- getCurrentNFTTemplateCount ;;
    if exceeds templateIndex count
    then throw (JsError "Template index doesnt exist" None)
    else if templateIndex =? 0
    then throw (JsError "Template index cannot be ZERO" None)
    else
      estGas <- estGasDisableNFTTemplate address templateIndex ;;
      transact "disable721TokenTemplate" [VNumber templateIndex] address estGas.

Definition estGasReactivateNFTTemplate (address : Address) (templateIndex : Z)
    : M Z :=
  try_catch
    (estimateGasRequest address factory721Address "reactivate721TokenTemplate"
       [VNumber templateIndex])
    (fun _ => ret GASLIMIT_DEFAULT).

Definition reactivateNFTTemplate (address : Address) (templateIndex : Z)
    : M Value :=
  owner <- getOwner ;;
  if differs_from owner address
  then throw (JsError "Caller is not Factory Owner" None)
  else
    count <- getCurrentNFTTemplateCount ;;
    if exceeds templateIndex count
    then throw (JsError "Template index doesnt exist" None)
    else if templateIndex =? 0
    then throw (JsError "Template index cannot be ZERO" None)
    else
      estGas <- estGasReactivateNFTTemplate address templateIndex ;;
      transact "reactivate721TokenTemplate" [VNumber templateIndex] address estGas.

Definition estGasAddTokenTemplate (address templateAddress : Address) : M Z :=
  try_catch
    (estimateGasRequest address factory721Address "addTokenTemplate"
       [VAddress templateAddress])
    (fun _ => ret GASLIMIT_DEFAULT).

Definition addTokenTemplate (address templateAddress : Address) : M Value :=
  owner <- getOwner ;;
  if differs_from owner address
  then throw (JsError "Caller is not Factory Owner" None)
  else if String.eqb templateAddress ZERO_ADDRESS
  then throw (JsError "Template cannot be address ZERO" None)
  else
    estGas <- estGasAddTokenTemplate address templateAddress ;;
    transact "addTokenTemplate" [VAddress templateAddress] address estGas.

Definition estGasDisableTokenTemplate (address : Address) (templateIndex : Z)
    : M Z :=
  try_catch
    (estimateGasRequest address factory721Address "disableTokenTemplate"
       [VNumber templateIndex])
    (fun _ => ret GASLIMIT_DEFAULT).

Definition disableTokenTemplate (address : Address) (templateIndex : Z) : M Value :=
  owner <- getOwner ;;
  if differs_from owner address
  then throw (JsError "Caller is not Factory Owner" None)
  else
    count <- getCurrentTokenTemplateCount ;;
    if exceeds templateIndex count
    then throw (JsError "Template index doesnt exist" None)
    else if templateIndex =? 0
    then throw (JsError "Template index cannot be ZERO" None)
    else
      template <- getTokenTemplate templateIndex ;;
      isActive <- lift (get_field template "isActive") ;;
      if is_bool isActive false
      then throw (JsError "Template is already disabled" None)
      else
        estGas <- estGasDisableTokenTemplate address templateIndex ;;
        transact "disableTokenTemplate" [VNumber templateIndex] address estGas.

Definition estGasReactivateTokenTemplate (address : Address) (templateIndex : Z)
    : M Z :=
  try_catch
    (estimateGasRequest address factory721Address "reactivateTokenTemplate"
       [VNumber templateIndex])
    (fun _ => ret GASLIMIT_DEFAULT).

Definition reactivateTokenTemplate (address : Address) (templateIndex : Z)
    : M Value :=
  owner <- getOwner ;;
  if differs_from owner address
  then throw (JsError "Caller is not Factory Owner" None)
  else
    count <- getCurrentTokenTemplateCount ;;
    if exceeds templateIndex count
    then throw (JsError "Template index doesnt exist" None)
    else if templateIndex =? 0
    then throw (JsError "Template index cannot be ZERO" None)
    else
      template <- getTokenTemplate templateIndex ;;
      isActive <- lift (get_field template "isActive") ;;
      if is_bool isActive true
      then throw (JsError "Template is already active" None)
      else
        estGas <- estGasReactivateTokenTemplate address templateIndex ;;
        transact "reactivateTokenTemplate" [VNumber templateIndex] address estGas.

Definition estGasStartMultipleTokenOrder (address : Address) (orders : list Value)
    : M Z :=
  try_catch
    (estimateGasRequest address factory721Address "startMultipleTokenOrder"
       [VArray orders])
    (fun _ => ret GASLIMIT_DEFAULT).

Definition startMultipleTokenOrder (address : Address) (orders : list Value)
    : M Value :=
  if (50 <? List.length orders)%nat
  then throw (JsError "Too many orders" None)
  else
    estGas <- estGasStartMultipleTokenOrder address orders ;;
    transact "startMultipleTokenOrder" [VArray orders] address estGas.

Definition estGasCreateNftWithErc20 (address : Address)
    (nftCreateData : NftCreateData) (ercParams : Value) : M Z :=
  try_catch
    (ercCreateData <- helper "getErcCreationParams" [ercParams] ;;
     estimateGasRequest address factory721Address "createNftWithErc20"
       [nft_object nftCreateData; ercCreateData])
    (fun _ => ret GASLIMIT_DEFAULT).

Definition createNftWithErc20 (address : Address) (nftCreateData : NftCreateData)
    (ercParams : Value) : M Value :=
  ercCreateData <- helper "getErcCreationParams" [ercParams] ;;
  estGas <- estGasCreateNftWithErc20 address nftCreateData ercParams ;;
  transact "createNftWithErc20" [nft_object nftCreateData; ercCreateData]
    address estGas.

Definition estGasCreateNftErc20WithPool (address : Address)
    (nftCreateData : NftCreateData) (ercParams poolParams : Value) : M Z :=
  try_catch
    (ercCreateData <- helper "getErcCreationParams" [ercParams] ;;
     poolData <- helper "getPoolCreationParams" [poolParams] ;;
     estimateGasRequest address factory721Address "createNftWithErc20WithPool"
       [nft_object nftCreateData; ercCreateData; poolData])
    (fun _ => ret GASLIMIT_DEFAULT).

Definition createNftErc20WithPool (address : Address)
    (nftCreateData : NftCreateData) (ercParams poolParams : Value) : M Value :=
  estGas <- estGasCreateNftErc20WithPool address nftCreateData ercParams
              poolParams ;;
  ercCreateData <- helper "getErcCreationParams" [ercParams] ;;
  poolData <- helper "getPoolCreationParams" [poolParams] ;;
  transact "createNftWithErc20WithPool"
    [nft_object nftCreateData; ercCreateData; poolData] address estGas.

(** The two parameter conversions are outside the [try]. *)
Definition estGasCreateNftErc20WithFixedRate (address : Address)
    (nftCreateData : NftCreateData) (ercParams freParams : Value) : M Z :=
  ercCreateData <- helper "getErcCreationParams" [ercParams] ;;
  fixedData <- helper "getFreCreationParams" [freParams] ;;
  try_catch
    (estimateGasRequest address factory721Address
       "createNftWithErc20WithFixedRate"
       [nft_object nftCreateData; ercCreateData; fixedData])
    (fun _ => ret GASLIMIT_DEFAULT).

(** [getFreCreationParams] is called without [await] here and with
    [await] in the estimation; it is taken as answering at once. *)
Definition createNftErc20WithFixedRate (address : Address)
    (nftCreateData : NftCreateData) (ercParams freParams : Value) : M Value :=
  ercCreateData <- helper "getErcCreationParams" [ercParams] ;;
  fixedData <- helper "getFreCreationParams" [freParams] ;;
  estGas <- estGasCreateNftErc20WithFixedRate address nftCreateData ercParams
              freParams ;;
  transact "createNftWithErc20WithFixedRate"
    [nft_object nftCreateData; ercCreateData; fixedData] address estGas.

Definition estGasCreateNftErc20WithDispenser (address : Address)
    (nftCreateData : NftCreateData) (ercParams : Value)
    (dispenserParams : DispenserCreationParams) : M Z :=
  ercCreateData <- helper "getErcCreationParams" [ercParams] ;;
  try_catch
    (estimateGasRequest address factory721Address
       "createNftWithErc20WithDispenser"
       [nft_object nftCreateData; ercCreateData; dispenser_object dispenserParams])
    (fun e =>
       logError "Failed to estimate gas for createNftErc20WithDispenser" (Some e) ;;
       ret GASLIMIT_DEFAULT).

Definition createNftErc20WithDispenser (address : Address)
    (nftCreateData : NftCreateData) (ercParams : Value)
    (dispenserParams : DispenserCreationParams) : M Value :=
  ercCreateData <- helper "getErcCreationParams" [ercParams] ;;
  maxBalance' <- lift (toWei_value (maxBalance dispenserParams)) ;;
  maxTokens' <- lift (toWei_value (maxTokens dispenserParams)) ;;
  let dispenserParams' :=
    mkDispenserCreationParams maxTokens' maxBalance' (otherFields dispenserParams) in
  estGas <- estGasCreateNftErc20WithDispenser address nftCreateData ercParams
              dispenserParams' ;;
  transact "createNftWithErc20WithDispenser"
    [nft_object nftCreateData; ercCreateData; dispenser_object dispenserParams']
    address estGas.

End Instance.

End NftFactory.

(** ** The mutating operations, enumerated *)

(** The operations that take the [estimateGas] flag: those of [Pool] and of
    [SideStaking], each with the arguments of its call. *)
Inductive FlaggedOperation :=
| SetSwapFee (account poolAddress : Address) (fee : Decimal)
| CollectOPC (caller poolAddress : Address)
| CollectMarketFee (caller poolAddress : Address)
| UpdatePublishMarketFee (caller poolAddress newPublishMarketAddress : Address)
                         (newPublishMarketSwapFee : Decimal)
| SwapExactAmountIn (caller poolAddress : Address)
                    (tokenInOutMarket : Pool.TokenInOutMarket)
                    (amountsInOutMaxFee : Pool.AmountsInMaxFee)
| SwapExactAmountOut (account poolAddress : Address)
                     (tokenInOutMarket : Pool.TokenInOutMarket)
                     (amountsInOutMaxFee : Pool.AmountsOutMaxFee)
| JoinswapExternAmountIn (account poolAddress : Address)
                         (tokenAmountIn minPoolAmountOut : Decimal)
                         (tokenInDecimals : option Z)
| ExitSwapPoolAmountIn (account poolAddress : Address)
                       (poolAmountIn minTokenAmountOut : Decimal)
                       (poolDecimals : option Z)
| GetVesting (account ssAddress datatokenAddress : Address)
| SetPoolSwapFee (account ssAddress datatokenAddress poolAddress : Address)
                 (swapFee : Z).

Definition run_flagged (op : FlaggedOperation) (estimateGas : bool) : M Value :=
  match op with
  | SetSwapFee account pool fee => Pool.setSwapFee account pool fee estimateGas
  | CollectOPC caller pool => Pool.collectOPC caller pool estimateGas
  | CollectMarketFee caller pool => Pool.collectMarketFee caller pool estimateGas
  | UpdatePublishMarketFee caller pool newAddress newFee =>
      Pool.updatePublishMarketFee caller pool newAddress newFee estimateGas
  | SwapExactAmountIn caller pool market amounts =>
      Pool.swapExactAmountIn caller pool market amounts estimateGas
  | SwapExactAmountOut account pool market amounts =>
      Pool.swapExactAmountOut account pool market amounts estimateGas
  | JoinswapExternAmountIn account pool amountIn minOut decimals =>
      Pool.joinswapExternAmountIn account pool amountIn minOut decimals estimateGas
  | ExitSwapPoolAmountIn account pool amountIn minOut decimals =>
      Pool.exitSwapPoolAmountIn account pool amountIn minOut decimals estimateGas
  | GetVesting account ss datatoken =>
      SideStaking.getVesting account ss datatoken estimateGas
  | SetPoolSwapFee account ss datatoken pool swapFee =>
      SideStaking.setPoolSwapFee account ss datatoken pool swapFee estimateGas
  end.

(** The [Pool] operations wrap their submission in [try]/[catch]; those of
    SideStaking.ts do not. *)
Definition of_pool (op : FlaggedOperation) : bool :=
  match op with
  | GetVesting _ _ _ | SetPoolSwapFee _ _ _ _ _ => false
  | _ => true
  end.

(** The mutating operations of [NftFactory]; none takes a flag. *)
Inductive FactoryOperation :=
| CreateNFT (caller : Address) (nftData : NftFactory.NftCreateData)
| AddNFTTemplate (caller templateAddress : Address)
| DisableNFTTemplate (caller : Address) (templateIndex : Z)
| ReactivateNFTTemplate (caller : Address) (templateIndex : Z)
| AddTokenTemplate (caller templateAddress : Address)
| DisableTokenTemplate (caller : Address) (templateIndex : Z)
| ReactivateTokenTemplate (caller : Address) (templateIndex : Z)
| StartMultipleTokenOrder (caller : Address) (orders : list Value)
| CreateNftWithErc20 (caller : Address) (nftCreateData : NftFactory.NftCreateData)
                     (ercParams : Value)
| CreateNftErc20WithPool (caller : Address)
                         (nftCreateData : NftFactory.NftCreateData)
                         (ercParams poolParams : Value)
| CreateNftErc20WithFixedRate (caller : Address)
                              (nftCreateData : NftFactory.NftCreateData)
                              (ercParams freParams : Value)
| CreateNftErc20WithDispenser (caller : Address)
                              (nftCreateData : NftFactory.NftCreateData)
                              (ercParams : Value)
                              (dispenserParams : NftFactory.DispenserCreationParams).

Definition run_factory (factory : Address) (op : FactoryOperation) : M Value :=
  match op with
  | CreateNFT caller nftData => NftFactory.createNFT factory caller nftData
  | AddNFTTemplate caller template => NftFactory.addNFTTemplate factory caller template
  | DisableNFTTemplate caller index =>
      NftFactory.disableNFTTemplate factory caller index
  | ReactivateNFTTemplate caller index =>
      NftFactory.reactivateNFTTemplate factory caller index
  | AddTokenTemplate caller template =>
      NftFactory.addTokenTemplate factory caller template
  | DisableTokenTemplate caller index =>
      NftFactory.disableTokenTemplate factory caller index
  | ReactivateTokenTemplate caller index =>
      NftFactory.reactivateTokenTemplate factory caller index
  | StartMultipleTokenOrder caller orders =>
      NftFactory.startMultipleTokenOrder factory caller orders
  | CreateNftWithErc20 caller nft erc =>
      NftFactory.createNftWithErc20 factory caller nft erc
  | CreateNftErc20WithPool caller nft erc pool =>
      NftFactory.createNftErc20WithPool factory caller nft erc pool
  | CreateNftErc20WithFixedRate caller nft erc fre =>
      NftFactory.createNftErc20WithFixedRate factory caller nft erc fre
  | CreateNftErc20WithDispenser caller nft erc dispenser =>
      NftFactory.createNftErc20WithDispenser factory caller nft erc dispenser
  end.

(** The accessors of [Pool] that return their variable right after the
    [try]/[catch]. *)
Inductive Accessor :=
| SharesBalance (account poolAddress : Address)
| GetNumTokens (poolAddress : Address)
| GetPoolSharesTotalSupply (poolAddress : Address)
| GetCurrentTokens (poolAddress : Address)
| GetFinalTokens (poolAddress : Address)
| GetController (poolAddress : Address)
| GetBasetoken (poolAddress : Address)
| GetDatatoken (poolAddress : Address)
| GetMarketFeeCollector (poolAddress : Address)
| IsBound (poolAddress token : Address)
| IsFinalized (poolAddress : Address)
| GetSwapFee (poolAddress : Address)
| GetNormalizedWeight (poolAddress token : Address)
| GetDenormalizedWeight (poolAddress token : Address)
| GetTotalDenormalizedWeight (poolAddress : Address)
| GetMarketFees (poolAddress token : Address) (tokenDecimals : option Z)
| GetCurrentMarketFees (poolAddress : Address)
| GetCurrentOPCFees (poolAddress : Address)
| GetCommunityFees (poolAddress token : Address) (tokenDecimals : option Z).

Definition run_accessor (acc : Accessor) : M Value :=
  match acc with
  | SharesBalance account pool => Pool.sharesBalance account pool
  | GetNumTokens pool => Pool.getNumTokens pool
  | GetPoolSharesTotalSupply pool => Pool.getPoolSharesTotalSupply pool
  | GetCurrentTokens pool => Pool.getCurrentTokens pool
  | GetFinalTokens pool => Pool.getFinalTokens pool
  | GetController pool => Pool.getController pool
  | GetBasetoken pool => Pool.getBasetoken pool
  | GetDatatoken pool => Pool.getDatatoken pool
  | GetMarketFeeCollector pool => Pool.getMarketFeeCollector pool
  | IsBound pool token => Pool.isBound pool token
  | IsFinalized pool => Pool.isFinalized pool
  | GetSwapFee pool => Pool.getSwapFee pool
  | GetNormalizedWeight pool token => Pool.getNormalizedWeight pool token
  | GetDenormalizedWeight pool token => Pool.getDenormalizedWeight pool token
  | GetTotalDenormalizedWeight pool => Pool.getTotalDenormalizedWeight pool
  | GetMarketFees pool token decimals => Pool.getMarketFees pool token decimals
  | GetCurrentMarketFees pool => Pool.getCurrentMarketFees pool
  | GetCurrentOPCFees pool => Pool.getCurrentOPCFees pool
  | GetCommunityFees pool token decimals =>
      Pool.getCommunityFees pool token decimals
  end.

(** What the accessor is left with when its [try] block failed: the
    initial [null] of its variable, or [undefined] where no [return]
    follows the [catch]. *)
Definition when_failed (acc : Accessor) : Value :=
  match acc with
  | GetCurrentMarketFees _ | GetCurrentOPCFees _ => VUndefined
  | _ => VNull
  end.


(** The operations that start by comparing the caller with the address the
    contract names as fee collector, or as owner. *)
Definition fee_collector_only (op : FlaggedOperation) : option Address :=
  match op with
  | CollectMarketFee caller _ | UpdatePublishMarketFee caller _ _ _ => Some caller
  | _ => None
  end.

Definition factory_owner_only (op : FactoryOperation) : option Address :=
  match op with
  | AddNFTTemplate caller _ | DisableNFTTemplate caller _
  | ReactivateNFTTemplate caller _ | AddTokenTemplate caller _
  | DisableTokenTemplate caller _ | ReactivateTokenTemplate caller _ =>
      Some caller
  | _ => None
  end.

(** The operations that compare an amount of the request with a bound, the
    amount and the bound function. *)
Definition bound_of (op : FlaggedOperation)
    : option (Decimal * (Env -> Decimal -> Decimal)) :=
  match op with
  | SwapExactAmountIn _ _ _ amounts =>
      Some (Pool.tokenAmountIn amounts, cfg_calcMaxExactIn)
  | SwapExactAmountOut _ _ _ amounts =>
      Some (Pool.tokenAmountOut amounts, cfg_calcMaxExactOut)
  | JoinswapExternAmountIn _ _ amountIn _ _ => Some (amountIn, cfg_calcMaxExactIn)
  | _ => None
  end.

(** The [estGas...] method of each factory operation, on the arguments the
    operation is given. *)
Definition run_factory_estimate (factory : Address) (op : FactoryOperation) : M Z :=
  match op with
  | CreateNFT caller nftData => NftFactory.estGasCreateNFT factory caller nftData
  | AddNFTTemplate caller template =>
      NftFactory.estGasAddNFTTemplate factory caller template
  | DisableNFTTemplate caller index =>
      NftFactory.estGasDisableNFTTemplate factory caller index
  | ReactivateNFTTemplate caller index =>
      NftFactory.estGasReactivateNFTTemplate factory caller index
  | AddTokenTemplate caller template =>
      NftFactory.estGasAddTokenTemplate factory caller template
  | DisableTokenTemplate caller index =>
      NftFactory.estGasDisableTokenTemplate factory caller index
  | ReactivateTokenTemplate caller index =>
      NftFactory.estGasReactivateTokenTemplate factory caller index
  | StartMultipleTokenOrder caller orders =>
      NftFactory.estGasStartMultipleTokenOrder factory caller orders
  | CreateNftWithErc20 caller nft erc =>
      NftFactory.estGasCreateNftWithErc20 factory caller nft erc
  | CreateNftErc20WithPool caller nft erc pool =>
      NftFactory.estGasCreateNftErc20WithPool factory caller nft erc pool
  | CreateNftErc20WithFixedRate caller nft erc fre =>
      NftFactory.estGasCreateNftErc20WithFixedRate factory caller nft erc fre
  | CreateNftErc20WithDispenser caller nft erc dispenser =>
      NftFactory.estGasCreateNftErc20WithDispenser factory caller nft erc dispenser
  end.

(** The estimations whose whole body is inside the [try]. *)
Definition estimate_fully_guarded (op : FactoryOperation) : bool :=
  match op with
  | CreateNftErc20WithFixedRate _ _ _ _ | CreateNftErc20WithDispenser _ _ _ _ =>
      false
  | _ => true
  end.

(** The template operations that take an index, with the method that
    counts the templates of their kind. *)
Definition indexed_template (op : FactoryOperation) : option (Z * string) :=
  match op with
  | DisableNFTTemplate _ index | ReactivateNFTTemplate _ index =>
      Some (index, "getCurrentNFTTemplateCount")
  | DisableTokenTemplate _ index | ReactivateTokenTemplate _ index =>
      Some (index, "getCurrentTemplateCount")
  | _ => None
  end.

(** The accessors of SideStaking.ts: a read, a conversion for three of
    them, and nothing caught. *)
Inductive StakingAccessor :=
| GetDatatokenCirculatingSupply (ssAddress datatokenAddress : Address)
| GetDatatokenCurrentCirculatingSupply (ssAddress datatokenAddress : Address)
| GetPublisherAddress (ssAddress datatokenAddress : Address)
| GetStakingBasetoken (ssAddress datatokenAddress : Address)
| GetPoolAddress (ssAddress datatokenAddress : Address)
| GetBasetokenBalance (ssAddress datatokenAddress : Address)
| GetDatatokenBalance (ssAddress datatokenAddress : Address)
                      (tokenDecimals : option Z)
| GetVestingEndBlock (ssAddress datatokenAddress : Address)
| GetVestingAmount (ssAddress datatokenAddress : Address)
                   (tokenDecimals : option Z)
| GetVestingLastBlock (ssAddress datatokenAddress : Address)
| GetVestingAmountSoFar (ssAddress datatokenAddress : Address)
                        (tokenDecimals : option Z)
| GetRouter (ssAddress : Address).

Definition run_staking_accessor (acc : StakingAccessor) : M Value :=
  match acc with
  | GetDatatokenCirculatingSupply ss dt =>
      SideStaking.getDatatokenCirculatingSupply ss dt
  | GetDatatokenCurrentCirculatingSupply ss dt =>
      SideStaking.getDatatokenCurrentCirculatingSupply ss dt
  | GetPublisherAddress ss dt => SideStaking.getPublisherAddress ss dt
  | GetStakingBasetoken ss dt => SideStaking.getBasetoken ss dt
  | GetPoolAddress ss dt => SideStaking.getPoolAddress ss dt
  | GetBasetokenBalance ss dt => SideStaking.getBasetokenBalance ss dt
  | GetDatatokenBalance ss dt decimals =>
      SideStaking.getDatatokenBalance ss dt decimals
  | GetVestingEndBlock ss dt => SideStaking.getVestingEndBlock ss dt
  | GetVestingAmount ss dt decimals => SideStaking.getVestingAmount ss dt decimals
  | GetVestingLastBlock ss dt => SideStaking.getVestingLastBlock ss dt
  | GetVestingAmountSoFar ss dt decimals =>
      SideStaking.getVestingAmountSoFar ss dt decimals
  | GetRouter ss => SideStaking.getRouter ss
  end.

(** The accessors of SideStaking.ts that return an amount converted for
    the datatoken, with the datatoken and the decimals given. *)
Definition converted_for (acc : StakingAccessor) : option (Address * option Z) :=
  match acc with
  | GetDatatokenBalance _ dt decimals | GetVestingAmount _ dt decimals
  | GetVestingAmountSoFar _ dt decimals => Some (dt, decimals)
  | _ => None
  end.

(** The accessors of the revision under src/unnamed/part_001 that convert
    what they read. *)
Inductive UnnamedConversion :=
| UnnamedDatatokenBalance
| UnnamedVestingAmount
| UnnamedVestingAmountSoFar.

Definition run_unnamed_conversion (which : UnnamedConversion)
    (ssAddress datatokenAddress : Address) (tokenDecimals : option Z) : M Value :=
  match which with
  | UnnamedDatatokenBalance =>
      SideStakingUnnamed.getDatatokenBalance ssAddress datatokenAddress
        tokenDecimals
  | UnnamedVestingAmount =>
      SideStakingUnnamed.getvestingAmount ssAddress datatokenAddress tokenDecimals
  | UnnamedVestingAmountSoFar =>
      SideStakingUnnamed.getvestingAmountSoFar ssAddress datatokenAddress
        tokenDecimals
  end.

Definition is_conversion (ev : Event) : bool :=
  match ev with EvUnitsToAmount _ _ _ _ => true | _ => false end.

(** ** Observations on a run *)

Definition is_send (ev : Event) : bool :=
  match ev with EvSend _ _ _ _ _ _ _ => true | _ => false end.

Definition is_estimate (ev : Event) : bool :=
  match ev with EvEstimateGas _ _ _ _ _ => true | _ => false end.

Definition sends (evs : list Event) : list Event := filter is_send evs.




(** *** The call of an operation

    Who asks, which contract, which method: what the operation estimates
    and what it sends. *)


Definition contract_of (op : FlaggedOperation) : Address :=
  match op with
  | SetSwapFee _ pool _ | CollectOPC _ pool | CollectMarketFee _ pool
  | UpdatePublishMarketFee _ pool _ _ | SwapExactAmountIn _ pool _ _
  | SwapExactAmountOut _ pool _ _ | JoinswapExternAmountIn _ pool _ _ _
  | ExitSwapPoolAmountIn _ pool _ _ _ => pool
  | GetVesting _ ss _ | SetPoolSwapFee _ ss _ _ _ => ss
  end.





(** *** What an operation throws by itself

    The exceptions that come from the operation's own [throw] statements,
    from [amount.toString()] on the [null] a swallowed read left, and from
    the conversions it asks of libraries ([toWei], [new Decimal]): all that
    can end it other than a collaborator's failure. *)








(** ** A sample chain

    One pool whose every balance reads 1000 * 10 ^ 18 units, a base token
    with 6 decimals and a datatoken with 18, and bounds of one half (in) and
    one third (out) of the reserve, rounded down at the reserve's
    precision. *)

Module Sample.

Definition alice : Address := "0xA11ce".
Definition collector : Address := "0xC011ec7".
Definition pool : Address := "0xP001".
Definition usdc : Address := "0xU5DC".
Definition datatoken : Address := "0xDA7A".
Definition staking : Address := "0x57A4E".
Definition factory : Address := "0xFAC7".

Definition decimals_of (token : Value) : nat :=
  match token with
  | VAddress a => if String.eqb a usdc then 6%nat else 18%nat
  | _ => 18%nat
  end.

Definition precision (token : Value) (decimals : option Z) : nat :=
  match decimals with
  | Some d => Z.to_nat d
  | None => decimals_of token
  end.

Definition reads (method : string) : Result Value :=
  if String.eqb method "getBalance" then Ok (VUnits (1000 * 10 ^ 18))
  else if String.eqb method "getBaseTokenBalance" then Ok (VUnits 1000000)
  else if String.eqb method "getDatatokenBalance" then Ok (VUnits (5 * 10 ^ 18))
  else if String.eqb method "getNumTokens" then Ok (VUnits 2)
  else if String.eqb method "_publishMarketCollector" then Ok (VAddress collector)
  else if String.eqb method "owner" then Ok (VAddress collector)
  else if String.eqb method "getBaseTokenAddress" then Ok (VAddress usdc)
  else if String.eqb method "getAmountInExactOut" then
    Ok (VObject [("tokenAmountIn", VUnits 2000000); ("lpFeeAmount", VUnits 2000);
                 ("oceanFeeAmount", VUnits 200);
                 ("publishMarketSwapFeeAmount", VUnits 20);
                 ("consumeMarketSwapFeeAmount", VUnits 2)])
  else Ok (VUnits 0).

Definition receipt : Receipt := mkReceipt "0x7a" [("NFTCreated", ["0x0721"])].

Definition convert (token units : Value) (decimals : option Z) : Result Decimal :=
  match units with
  | VUnits u => Ok (mkDecimal u (precision token decimals))
  | _ => Thrown (Rejected "not a number")
  end.

Definition scale (token : Value) (amount : Decimal) (decimals : option Z)
    : Result Z :=
  Ok (coeff amount * 10 ^ Z.of_nat (precision token decimals)
      / 10 ^ Z.of_nat (places amount)).

Definition fraction (divisor : Z) (reserve : Decimal) : Decimal :=
  mkDecimal (coeff reserve / divisor) (places reserve).

(** Every collaborator answers. *)
Definition healthy : Env :=
  mkEnv (fun _ _ method _ => reads method)
        (fun _ _ _ _ _ => Ok 21000)
        (fun _ _ _ _ _ _ _ => Ok receipt)
        (fun _ => Ok (VUnits 1000000000))
        (fun _ => convert)
        (fun _ => scale)
        (fun _ _ _ => Ok (VObject []))
        (fun _ _ => Ok tt)
        (fraction 2) (fraction 3).

(** The contract rejects every transaction. *)
Definition reverting : Env :=
  mkEnv (fun _ _ method _ => reads method)
        (fun _ _ _ _ _ => Ok 21000)
        (fun _ _ _ _ _ _ _ => Thrown (Rejected "execution reverted"))
        (fun _ => Ok (VUnits 1000000000))
        (fun _ => convert)
        (fun _ => scale)
        (fun _ _ _ => Ok (VObject []))
        (fun _ _ => Ok tt)
        (fraction 2) (fraction 3).

(** Every read and every estimation fails; transactions go through. *)
Definition unreachable : Env :=
  mkEnv (fun _ _ _ _ => Thrown (Rejected "connection refused"))
        (fun _ _ _ _ _ => Thrown (Rejected "gas required exceeds allowance"))
        (fun _ _ _ _ _ _ _ => Ok receipt)
        (fun _ => Ok (VUnits 1000000000))
        (fun _ => convert)
        (fun _ => scale)
        (fun _ _ _ => Ok (VObject []))
        (fun _ _ => Ok tt)
        (fraction 2) (fraction 3).

(** An estimate at the limit of the integers a number holds exactly. *)
Definition costly : Env :=
  mkEnv (fun _ _ method _ => reads method)
        (fun _ _ _ _ _ => Ok (2 ^ 53))
        (fun _ _ _ _ _ _ _ => Ok receipt)
        (fun _ => Ok (VUnits 1000000000))
        (fun _ => convert)
        (fun _ => scale)
        (fun _ _ _ => Ok (VObject []))
        (fun _ _ => Ok tt)
        (fraction 2) (fraction 3).

(** No contract object can be built: the address is refused. *)
Definition misaddressed : Env :=
  mkEnv (fun _ _ method _ => reads method)
        (fun _ _ _ _ _ => Ok 21000)
        (fun _ _ _ _ _ _ _ => Ok receipt)
        (fun _ => Ok (VUnits 1000000000))
        (fun _ => convert)
        (fun _ => scale)
        (fun _ _ _ => Ok (VObject []))
        (fun _ _ => Thrown (Rejected "Provided address is invalid"))
        (fraction 2) (fraction 3).

(** Reads answer, estimation fails, transactions go through. *)
Definition no_estimate : Env :=
  mkEnv (fun _ _ method _ => reads method)
        (fun _ _ _ _ _ => Thrown (Rejected "gas required exceeds allowance"))
        (fun _ _ _ _ _ _ _ => Ok receipt)
        (fun _ => Ok (VUnits 1000000000))
        (fun _ => convert)
        (fun _ => scale)
        (fun _ _ _ => Ok (VObject []))
        (fun _ _ => Ok tt)
        (fraction 2) (fraction 3).

(** Selling the datatoken for the base token. *)
Definition selling : Pool.TokenInOutMarket :=
  Pool.mkTokenInOutMarket datatoken usdc collector None None.

Definition one : Decimal := mkDecimal 1 0.
Definition thousand : Decimal := mkDecimal 1000 0.
Definition tenth_percent : Decimal := mkDecimal 1 3.

Definition swap_one : Pool.AmountsInMaxFee :=
  Pool.mkAmountsInMaxFee one one tenth_percent None.

Definition swap_all : Pool.AmountsInMaxFee :=
  Pool.mkAmountsInMaxFee thousand one tenth_percent None.

End Sample.

(** The price limit among the arguments of a swap: the third amount. *)
Definition price_limit (args : list Value) : option Value :=
  match args with
  | [_; VArray [_; _; limit; _]] => Some limit
  | _ => None
  end.

(** The conversions a run asked for, in order. *)
Definition conversions (evs : list Event) : list Event := filter is_conversion evs.

Definition with_templateIndex (nftData : NftFactory.NftCreateData) (index : Z)
    : NftFactory.NftCreateData :=
  NftFactory.mkNftCreateData (NftFactory.name nftData) (NftFactory.symbol nftData)
    index (NftFactory.tokenURI nftData) (NftFactory.transferable nftData)
    (NftFactory.owner nftData).

(** ** A second sample chain

    A factory owned by [Sample.collector] with two templates of each kind,
    the second token template disabled, and a pool that answers quotes. *)

Module Scenario.

Definition template (active : bool) : Value :=
  VObject [("templateAddress", VAddress "0x7e3a"); ("isActive", VBool active)].

Definition reads (method : string) (args : list Value) : Result Value :=
  if String.eqb method "owner" then Ok (VAddress Sample.collector)
  else if String.eqb method "getCurrentNFTTemplateCount" then Ok (VUnits 2)
  else if String.eqb method "getCurrentTemplateCount" then Ok (VUnits 2)
  else if String.eqb method "getNFTTemplate" then Ok (template true)
  else if String.eqb method "getTokenTemplate" then
    match args with
    | [VNumber 2] => Ok (template false)
    | _ => Ok (template true)
    end
  else if String.eqb method "getBalance" then Ok (VUnits (1000 * 10 ^ 18))
  else if String.eqb method "getBaseTokenAddress" then Ok (VAddress Sample.usdc)
  else if String.eqb method "calcPoolOutSingleIn" then Ok (VUnits (5 * 10 ^ 17))
  else if String.eqb method "getAmountOutExactIn" then
    Ok (VObject [("tokenAmountOut", VUnits 1900000); ("lpFeeAmount", VUnits (10 ^ 15));
                 ("oceanFeeAmount", VUnits (10 ^ 14));
                 ("publishMarketSwapFeeAmount", VUnits (10 ^ 13));
                 ("consumeMarketSwapFeeAmount", VUnits (10 ^ 12))])
  else Ok (VUnits 0).

Definition helpers (name : string) (args : list Value) : Result Value :=
  if String.eqb name "generateDtName"
  then Ok (VObject [("name", VString "Brave Whale Token");
                    ("symbol", VString "BRAWHA-7")])
  else Ok (VObject []).

Definition chain : Env :=
  mkEnv (fun _ _ method args => reads method args)
        (fun _ _ _ _ _ => Ok 21000)
        (fun _ _ _ _ _ _ _ => Ok Sample.receipt)
        (fun _ => Ok (VUnits 1000000000))
        (fun _ => Sample.convert)
        (fun _ => Sample.scale)
        (fun _ => helpers)
        (fun _ _ => Ok tt)
        (Sample.fraction 2) (Sample.fraction 3).

(** An NFT without a symbol and without a template index. *)
Definition unnamed_nft : NftFactory.NftCreateData :=
  NftFactory.mkNftCreateData (VString "My NFT") VUndefined 0 "ipfs://metadata"
    true Sample.alice.

Definition generated_args : list Value :=
  [VString "Brave Whale Token"; VString "BRAWHA-7"; VNumber 1;
   VAddress ZERO_ADDRESS; VAddress ZERO_ADDRESS; VString "ipfs://metadata";
   VBool true; VAddress Sample.alice].

(** A swap for exactly one base token with a price limit of one. *)
Definition limited_swap : Pool.AmountsOutMaxFee :=
  Pool.mkAmountsOutMaxFee Sample.one Sample.one Sample.tenth_percent
    (Some Sample.one).

End Scenario.

(** ** FetchHelper.ts *)

Module FetchHelper.

Record RequestInit := mkRequestInit {
  method : option string;
  body : option string;
  headers : list (string * string)
}.

(** What [await response.text()] and [await response.arrayBuffer()] give:
    the body, or a rejection when the body cannot be read. *)
Inductive Body :=
| Read (content : string)
| Unreadable (reason : string).

(** What the helper reads of a [Response]: [ok], the body and the
    [content-disposition] header. *)
Record Response := mkResponse {
  ok : bool;
  text : Body;
  arrayBuffer : Body;
  content_disposition : option string
}.

(** What is thrown: the response itself ([throw result]), an [Error] of the
    helper, or the failure of a collaborator. *)
Inductive Failure :=
| ThrownResponse (response : Response)
| ThrownError (message : string)
| Rejection (reason : string).

Inductive Outcome (A : Type) :=
| Done (a : A)
| Failed (f : Failure).
Arguments Done {A} a.
Arguments Failed {A} f.

Inductive Effect :=
| Fetched (url : string) (opts : option RequestInit) (res : Outcome Response)
| Logged (text : string)
| MadeDirectory (path : string) (res : Outcome unit)
| WroteFile (path content : string) (res : Outcome unit)
| Saved (content filename : string).

(** [fetch] of cross-fetch, [fs] and the regular expression engine: what
    [header.match(/attachment;filename=(.+)/)] captures, if it matches. *)
Record World := mkWorld {
  on_fetch : list Effect -> string -> option RequestInit -> Outcome Response;
  on_mkdirSync : list Effect -> string -> Outcome unit;
  on_writeFileSync : list Effect -> string -> string -> Outcome unit;
  attachment_filename : string -> option string
}.

Definition F (A : Type) := World -> list Effect -> list Effect * Outcome A.

Definition done {A} (a : A) : F A := fun _ _ => ([], Done a).

Definition fail {A} (f : Failure) : F A := fun _ _ => ([], Failed f).

Definition and_then {A B} (m : F A) (k : A -> F B) : F B :=
  fun world h =>
    let '(effects, r) := m world h in
    match r with
    | Done a =>
        let '(effects', r') := k a world (h ++ effects) in (effects ++ effects', r')
    | Failed f => (effects, Failed f)
    end.

Definition read (body : Body) : F string :=
  match body with
  | Read content => done content
  | Unreadable reason => fail (Rejection reason)
  end.

Definition fetch (url : string) (opts : option RequestInit) : F Response :=
  fun world h =>
    let r := on_fetch world h url opts in ([Fetched url opts r], r).

Definition log (text : string) : F unit := fun _ _ => ([Logged text], Done tt).

Definition mkdirSync (path : string) : F unit :=
  fun world h =>
    let r := on_mkdirSync world h path in ([MadeDirectory path r], r).

Definition writeFileSync (path content : string) : F unit :=
  fun world h =>
    let r := on_writeFileSync world h path content in
    ([WroteFile path content r], r).

(** [save(content, filename)] is called and not awaited. *)
Definition save (content filename : string) : F unit :=
  fun _ _ => ([Saved content filename], Done tt).

(** [`${x}`] for an optional string *)
Definition shown (x : option string) : string :=
  match x with
  | Some s => s
  | None => "undefined"
  end.

Definition newline : string := String (ascii_of_nat 10) "".

Definition fetchData (url : string) (opts : RequestInit) : F Response :=
  and_then (fetch url (Some opts)) (fun result =>
  if negb (ok result)
  then
    and_then (log ("Error requesting [" +++ shown (method opts) +++ "] " +++ url))
      (fun _ =>
    and_then (read (text result)) (fun message =>
    and_then (log ("Response message: " +++ newline +++ message)) (fun _ =>
    fail (ThrownResponse result))))
  else done result).

(** [url.split('/').pop()]: what follows the last slash. *)
Fixpoint after_last_slash (url segment : string) : string :=
  match url with
  | EmptyString => segment
  | String c rest =>
      if Ascii.eqb c "/"
      then after_last_slash rest ""
      else after_last_slash rest (segment +++ String c "")
  end.

Definition last_segment (url : string) : string := after_last_slash url "".

(** The name of the downloaded file: the capture of the header, and where
    the header is missing or does not match (the property read on [null]
    throws), the last segment of the URL; [split] and [pop] do not throw, so
    the innermost [catch] with [`file${index}`] is never entered. *)
Definition chosen_filename (world : World) (response : Response) (url : string)
    (index : option nat) : string :=
  match content_disposition response with
  | Some header =>
      match attachment_filename world header with
      | Some name => name
      | None => last_segment url
      end
  | None => last_segment url
  end.

Definition downloadFile (url : string) (destination : option string)
    (index : option nat) : F (option string) :=
  and_then (fetch url None) (fun response =>
  if negb (ok response)
  then fail (ThrownError "Response error.")
  else
    fun world h =>
      let filename := chosen_filename world response url index in
      match destination with
      | Some (String c rest as folder) =>
          and_then (mkdirSync folder) (fun _ =>
          and_then (read (text response)) (fun content =>
          and_then (writeFileSync (folder +++ "/" +++ filename) content)
            (fun _ => done (Some folder)))) world h
      | _ =>
          and_then (read (arrayBuffer response)) (fun content =>
          and_then (save content filename) (fun _ => done None)) world h
      end).

Definition json_headers : list (string * string) :=
  [("Content-type", "application/json")].

Definition getData (url : string) : F Response :=
  fetch url (Some (mkRequestInit (Some "GET") None json_headers)).

(** [payload != null]: neither [null] nor [undefined]. *)
Definition postWithHeaders (url : string) (payload : option string)
    (headers : list (string * string)) : F Response :=
  match payload with
  | Some content => fetch url (Some (mkRequestInit (Some "POST") (Some content) headers))
  | None => fetch url (Some (mkRequestInit (Some "POST") None []))
  end.

Definition postData (url : string) (payload : option string) : F Response :=
  postWithHeaders url payload json_headers.

Definition crossFetchGeneric (method url body : string)
    (headers : list (string * string)) : F Response :=
  fetch url (Some (mkRequestInit (Some method) (Some body) headers)).

Definition touches_files (effect : Effect) : bool :=
  match effect with
  | MadeDirectory _ _ | WroteFile _ _ _ | Saved _ _ => true
  | _ => false
  end.

Fixpoint has_slash (s : string) : bool :=
  match s with
  | EmptyString => false
  | String c rest => Ascii.eqb c "/" || has_slash rest
  end.

End FetchHelper.


(** A server that answers every request with a report to download. *)
Module Download.

Definition report : FetchHelper.Response :=
  FetchHelper.mkResponse true (FetchHelper.Read "quarterly figures")
    (FetchHelper.Read "quarterly figures")
    (Some "attachment;filename=report.pdf").

(** The characters before the first line terminator, which [.] does not
    match. *)
Fixpoint line_of (s : string) : string :=
  match s with
  | EmptyString => ""
  | String c rest =>
      if Ascii.eqb c (ascii_of_nat 10) || Ascii.eqb c (ascii_of_nat 13)
      then ""
      else String c (line_of rest)
  end.

(** What [/attachment;filename=(.+)/] captures: the rest of the line after
    the first [attachment;filename=] that has something after it on its
    line, wherever in the header that is. *)
Fixpoint capture (header : string) : option string :=
  match header with
  | EmptyString => None
  | String _ rest =>
      if String.prefix "attachment;filename=" header
      then
        match line_of (String.substring 20 (String.length header - 20) header) with
        | EmptyString => capture rest
        | name => Some name
        end
      else capture rest
  end.

Definition world : FetchHelper.World :=
  FetchHelper.mkWorld (fun _ _ _ => FetchHelper.Done report)
    (fun _ _ => FetchHelper.Done tt)
    (fun _ _ _ => FetchHelper.Done tt)
    capture.

End Download.

(** * Properties *)

(** ** Proof tools *)

(** [wp m env h Q]: the run of [m] against [env] after [h] emits events and
    ends in an outcome that satisfy [Q].  One rule per construct of the
    monad; the rule of an interaction quantifies over the answer, so a proof
    covers every environment. *)
Definition wp {A} (m : M A) (env : Env) (h : History)
    (Q : list Event -> Result A -> Prop) : Prop :=
  Q (emitted (m env h)) (outcome (m env h)).

Section Rules.

Context {A : Type} (env : Env) (h : History)
        (Q : list Event -> Result A -> Prop).

Lemma wp_ret (a : A) : Q [] (Ok a) -> wp (ret a) env h Q.
Proof. exact (fun H => H). Qed.

Lemma wp_throw (e : Exn) : Q [] (Thrown e) -> wp (throw e) env h Q.
Proof. exact (fun H => H). Qed.

Lemma wp_lift (r : Result A) : Q [] r -> wp (lift r) env h Q.
Proof. exact (fun H => H). Qed.

Lemma wp_bind {B} (m : M B) (k : B -> M A) :
  wp m env h
     (fun evs r =>
        match r with
        | Ok b => wp (k b) env (h ++ evs) (fun evs' r' => Q (evs ++ evs') r')
        | Thrown e => Q evs (Thrown e)
        end) ->
  wp (bind m k) env h Q.
Proof.
  unfold wp, bind, emitted, outcome.
  destruct (m env h) as [evs [b | e]]; cbn [fst snd]; [| exact (fun H => H)].
  destruct (k b env (h ++ evs)) as [evs' r']. exact (fun H => H).
Qed.

Lemma wp_try_catch (m : M A) (handler : Exn -> M A) :
  wp m env h
     (fun evs r =>
        match r with
        | Ok a => Q evs (Ok a)
        | Thrown e =>
            wp (handler e) env (h ++ evs) (fun evs' r' => Q (evs ++ evs') r')
        end) ->
  wp (try_catch m handler) env h Q.
Proof.
  unfold wp, try_catch, emitted, outcome.
  destruct (m env h) as [evs [a | e]]; cbn [fst snd]; [exact (fun H => H) |].
  destruct (handler e env (h ++ evs)) as [evs' r']. exact (fun H => H).
Qed.

End Rules.

Section InteractionRules.

Context (env : Env) (h : History).

Lemma wp_call contract method args (Q : list Event -> Result Value -> Prop) :
  (forall r, Q [EvCall contract method args r] r) ->
  wp (call contract method args) env h Q.
Proof. intros H. apply H. Qed.

Lemma wp_estimateGasRequest from contract method args
    (Q : list Event -> Result Z -> Prop) :
  (forall r, Q [EvEstimateGas from contract method args r] r) ->
  wp (estimateGasRequest from contract method args) env h Q.
Proof. intros H. apply H. Qed.

Lemma wp_send contract method args from gas gasPrice
    (Q : list Event -> Result Receipt -> Prop) :
  (forall r, Q [EvSend contract method args from gas gasPrice r] r) ->
  wp (send contract method args from gas gasPrice) env h Q.
Proof. intros H. apply H. Qed.

Lemma wp_getFairGasPrice (Q : list Event -> Result Value -> Prop) :
  (forall r, Q [EvFairGasPrice r] r) -> wp getFairGasPrice env h Q.
Proof. intros H. apply H. Qed.

Lemma wp_unitsToAmount token units decimals
    (Q : list Event -> Result Decimal -> Prop) :
  (forall r, Q [EvUnitsToAmount token units decimals r] r) ->
  wp (unitsToAmount token units decimals) env h Q.
Proof. intros H. apply H. Qed.

Lemma wp_amountToUnits token amount decimals
    (Q : list Event -> Result Z -> Prop) :
  (forall r, Q [EvAmountToUnits token amount decimals r] r) ->
  wp (amountToUnits token amount decimals) env h Q.
Proof. intros H. apply H. Qed.

Lemma wp_not_awaited (m : M Z) (Q : list Event -> Result Value -> Prop) :
  wp m env h (fun evs r => Q evs (Ok (VPromise r))) ->
  wp (not_awaited m) env h Q.
Proof.
  unfold wp, not_awaited, emitted, outcome.
  destruct (m env h) as [evs r]. exact (fun H => H).
Qed.

Lemma wp_helper name args (Q : list Event -> Result Value -> Prop) :
  (forall r, Q [EvHelper name args r] r) -> wp (helper name args) env h Q.
Proof. intros H. apply H. Qed.

Lemma wp_logError text cause (Q : list Event -> Result unit -> Prop) :
  Q [EvLog text cause] (Ok tt) -> wp (logError text cause) env h Q.
Proof. exact (fun H => H). Qed.

Lemma wp_getContract address account (Q : list Event -> Result unit -> Prop) :
  Q [] (on_getContract env address account) ->
  wp (getContract address account) env h Q.
Proof. exact (fun H => H). Qed.

Lemma wp_calcMaxExactIn reserve (Q : list Event -> Result Decimal -> Prop) :
  Q [] (Ok (cfg_calcMaxExactIn env reserve)) -> wp (calcMaxExactIn reserve) env h Q.
Proof. exact (fun H => H). Qed.

Lemma wp_calcMaxExactOut reserve (Q : list Event -> Result Decimal -> Prop) :
  Q [] (Ok (cfg_calcMaxExactOut env reserve)) ->
  wp (calcMaxExactOut reserve) env h Q.
Proof. exact (fun H => H). Qed.

End InteractionRules.

Ltac head_of t :=
  lazymatch t with
  | ?f _ => head_of f
  | _ => t
  end.

(** One step of a run: apply the rule of the construct at the head, open a
    method by its definition, or split on the answer the run waits for. *)
Ltac wp_step :=
  lazymatch goal with
  | |- wp (bind _ _) _ _ _ => apply wp_bind
  | |- wp (try_catch _ _) _ _ _ => apply wp_try_catch
  | |- wp (ret _) _ _ _ => apply wp_ret
  | |- wp (throw _) _ _ _ => apply wp_throw
  | |- wp (lift _) _ _ _ => apply wp_lift
  | |- wp (call _ _ _) _ _ _ => apply wp_call; intros ?
  | |- wp (estimateGasRequest _ _ _ _) _ _ _ =>
      apply wp_estimateGasRequest; intros ?
  | |- wp (send _ _ _ _ _ _) _ _ _ => apply wp_send; intros ?
  | |- wp getFairGasPrice _ _ _ => apply wp_getFairGasPrice; intros ?
  | |- wp (unitsToAmount _ _ _) _ _ _ => apply wp_unitsToAmount; intros ?
  | |- wp (amountToUnits _ _ _) _ _ _ => apply wp_amountToUnits; intros ?
  | |- wp (not_awaited _) _ _ _ => apply wp_not_awaited
  | |- wp (helper _ _) _ _ _ => apply wp_helper; intros ?
  | |- wp (logError _ _) _ _ _ => apply wp_logError
  | |- wp (getContract _ _) _ _ _ => apply wp_getContract
  | |- wp (calcMaxExactIn _) _ _ _ => apply wp_calcMaxExactIn
  | |- wp (calcMaxExactOut _) _ _ _ => apply wp_calcMaxExactOut
  | |- wp (if ?b then _ else _) _ _ _ => destruct b eqn:?
  | |- wp (match ?x with _ => _ end) _ _ _ => destruct x eqn:?
  | |- wp ?m _ _ _ => let f := head_of m in unfold f
  | H : ?x = _ |- match ?x with _ => _ end => rewrite H
  | |- match ?x with _ => _ end =>
      first [is_var x; destruct x | destruct x eqn:?]
  end; cbn beta iota.

Ltac wp_run := cbn beta iota; repeat wp_step; cbn [app].

(** From a property of the run to the statement about what it emitted and
    how it ended. *)
Lemma wp_elim {A} (m : M A) env h (Q : list Event -> Result A -> Prop) :
  wp m env h Q -> Q (emitted (m env h)) (outcome (m env h)).
Proof. exact (fun H => H). Qed.

(** Building the contract object adds nothing to a run when it succeeds. *)
Lemma after_getContract {A} (k : M A) address account env h u :
  on_getContract env address account = Ok u ->
  (getContract address account ;; k) env h = k env h.
Proof.
  intros H. unfold bind, getContract. rewrite H, app_nil_r.
  destruct (k env h). reflexivity.
Qed.

Ltac find_event :=
  cbn [In app]; solve [repeat (first [left; reflexivity | right])].


Ltac split_membership :=
  cbn [In app] in *;
  repeat match goal with
         | H : _ \/ _ |- _ => destruct H as [H | H]
         | H : False |- _ => destruct H
         | H : @eq Event _ _ |- _ =>
             first [discriminate H | injection H as; subst]
         end.

(** ** Bounds *)

(** The outcome of [getReserve] decides the outcome of the four bounds. *)
Lemma bound_follows_reserve :
  forall (calc : Decimal -> M Decimal) (f : Env -> Decimal -> Decimal),
    (forall d env h, calc d env h = ([], Ok (f env d))) ->
    forall pool token env h,
      (reserve <- Pool.getReserve pool token None ;; calc reserve) env h =
      match Pool.getReserve pool token None env h with
      | (evs, Ok reserve) => (evs, Ok (f env reserve))
      | (evs, Thrown e) => (evs, Thrown e)
      end.
Proof.
  intros calc f Hcalc pool token env h.
  unfold bind.
  destruct (Pool.getReserve pool token None env h) as [evs [reserve | e]].
  - rewrite Hcalc, app_nil_r. reflexivity.
  - reflexivity.
Qed.

(** C10. Against one reserve reading, [getMaxSwapExactIn],
    [getMaxAddLiquidity] and [getMaxRemoveLiquidity] are the same
    computation, [calcMaxExactIn] of the reserve of the token; only
    [getMaxSwapExactOut] applies [calcMaxExactOut]. *)
Theorem liquidity_bounds_equal_swap_in_bound :
  forall pool token env h,
    Pool.getMaxAddLiquidity pool token env h
      = Pool.getMaxSwapExactIn pool token env h
    /\ Pool.getMaxRemoveLiquidity pool token env h
      = Pool.getMaxSwapExactIn pool token env h
    /\ forall evs reserve,
         Pool.getReserve pool token None env h = (evs, Ok reserve) ->
         Pool.getMaxSwapExactIn pool token env h
           = (evs, Ok (cfg_calcMaxExactIn env reserve))
         /\ Pool.getMaxSwapExactOut pool token env h
           = (evs, Ok (cfg_calcMaxExactOut env reserve)).
Proof.
  intros pool token env h.
  split; [reflexivity | split; [reflexivity |]].
  intros evs reserve Hreserve.
  unfold Pool.getMaxSwapExactIn, Pool.getMaxSwapExactOut.
  rewrite (bound_follows_reserve calcMaxExactIn cfg_calcMaxExactIn)
    by reflexivity.
  rewrite (bound_follows_reserve calcMaxExactOut cfg_calcMaxExactOut)
    by reflexivity.
  rewrite Hreserve. split; reflexivity.
Qed.

Lemma liquidity_bounds_equal_swap_in_bound_sample :
  let reading :=
    [EvCall Sample.pool "getBalance" [VAddress Sample.datatoken]
       (Ok (VUnits (1000 * 10 ^ 18)));
     EvUnitsToAmount (VAddress Sample.datatoken) (VUnits (1000 * 10 ^ 18))
       None (Ok (mkDecimal (1000 * 10 ^ 18) 18))] in
  Pool.getMaxSwapExactIn Sample.pool (VAddress Sample.datatoken)
      Sample.healthy []
    = (reading, Ok (Sample.fraction 2 (mkDecimal (1000 * 10 ^ 18) 18)))
  /\ Pool.getMaxSwapExactOut Sample.pool (VAddress Sample.datatoken)
       Sample.healthy []
    = (reading, Ok (Sample.fraction 3 (mkDecimal (1000 * 10 ^ 18) 18))).
Proof.
  apply (proj2 (proj2 (liquidity_bounds_equal_swap_in_bound Sample.pool
                         (VAddress Sample.datatoken) Sample.healthy []))).
  reflexivity.
Defined.

(** A reserve that was read had its contract object built. *)
Lemma reserve_read_builds_contract :
  forall pool token decimals env h evs reserve,
    Pool.getReserve pool token decimals env h = (evs, Ok reserve) ->
    on_getContract env pool None = Ok tt.
Proof.
  intros pool token decimals env h evs reserve.
  unfold Pool.getReserve, bind at 1, try_catch, bind at 1, getContract.
  destruct (on_getContract env pool None) as [[] | e]; [reflexivity |].
  cbn. discriminate.
Qed.

Lemma bound_read_builds_contract :
  forall (calc : Decimal -> M Decimal) pool token env h evs bound,
    (reserve <- Pool.getReserve pool token None ;; calc reserve) env h
      = (evs, Ok bound) ->
    on_getContract env pool None = Ok tt.
Proof.
  intros calc pool token env h evs bound. unfold bind at 1.
  destruct (Pool.getReserve pool token None env h) as [evs' [reserve | e]] eqn:H;
    [| discriminate].
  intros _. eapply reserve_read_builds_contract. exact H.
Qed.

(** Reading a bound asks the contract for a balance and the converter for
    an amount, and nothing else. *)
Lemma bound_reading_is_read_only :
  forall pool token env h evs bound,
    Pool.getMaxSwapExactIn pool token env h = (evs, Ok bound) ->
    existsb is_estimate evs = false /\ existsb is_send evs = false.
Proof.
  intros pool token env h evs bound H.
  change evs with (fst (evs, Ok bound)). rewrite <- H.
  apply (wp_elim (Pool.getMaxSwapExactIn pool token) env h
           (fun evs _ => existsb is_estimate evs = false
                         /\ existsb is_send evs = false)).
  wp_run; split; reflexivity.
Qed.

(** C1. A [tokenAmountIn] above the bound read by [getMaxSwapExactIn] makes
    [swapExactAmountIn] and [getAmountOutExactIn] throw the error that
    carries this bound, right after the bound was read: no gas estimation
    and no transaction follows. *)
Theorem swap_in_above_bound_is_rejected :
  forall env h caller pool market amounts flag tokenOut fee decimalsIn decimalsOut
         evs bound,
    Pool.getMaxSwapExactIn pool (VAddress (Pool.tokenIn market)) env h
      = (evs, Ok bound) ->
    greaterThan (Pool.tokenAmountIn amounts) bound = true ->
    Pool.swapExactAmountIn caller pool market amounts flag env h
      = (evs, Thrown (JsError "tokenAmountIn is greater than " (Some bound)))
    /\ Pool.getAmountOutExactIn pool (Pool.tokenIn market) tokenOut
         (Pool.tokenAmountIn amounts) fee decimalsIn decimalsOut env h
      = (evs, Thrown (JsError "tokenAmountIn is greater than " (Some bound)))
    /\ existsb is_estimate evs = false
    /\ existsb is_send evs = false.
Proof.
  intros env h caller pool market amounts flag tokenOut fee decimalsIn
    decimalsOut evs bound Hbound Hgreater.
  pose proof (bound_read_builds_contract calcMaxExactIn _ _ _ _ _ _ Hbound)
    as Hcontract.
  split; [| split].
  - unfold Pool.swapExactAmountIn.
    rewrite (after_getContract _ _ _ _ _ _ Hcontract).
    unfold bind at 1. rewrite Hbound, Hgreater.
    unfold throw. rewrite app_nil_r. reflexivity.
  - unfold Pool.getAmountOutExactIn.
    rewrite (after_getContract _ _ _ _ _ _ Hcontract).
    unfold bind at 1. rewrite Hbound, Hgreater.
    unfold throw. rewrite app_nil_r. reflexivity.
  - eapply bound_reading_is_read_only; eassumption.
Qed.

Lemma swap_in_above_bound_is_rejected_sample :
  let reading :=
    [EvCall Sample.pool "getBalance" [VAddress Sample.datatoken]
       (Ok (VUnits (1000 * 10 ^ 18)));
     EvUnitsToAmount (VAddress Sample.datatoken) (VUnits (1000 * 10 ^ 18))
       None (Ok (mkDecimal (1000 * 10 ^ 18) 18))] in
  let bound := mkDecimal (500 * 10 ^ 18) 18 in
  Pool.swapExactAmountIn Sample.alice Sample.pool Sample.selling
      Sample.swap_all false Sample.healthy []
    = (reading, Thrown (JsError "tokenAmountIn is greater than " (Some bound)))
  /\ Pool.getAmountOutExactIn Sample.pool Sample.datatoken Sample.usdc
       Sample.thousand Sample.tenth_percent None None Sample.healthy []
    = (reading, Thrown (JsError "tokenAmountIn is greater than " (Some bound)))
  /\ existsb is_estimate reading = false
  /\ existsb is_send reading = false.
Proof.
  apply (swap_in_above_bound_is_rejected Sample.healthy [] Sample.alice
           Sample.pool Sample.selling Sample.swap_all false Sample.usdc
           Sample.tenth_percent None None).
  - reflexivity.
  - reflexivity.
Defined.

(** ** Estimate only *)



(** ** Submission *)

(** C3. [setSwapFee] sends its transaction with the bare estimate as gas
    limit (21000 for an estimate of 21000), where [collectOPC], like every
    other operation, sends the estimate plus one (21001); both ask the gas
    price policy right before sending. *)
Theorem setSwapFee_sends_the_bare_estimate :
  Pool.setSwapFee Sample.alice Sample.pool Sample.tenth_percent false
    Sample.healthy []
  = ([EvEstimateGas Sample.alice Sample.pool "setSwapFee"
        [VAmount Sample.tenth_percent] (Ok 21000);
      EvFairGasPrice (Ok (VUnits 1000000000));
      EvSend Sample.pool "setSwapFee" [VUnits (10 ^ 15)] Sample.alice
        21000 (VUnits 1000000000) (Ok Sample.receipt)],
     Ok (VReceipt Sample.receipt))
  /\ Pool.collectOPC Sample.alice Sample.pool false Sample.healthy []
  = ([EvEstimateGas Sample.alice Sample.pool "collectOPC" [] (Ok 21000);
      EvFairGasPrice (Ok (VUnits 1000000000));
      EvSend Sample.pool "collectOPC" [] Sample.alice
        21001 (VUnits 1000000000) (Ok Sample.receipt)],
     Ok (VReceipt Sample.receipt)).
Proof. split; reflexivity. Qed.

(** Below 2 ^ 53 the sum of two numbers is the sum of the integers; at
    2 ^ 53 adding one changes nothing, and two above it adds two. *)
Lemma number_add_exact :
  forall a b, Z.abs (a + b) < 2 ^ 53 -> number_add a b = a + b.
Proof.
  intros a b H. unfold number_add, to_double. cbv zeta.
  apply Z.ltb_lt in H. rewrite H. reflexivity.
Qed.

Example number_add_at_the_limit :
  number_add (2 ^ 53 - 1) 1 = 2 ^ 53
  /\ number_add (2 ^ 53) 1 = 2 ^ 53
  /\ number_add (2 ^ 53 + 2) 1 = 2 ^ 53 + 4.
Proof. repeat split. Qed.

(** With an estimate of 2 ^ 53, [collectOPC] sends 2 ^ 53 as gas limit. *)
Example margin_lost_at_the_limit :
  Pool.collectOPC Sample.alice Sample.pool false Sample.costly []
  = ([EvEstimateGas Sample.alice Sample.pool "collectOPC" [] (Ok (2 ^ 53));
      EvFairGasPrice (Ok (VUnits 1000000000));
      EvSend Sample.pool "collectOPC" [] Sample.alice
        (2 ^ 53) (VUnits 1000000000) (Ok Sample.receipt)],
     Ok (VReceipt Sample.receipt)).
Proof. reflexivity. Qed.


(** A rejected [swapExactAmountIn] ends in [null], not in an error. *)
Lemma rejected_swap_is_swallowed :
  let run := Pool.swapExactAmountIn Sample.alice Sample.pool Sample.selling
               Sample.swap_one false Sample.reverting [] in
  In (EvSend Sample.pool "swapExactAmountIn"
        [VArray [VAddress Sample.datatoken; VAddress Sample.usdc;
                 VAddress Sample.collector];
         VArray [VUnits (10 ^ 18); VUnits 1000000; VUnits MAX_UINT_256;
                 VUnits (10 ^ 15)]]
        Sample.alice 21001 (VUnits 1000000000)
        (Thrown (Rejected "execution reverted")))
     (emitted run)
  /\ outcome run = Ok VNull
  /\ forall e, outcome run <> Thrown e.
Proof.
  vm_compute. split; [| split].
  - find_event.
  - reflexivity.
  - intros e H. discriminate H.
Qed.

(** C6, as the code has it. When the contract rejects the transaction of a
    mutating call, the transaction is sent once and not again; an operation
    of [Pool] catches the failure, logs it with its cause and returns
    [null]; an operation of SideStaking.ts or of [NftFactory] lets the
    error reach the caller; [getVesting] and [setPoolSwapFee] of the
    revision under src/unnamed/part_001 catch it, log and return [null]. *)
Theorem rejected_submission_is_not_retried :
  (forall op env h contract method args from gas price e,
      In (EvSend contract method args from gas price (Thrown e))
         (emitted (run_flagged op false env h)) ->
      List.length (sends (emitted (run_flagged op false env h))) = 1%nat
      /\ if of_pool op
         then outcome (run_flagged op false env h) = Ok VNull
              /\ exists text,
                   In (EvLog text (Some e)) (emitted (run_flagged op false env h))
         else outcome (run_flagged op false env h) = Thrown e)
  /\ (forall factory op env h contract method args from gas price e,
        In (EvSend contract method args from gas price (Thrown e))
           (emitted (run_factory factory op env h)) ->
        List.length (sends (emitted (run_factory factory op env h))) = 1%nat
        /\ outcome (run_factory factory op env h) = Thrown e)
  /\ (forall account ss datatoken pool fee env h contract method args from gas
             price e,
        (In (EvSend contract method args from gas price (Thrown e))
            (emitted (SideStakingUnnamed.getVesting account ss datatoken env h)) ->
         List.length
           (sends (emitted (SideStakingUnnamed.getVesting account ss datatoken
                              env h))) = 1%nat
         /\ outcome (SideStakingUnnamed.getVesting account ss datatoken env h)
            = Ok VNull
         /\ In (EvLog "ERROR: Failed to join swap pool amount out" None)
               (emitted (SideStakingUnnamed.getVesting account ss datatoken
                           env h)))
        /\ (In (EvSend contract method args from gas price (Thrown e))
               (emitted (SideStakingUnnamed.setPoolSwapFee account ss datatoken
                           pool fee env h)) ->
            List.length
              (sends (emitted (SideStakingUnnamed.setPoolSwapFee account ss
                                 datatoken pool fee env h))) = 1%nat
            /\ outcome (SideStakingUnnamed.setPoolSwapFee account ss datatoken
                          pool fee env h)
               = Ok VNull
            /\ In (EvLog "ERROR: Failed to join swap pool amount out" None)
                  (emitted (SideStakingUnnamed.setPoolSwapFee account ss
                              datatoken pool fee env h)))).
Proof.
  split; [| split].
  - intros op env h contract method args from gas price e.
    pose (post := fun evs (r : Result Value) =>
            In (EvSend contract method args from gas price (Thrown e)) evs ->
            List.length (sends evs) = 1%nat
            /\ if of_pool op
               then r = Ok VNull /\ exists text, In (EvLog text (Some e)) evs
               else r = Thrown e).
    apply (wp_elim (run_flagged op false) env h post).
    destruct op; cbn [run_flagged]; wp_run.
    all: subst post; cbn beta; cbn [of_pool]; intros Hin; split_membership.
    all: split; [reflexivity |].
    all: first [reflexivity | split; [reflexivity | eexists; find_event]].
  - intros factory op env h contract method args from gas price e.
    pose (post := fun evs (r : Result Value) =>
            In (EvSend contract method args from gas price (Thrown e)) evs ->
            List.length (sends evs) = 1%nat /\ r = Thrown e).
    apply (wp_elim (run_factory factory op) env h post).
    destruct op; cbn [run_factory]; wp_run.
    all: subst post; cbn beta; intros Hin; split_membership.
    all: split; reflexivity.
  - intros account ss datatoken pool fee env h contract method args from gas
      price e.
    pose (post := fun evs (r : Result Value) =>
            In (EvSend contract method args from gas price (Thrown e)) evs ->
            List.length (sends evs) = 1%nat
            /\ r = Ok VNull
            /\ In (EvLog "ERROR: Failed to join swap pool amount out" None) evs).
    split.
    + apply (wp_elim (SideStakingUnnamed.getVesting account ss datatoken)
               env h post).
      wp_run.
      all: subst post; cbn beta; intros Hin; split_membership.
      all: split; [reflexivity | split; [reflexivity | find_event]].
    + apply (wp_elim (SideStakingUnnamed.setPoolSwapFee account ss datatoken
                        pool fee) env h post).
      wp_run.
      all: subst post; cbn beta; intros Hin; split_membership.
      all: split; [reflexivity | split; [reflexivity | find_event]].
Qed.

Lemma rejected_submission_is_not_retried_sample :
  let run := run_flagged
               (SetSwapFee Sample.alice Sample.pool Sample.tenth_percent)
               false Sample.reverting [] in
  List.length (sends (emitted run)) = 1%nat
  /\ outcome run = Ok VNull
  /\ exists text,
       In (EvLog text (Some (Rejected "execution reverted"))) (emitted run).
Proof.
  apply (proj1 rejected_submission_is_not_retried
           (SetSwapFee Sample.alice Sample.pool Sample.tenth_percent)
           Sample.reverting [] Sample.pool "setSwapFee" [VUnits (10 ^ 15)]
           Sample.alice 21000 (VUnits 1000000000)
           (Rejected "execution reverted")).
  vm_compute. find_event.
Defined.

(** ** Estimation failure *)



(** The same run, interaction by interaction. *)
Example failed_estimation_then_submission :
  run_factory Sample.factory (AddNFTTemplate Sample.collector "0x7e3a")
    Sample.no_estimate []
  = ([EvCall Sample.factory "owner" [] (Ok (VAddress Sample.collector));
      EvEstimateGas Sample.collector Sample.factory "add721TokenTemplate"
        [VAddress "0x7e3a"] (Thrown (Rejected "gas required exceeds allowance"));
      EvFairGasPrice (Ok (VUnits 1000000000));
      EvSend Sample.factory "add721TokenTemplate" [VAddress "0x7e3a"]
        Sample.collector 1000001 (VUnits 1000000000) (Ok Sample.receipt)],
     Ok (VReceipt Sample.receipt)).
Proof. reflexivity. Qed.

(** ** Failed reads *)

(** [getNumTokens] answers a failed read with [null]. *)
Lemma failed_read_of_getNumTokens_returns_null :
  Pool.getNumTokens Sample.pool Sample.unreachable []
  = ([EvCall Sample.pool "getNumTokens" []
        (Thrown (Rejected "connection refused"));
      EvLog "ERROR: Failed to get number of tokens: "
        (Some (Rejected "connection refused"))],
     Ok VNull).
Proof. reflexivity. Qed.

(** C7, as the code has it. When the contract read of a [Pool] accessor
    fails, the accessor does not fail: it logs the cause and returns what
    its variable held, [null] ([undefined] for [getCurrentMarketFees] and
    [getCurrentOPCFees]). *)
Theorem failed_read_is_logged_and_absent :
  forall acc env h contract method args e,
    In (EvCall contract method args (Thrown e))
       (emitted (run_accessor acc env h)) ->
    outcome (run_accessor acc env h) = Ok (when_failed acc)
    /\ exists text, In (EvLog text (Some e)) (emitted (run_accessor acc env h)).
Proof.
  intros acc env h contract method args e.
  pose (post := fun evs (r : Result Value) =>
          In (EvCall contract method args (Thrown e)) evs ->
          r = Ok (when_failed acc) /\ exists text, In (EvLog text (Some e)) evs).
  apply (wp_elim (run_accessor acc) env h post).
  destruct acc; cbn [run_accessor]; wp_run.
  all: subst post; cbn beta; cbn [when_failed]; intros Hin; split_membership.
  all: split; [reflexivity | eexists; find_event].
Qed.

Lemma failed_read_is_logged_and_absent_sample :
  outcome (run_accessor (SharesBalance Sample.alice Sample.pool)
             Sample.unreachable [])
    = Ok VNull
  /\ exists text,
       In (EvLog text (Some (Rejected "connection refused")))
          (emitted (run_accessor (SharesBalance Sample.alice Sample.pool)
                      Sample.unreachable [])).
Proof.
  apply (failed_read_is_logged_and_absent
           (SharesBalance Sample.alice Sample.pool) Sample.unreachable []
           Sample.pool "balanceOf" [VAddress Sample.alice]).
  left. reflexivity.
Defined.

(** ** Roles *)




(** ** Units *)

(** C2. In the exact-out quote the amount to pay, [tokenAmountIn], an
    amount of the input token, is converted with the decimals of the output
    token: 2000000 units of a 6-decimal token (2 tokens) come back as
    0.000000000002, while the four fees are converted with the decimals of
    the input token. *)
Theorem exact_out_quote_converts_amount_in_with_output_decimals :
  outcome (Pool.getAmountInExactOut Sample.pool Sample.usdc Sample.datatoken
             Sample.one Sample.tenth_percent None None Sample.healthy [])
  = Ok (VObject
          [("tokenAmount", VAmount (mkDecimal 2000000 18));
           ("liquidityProviderSwapFeeAmount", VAmount (mkDecimal 2000 6));
           ("oceanFeeAmount", VAmount (mkDecimal 200 6));
           ("publishMarketSwapFeeAmount", VAmount (mkDecimal 20 6));
           ("consumeMarketSwapFeeAmount", VAmount (mkDecimal 2 6))])
  /\ In (EvUnitsToAmount (VAddress Sample.datatoken) (VUnits 2000000) None
           (Ok (mkDecimal 2000000 18)))
        (emitted (Pool.getAmountInExactOut Sample.pool Sample.usdc
                    Sample.datatoken Sample.one Sample.tenth_percent None None
                    Sample.healthy [])).
Proof.
  split.
  - reflexivity.
  - vm_compute. find_event.
Qed.

(** C9. [SideStaking.getBasetokenBalance] returns the answer of the
    contract as it is, a fixed-point integer (1000000 for one token of 6
    decimals), where [getDatatokenBalance] next to it converts its answer
    with [unitsToAmount].  Its whole run is the one read, once the contract
    object is built. *)
Theorem base_token_balance_is_returned_raw :
  (forall ssAddress datatokenAddress env h,
      SideStaking.getBasetokenBalance ssAddress datatokenAddress env h
      = match on_getContract env ssAddress None with
        | Ok _ =>
            ([EvCall ssAddress "getBaseTokenBalance" [VAddress datatokenAddress]
                (on_call env h ssAddress "getBaseTokenBalance"
                   [VAddress datatokenAddress])],
             on_call env h ssAddress "getBaseTokenBalance"
               [VAddress datatokenAddress])
        | Thrown e => ([], Thrown e)
        end)
  /\ outcome (SideStaking.getBasetokenBalance Sample.staking Sample.datatoken
                Sample.healthy [])
     = Ok (VUnits 1000000)
  /\ outcome (SideStaking.getDatatokenBalance Sample.staking Sample.datatoken
                None Sample.healthy [])
     = Ok (VAmount (mkDecimal (5 * 10 ^ 18) 18)).
Proof.
  split; [| split; reflexivity].
  intros ssAddress datatokenAddress env h.
  unfold SideStaking.getBasetokenBalance, bind, getContract, call.
  destruct (on_getContract env ssAddress None) as [[] | e]; [| reflexivity].
  rewrite app_nil_r. reflexivity.
Qed.

(** ** Further properties: reserves and bounds *)

(** X1. [getReserve] either returns the converted balance after one read and
    one conversion, or logs the failure of the read or of the conversion
    and then throws a [TypeError]; it never returns [null]. *)
Theorem getReserve_converts_or_throws :
  forall pool token decimals env h,
    (exists balance amount,
        Pool.getReserve pool token decimals env h
        = ([EvCall pool "getBalance" [token] (Ok balance);
            EvUnitsToAmount token balance decimals (Ok amount)],
           Ok amount))
    \/ (exists e,
          outcome (Pool.getReserve pool token decimals env h)
          = Thrown (TypeError "Cannot read properties of null (reading 'toString')")
          /\ In (EvLog "ERROR: Failed to get how many tokens       are in the pool: "
                   (Some e))
                (emitted (Pool.getReserve pool token decimals env h))).
Proof.
  intros pool token decimals env h.
  unfold Pool.getReserve, bind, try_catch, getContract, call, unitsToAmount,
    logError, ret, throw, outcome, emitted.
  destruct (on_getContract env pool None) as [[] | e].
  - destruct (on_call env _ pool "getBalance" [token]) as [balance | e].
    + cbn [app fst snd].
      destruct (on_unitsToAmount env _ token balance decimals) as [amount | e].
      * left. exists balance, amount. reflexivity.
      * right. exists e. split; [reflexivity | find_event].
    + right. exists e. split; [reflexivity | find_event].
  - right. exists e. split; [reflexivity | find_event].
Qed.

(** X2. A [tokenAmountOut] above the bound read by [getMaxSwapExactOut] makes
    [swapExactAmountOut] and [getAmountInExactOut] throw the error that
    carries this bound, right after the bound was read. *)
Theorem swap_out_above_bound_is_rejected :
  forall env h account pool market amounts flag tokenIn fee decimalsIn decimalsOut
         evs bound,
    Pool.getMaxSwapExactOut pool (VAddress (Pool.tokenOut market)) env h
      = (evs, Ok bound) ->
    greaterThan (Pool.tokenAmountOut amounts) bound = true ->
    Pool.swapExactAmountOut account pool market amounts flag env h
      = (evs, Thrown (JsError "tokenAmountOut is greater than " (Some bound)))
    /\ Pool.getAmountInExactOut pool tokenIn (Pool.tokenOut market)
         (Pool.tokenAmountOut amounts) fee decimalsIn decimalsOut env h
      = (evs, Thrown (JsError "tokenAmountOut is greater than " (Some bound)))
    /\ existsb is_estimate evs = false
    /\ existsb is_send evs = false.
Proof.
  intros env h account pool market amounts flag tokenIn fee decimalsIn
    decimalsOut evs bound Hbound Hgreater.
  pose proof (bound_read_builds_contract calcMaxExactOut _ _ _ _ _ _ Hbound)
    as Hcontract.
  split; [| split].
  - unfold Pool.swapExactAmountOut.
    rewrite (after_getContract _ _ _ _ _ _ Hcontract).
    unfold bind at 1. rewrite Hbound, Hgreater.
    unfold throw. rewrite app_nil_r. reflexivity.
  - unfold Pool.getAmountInExactOut.
    rewrite (after_getContract _ _ _ _ _ _ Hcontract).
    unfold bind at 1. rewrite Hbound, Hgreater.
    unfold throw. rewrite app_nil_r. reflexivity.
  - change evs with (fst (evs, Ok bound)). rewrite <- Hbound.
    apply (wp_elim (Pool.getMaxSwapExactOut pool
                      (VAddress (Pool.tokenOut market))) env h
             (fun evs _ => existsb is_estimate evs = false
                           /\ existsb is_send evs = false)).
    wp_run; split; reflexivity.
Qed.

Lemma swap_out_above_bound_is_rejected_sample :
  let reading :=
    [EvCall Sample.pool "getBalance" [VAddress Sample.usdc]
       (Ok (VUnits (1000 * 10 ^ 18)));
     EvUnitsToAmount (VAddress Sample.usdc) (VUnits (1000 * 10 ^ 18))
       None (Ok (mkDecimal (1000 * 10 ^ 18) 6))] in
  let bound := mkDecimal 333333333333333333333 6 in
  let amounts :=
    Pool.mkAmountsOutMaxFee Sample.one (mkDecimal (10 ^ 15) 0)
      Sample.tenth_percent None in
  Pool.swapExactAmountOut Sample.alice Sample.pool Sample.selling amounts false
      Sample.healthy []
    = (reading, Thrown (JsError "tokenAmountOut is greater than " (Some bound)))
  /\ Pool.getAmountInExactOut Sample.pool Sample.datatoken Sample.usdc
       (mkDecimal (10 ^ 15) 0) Sample.tenth_percent None None Sample.healthy []
    = (reading, Thrown (JsError "tokenAmountOut is greater than " (Some bound)))
  /\ existsb is_estimate reading = false
  /\ existsb is_send reading = false.
Proof.
  apply (swap_out_above_bound_is_rejected Sample.healthy [] Sample.alice
           Sample.pool Sample.selling
           (Pool.mkAmountsOutMaxFee Sample.one (mkDecimal (10 ^ 15) 0)
              Sample.tenth_percent None)
           false Sample.datatoken Sample.tenth_percent None None).
  - reflexivity.
  - reflexivity.
Defined.

(** An accessor that returned had its contract object built. *)
Lemma basetoken_read_builds_contract :
  forall pool env h evs baseToken,
    Pool.getBasetoken pool env h = (evs, Ok baseToken) ->
    on_getContract env pool None = Ok tt.
Proof.
  intros pool env h evs baseToken.
  unfold Pool.getBasetoken, bind at 1, getContract.
  destruct (on_getContract env pool None) as [[] | e]; [reflexivity |].
  discriminate.
Qed.

(** X3. [joinswapExternAmountIn] reads the base token of the pool and the
    bound for it; an amount above the bound is refused before anything is
    converted, estimated or sent.  The message names [tokenAmountOut]. *)
Theorem join_above_bound_is_rejected :
  forall env h account pool amountIn minOut decimals flag evs1 baseToken evs2 bound,
    Pool.getBasetoken pool env h = (evs1, Ok baseToken) ->
    Pool.getMaxAddLiquidity pool baseToken env (h ++ evs1) = (evs2, Ok bound) ->
    greaterThan amountIn bound = true ->
    Pool.joinswapExternAmountIn account pool amountIn minOut decimals flag env h
      = (evs1 ++ evs2,
         Thrown (JsError "tokenAmountOut is greater than " (Some bound))).
Proof.
  intros env h account pool amountIn minOut decimals flag evs1 baseToken evs2
    bound Hbase Hbound Hgreater.
  unfold Pool.joinswapExternAmountIn.
  rewrite (after_getContract _ _ _ _ _ _
             (basetoken_read_builds_contract _ _ _ _ _ Hbase)).
  unfold bind at 1. rewrite Hbase.
  unfold bind at 1. rewrite Hbound, Hgreater.
  unfold throw. rewrite app_nil_r. reflexivity.
Qed.

Lemma join_above_bound_is_rejected_sample :
  Pool.joinswapExternAmountIn Sample.alice Sample.pool (mkDecimal (10 ^ 15) 0)
    Sample.one None false Sample.healthy []
  = ([EvCall Sample.pool "getBaseTokenAddress" [] (Ok (VAddress Sample.usdc));
      EvCall Sample.pool "getBalance" [VAddress Sample.usdc]
        (Ok (VUnits (1000 * 10 ^ 18)));
      EvUnitsToAmount (VAddress Sample.usdc) (VUnits (1000 * 10 ^ 18))
        None (Ok (mkDecimal (1000 * 10 ^ 18) 6))],
     Thrown (JsError "tokenAmountOut is greater than "
               (Some (mkDecimal (500 * 10 ^ 18) 6)))).
Proof.
  apply (join_above_bound_is_rejected Sample.healthy [] Sample.alice Sample.pool
           (mkDecimal (10 ^ 15) 0) Sample.one None false
           [EvCall Sample.pool "getBaseTokenAddress" []
              (Ok (VAddress Sample.usdc))]
           (VAddress Sample.usdc)).
  - reflexivity.
  - reflexivity.
  - reflexivity.
Defined.

(** X4. An operation that checks a bound asks for an estimate only after the
    check has passed. *)
Theorem estimation_only_within_bound :
  forall op flag amount calc env h from contract method args r,
    bound_of op = Some (amount, calc) ->
    In (EvEstimateGas from contract method args r)
       (emitted (run_flagged op flag env h)) ->
    exists token balance reserve,
      In (EvUnitsToAmount token balance None (Ok reserve))
         (emitted (run_flagged op flag env h))
      /\ greaterThan amount (calc env reserve) = false.
Proof.
  intros op flag amount calc env h from contract method args r Hop.
  pose (post := fun evs (_ : Result Value) =>
          In (EvEstimateGas from contract method args r) evs ->
          exists token balance reserve,
            In (EvUnitsToAmount token balance None (Ok reserve)) evs
            /\ greaterThan amount (calc env reserve) = false).
  apply (wp_elim (run_flagged op flag) env h post).
  destruct op; try discriminate Hop; injection Hop as <- <-;
    cbn [run_flagged]; wp_run.
  all: subst post; cbn beta; intros Hin; split_membership.
  all: do 3 eexists; split; [find_event | eassumption].
Qed.

Lemma estimation_only_within_bound_sample :
  exists token balance reserve,
    In (EvUnitsToAmount token balance None (Ok reserve))
       (emitted (run_flagged
                   (SwapExactAmountIn Sample.alice Sample.pool Sample.selling
                      Sample.swap_one)
                   true Sample.healthy []))
    /\ greaterThan Sample.one (Sample.fraction 2 reserve) = false.
Proof.
  apply (estimation_only_within_bound
           (SwapExactAmountIn Sample.alice Sample.pool Sample.selling
              Sample.swap_one)
           true Sample.one cfg_calcMaxExactIn Sample.healthy []
           Sample.alice Sample.pool "swapExactAmountIn"
           [VArray [VAddress Sample.datatoken; VAddress Sample.usdc;
                    VAddress Sample.collector];
            VArray [VUnits (10 ^ 18); VUnits 1000000; VUnits MAX_UINT_256;
                    VUnits (10 ^ 15)]]
           (Ok 21000)).
  - reflexivity.
  - vm_compute. find_event.
Defined.

(** ** Further properties: submission *)


(** X6. [setSwapFee] asks for the estimate of a call with the fee as given
    and sends the call with the fee in wei. *)
Theorem setSwapFee_estimates_unscaled_fee :
  forall account pool fee flag env h,
    (forall from contract method args r,
        In (EvEstimateGas from contract method args r)
           (emitted (Pool.setSwapFee account pool fee flag env h)) ->
        args = [VAmount fee])
    /\ (forall contract method args from gas price r,
          In (EvSend contract method args from gas price r)
             (emitted (Pool.setSwapFee account pool fee flag env h)) ->
          exists wei, toWei fee = Ok wei /\ args = [VUnits wei]).
Proof.
  intros account pool fee flag env h.
  pose (post := fun evs (_ : Result Value) =>
          (forall from contract method args r,
              In (EvEstimateGas from contract method args r) evs ->
              args = [VAmount fee])
          /\ (forall contract method args from gas price r,
                In (EvSend contract method args from gas price r) evs ->
                exists wei, toWei fee = Ok wei /\ args = [VUnits wei])).
  apply (wp_elim (Pool.setSwapFee account pool fee flag) env h post).
  wp_run.
  all: subst post; cbn beta; split; intros; split_membership.
  all: first [reflexivity | eexists; split; reflexivity].
Qed.

Lemma setSwapFee_estimates_unscaled_fee_sample :
  [VAmount Sample.tenth_percent] = [VAmount Sample.tenth_percent]
  /\ exists wei,
       toWei Sample.tenth_percent = Ok wei /\ [VUnits (10 ^ 15)] = [VUnits wei].
Proof.
  split.
  - apply (proj1 (setSwapFee_estimates_unscaled_fee Sample.alice Sample.pool
                    Sample.tenth_percent false Sample.healthy [])
             Sample.alice Sample.pool "setSwapFee"
             [VAmount Sample.tenth_percent] (Ok 21000)).
    vm_compute. find_event.
  - apply (proj2 (setSwapFee_estimates_unscaled_fee Sample.alice Sample.pool
                    Sample.tenth_percent false Sample.healthy [])
             Sample.pool "setSwapFee" [VUnits (10 ^ 15)] Sample.alice 21000
             (VUnits 1000000000) (Ok Sample.receipt)).
    vm_compute. find_event.
Defined.

(** X7. Without a [maxPrice] both swaps hand the contract [MAX_UINT_256] as
    price limit; with one, [swapExactAmountIn] hands it the converted
    price and [swapExactAmountOut] the promise of the conversion it did not
    await. *)
Theorem swap_price_limit :
  forall caller pool market env h contract method args from gas price r,
    (forall amounts,
        In (EvSend contract method args from gas price r)
           (emitted (Pool.swapExactAmountIn caller pool market amounts false
                       env h)) ->
        match Pool.in_maxPrice amounts with
        | None => price_limit args = Some (VUnits MAX_UINT_256)
        | Some limit =>
            exists token units,
              In (EvAmountToUnits token limit None (Ok units))
                 (emitted (Pool.swapExactAmountIn caller pool market amounts
                             false env h))
              /\ price_limit args = Some (VUnits units)
        end)
    /\ (forall amounts,
          In (EvSend contract method args from gas price r)
             (emitted (Pool.swapExactAmountOut caller pool market amounts false
                         env h)) ->
          match Pool.out_maxPrice amounts with
          | None => price_limit args = Some (VUnits MAX_UINT_256)
          | Some limit =>
              exists token settled,
                In (EvAmountToUnits token limit None settled)
                   (emitted (Pool.swapExactAmountOut caller pool market amounts
                               false env h))
                /\ price_limit args = Some (VPromise settled)
          end).
Proof.
  intros caller pool market env h contract method args from gas price r.
  split; intros amounts.
  - pose (post := fun evs (_ : Result Value) =>
            In (EvSend contract method args from gas price r) evs ->
            match Pool.in_maxPrice amounts with
            | None => price_limit args = Some (VUnits MAX_UINT_256)
            | Some limit =>
                exists token units,
                  In (EvAmountToUnits token limit None (Ok units)) evs
                  /\ price_limit args = Some (VUnits units)
            end).
    apply (wp_elim (Pool.swapExactAmountIn caller pool market amounts false)
             env h post).
    wp_run.
    all: subst post; cbn beta; intros Hin; split_membership.
    all: cbn beta iota.
    all: first [reflexivity | do 2 eexists; split; [find_event | reflexivity]].
  - pose (post := fun evs (_ : Result Value) =>
            In (EvSend contract method args from gas price r) evs ->
            match Pool.out_maxPrice amounts with
            | None => price_limit args = Some (VUnits MAX_UINT_256)
            | Some limit =>
                exists token settled,
                  In (EvAmountToUnits token limit None settled) evs
                  /\ price_limit args = Some (VPromise settled)
            end).
    apply (wp_elim (Pool.swapExactAmountOut caller pool market amounts false)
             env h post).
    wp_run.
    all: subst post; cbn beta; intros Hin; split_membership.
    all: cbn beta iota.
    all: first [reflexivity | do 2 eexists; split; [find_event | reflexivity]].
Qed.

Lemma swap_price_limit_sample :
  exists token settled,
    In (EvAmountToUnits token Sample.one None settled)
       (emitted (Pool.swapExactAmountOut Sample.alice Sample.pool Sample.selling
                   Scenario.limited_swap false Sample.healthy []))
    /\ price_limit
         [VArray [VAddress Sample.datatoken; VAddress Sample.usdc;
                  VAddress Sample.collector];
          VArray [VUnits (10 ^ 18); VUnits 1000000; VPromise (Ok 1000000);
                  VUnits (10 ^ 15)]]
       = Some (VPromise settled).
Proof.
  apply (proj2 (swap_price_limit Sample.alice Sample.pool Sample.selling
                  Sample.healthy [] Sample.pool "swapExactAmountOut"
                  [VArray [VAddress Sample.datatoken; VAddress Sample.usdc;
                           VAddress Sample.collector];
                   VArray [VUnits (10 ^ 18); VUnits 1000000;
                           VPromise (Ok 1000000); VUnits (10 ^ 15)]]
                  Sample.alice 21001 (VUnits 1000000000) (Ok Sample.receipt))
           Scenario.limited_swap).
  vm_compute. find_event.
Defined.

(** ** Further properties: NftFactory *)

(** X8. [createNFT] takes a template index of 0 for 1: the two requests are
    the same computation, so "Template index cannot be ZERO" is never its
    answer to a zero index. *)
Theorem createNFT_zero_index_means_one :
  forall factory caller nftData env h,
    NftFactory.templateIndex nftData = 0 ->
    NftFactory.createNFT factory caller nftData env h
    = NftFactory.createNFT factory caller (with_templateIndex nftData 1) env h.
Proof.
  intros factory caller [name symbol index uri transferable owner] env h Hzero.
  cbn in Hzero. subst index. reflexivity.
Qed.

Lemma createNFT_zero_index_means_one_sample :
  NftFactory.createNFT Sample.factory Sample.alice Scenario.unnamed_nft
    Scenario.chain []
  = NftFactory.createNFT Sample.factory Sample.alice
      (with_templateIndex Scenario.unnamed_nft 1) Scenario.chain [].
Proof.
  apply (createNFT_zero_index_means_one Sample.factory Sample.alice
           Scenario.unnamed_nft Scenario.chain []).
  reflexivity.
Defined.



(** X10. [getNFTTemplate] asks the contract for a template only when the
    index is not 0 and does not exceed the count it has just read. *)
Theorem getNFTTemplate_reads_only_valid_index :
  forall factory index env h args r,
    In (EvCall factory "getNFTTemplate" args r)
       (emitted (NftFactory.getNFTTemplate factory index env h)) ->
    index <> 0
    /\ exists count,
         hd_error (emitted (NftFactory.getNFTTemplate factory index env h))
         = Some (EvCall factory "getCurrentNFTTemplateCount" [] (Ok count))
         /\ exceeds index count = false.
Proof.
  intros factory index env h args r.
  pose (post := fun evs (_ : Result Value) =>
          In (EvCall factory "getNFTTemplate" args r) evs ->
          index <> 0
          /\ exists count,
               hd_error evs
               = Some (EvCall factory "getCurrentNFTTemplateCount" [] (Ok count))
               /\ exceeds index count = false).
  apply (wp_elim (NftFactory.getNFTTemplate factory index) env h post).
  wp_run.
  all: subst post; cbn beta; intros Hin; split_membership.
  all: split;
       [ apply Z.eqb_neq; assumption
       | eexists; split; [reflexivity | assumption] ].
Qed.

Lemma getNFTTemplate_reads_only_valid_index_sample :
  1 <> 0
  /\ exists count,
       hd_error (emitted (NftFactory.getNFTTemplate Sample.factory 1
                            Scenario.chain []))
       = Some (EvCall Sample.factory "getCurrentNFTTemplateCount" [] (Ok count))
       /\ exceeds 1 count = false.
Proof.
  apply (getNFTTemplate_reads_only_valid_index Sample.factory 1 Scenario.chain []
           [VNumber 1] (Ok (Scenario.template true))).
  vm_compute. find_event.
Defined.

(** X11. An operation guarded by a role asks for an estimate only after its
    first interaction, the read of the fee collector of its pool or of the
    owner of the factory, has answered the caller's address. *)
Theorem estimation_only_for_role_holder :
  (forall op flag caller env h from contract method args r,
      fee_collector_only op = Some caller ->
      In (EvEstimateGas from contract method args r)
         (emitted (run_flagged op flag env h)) ->
      exists holder,
        hd_error (emitted (run_flagged op flag env h))
        = Some (EvCall (contract_of op) "_publishMarketCollector" [] (Ok holder))
        /\ differs_from holder caller = false)
  /\ (forall factory op caller env h from contract method args r,
        factory_owner_only op = Some caller ->
        In (EvEstimateGas from contract method args r)
           (emitted (run_factory factory op env h)) ->
        exists holder,
          hd_error (emitted (run_factory factory op env h))
          = Some (EvCall factory "owner" [] (Ok holder))
          /\ differs_from holder caller = false).
Proof.
  split.
  - intros op flag caller env h from contract method args r Hop.
    pose (post := fun evs (_ : Result Value) =>
            In (EvEstimateGas from contract method args r) evs ->
            exists holder,
              hd_error evs
              = Some (EvCall (contract_of op) "_publishMarketCollector" []
                        (Ok holder))
              /\ differs_from holder caller = false).
    apply (wp_elim (run_flagged op flag) env h post).
    destruct op; try discriminate Hop; injection Hop as ->;
      cbn [run_flagged]; wp_run.
    all: subst post; cbn beta; intros Hin; split_membership.
    all: try match goal with
             | H : differs_from VNull _ = false |- _ => discriminate H
             end.
    all: eexists; split; [reflexivity | assumption].
  - intros factory op caller env h from contract method args r Hop.
    pose (post := fun evs (_ : Result Value) =>
            In (EvEstimateGas from contract method args r) evs ->
            exists holder,
              hd_error evs = Some (EvCall factory "owner" [] (Ok holder))
              /\ differs_from holder caller = false).
    apply (wp_elim (run_factory factory op) env h post).
    destruct op; try discriminate Hop; injection Hop as ->;
      cbn [run_factory]; wp_run.
    all: subst post; cbn beta; intros Hin; split_membership.
    all: eexists; split; [reflexivity | assumption].
Qed.

Lemma estimation_only_for_role_holder_sample :
  exists holder,
    hd_error (emitted (run_flagged
                         (CollectMarketFee Sample.collector Sample.pool)
                         true Sample.healthy []))
    = Some (EvCall Sample.pool "_publishMarketCollector" [] (Ok holder))
    /\ differs_from holder Sample.collector = false.
Proof.
  apply (proj1 estimation_only_for_role_holder
           (CollectMarketFee Sample.collector Sample.pool) true Sample.collector
           Sample.healthy [] Sample.collector Sample.pool "collectMarketFee" []
           (Ok 21000)).
  - reflexivity.
  - vm_compute. find_event.
Defined.

(** X12. When the read of the role holder fails, [collectMarketFee] and
    [updatePublishMarketFee] report a caller who is not the fee collector,
    while the template operations of the factory pass on the failure of the
    read. *)
Theorem failed_role_read :
  (forall op flag caller env h contract method args e,
      fee_collector_only op = Some caller ->
      hd_error (emitted (run_flagged op flag env h))
        = Some (EvCall contract method args (Thrown e)) ->
      outcome (run_flagged op flag env h)
        = Thrown (JsError "Caller is not MarketFeeCollector" None))
  /\ (forall factory op caller env h contract method args e,
        factory_owner_only op = Some caller ->
        hd_error (emitted (run_factory factory op env h))
          = Some (EvCall contract method args (Thrown e)) ->
        emitted (run_factory factory op env h)
          = [EvCall contract method args (Thrown e)]
        /\ outcome (run_factory factory op env h) = Thrown e).
Proof.
  split.
  - intros op flag caller env h contract method args e Hop.
    pose (post := fun evs (r : Result Value) =>
            hd_error evs = Some (EvCall contract method args (Thrown e)) ->
            r = Thrown (JsError "Caller is not MarketFeeCollector" None)).
    apply (wp_elim (run_flagged op flag) env h post).
    destruct op; try discriminate Hop; injection Hop as ->;
      cbn [run_flagged]; wp_run.
    all: subst post; cbn beta; cbn [hd_error]; intros Hhd.
    all: try discriminate Hhd.
    all: try reflexivity.
    all: cbn in *; discriminate.
  - intros factory op caller env h contract method args e Hop.
    pose (post := fun evs (r : Result Value) =>
            hd_error evs = Some (EvCall contract method args (Thrown e)) ->
            evs = [EvCall contract method args (Thrown e)] /\ r = Thrown e).
    apply (wp_elim (run_factory factory op) env h post).
    destruct op; try discriminate Hop; injection Hop as ->;
      cbn [run_factory]; wp_run.
    all: subst post; cbn beta; cbn [hd_error]; intros Hhd.
    all: try discriminate Hhd.
    all: injection Hhd as; subst; split; reflexivity.
Qed.

Lemma failed_role_read_sample :
  outcome (run_flagged (CollectMarketFee Sample.collector Sample.pool) false
             Sample.unreachable [])
  = Thrown (JsError "Caller is not MarketFeeCollector" None).
Proof.
  apply (proj1 failed_role_read
           (CollectMarketFee Sample.collector Sample.pool) false Sample.collector
           Sample.unreachable [] Sample.pool "_publishMarketCollector" []
           (Rejected "connection refused")).
  - reflexivity.
  - reflexivity.
Defined.

(** X13. The template operations of the factory ask for an estimate only for
    a template address other than the zero address and for an index that is
    not 0 and does not exceed the count read. *)
Theorem template_arguments_are_checked_before_estimation :
  forall factory op env h from contract method args r,
    In (EvEstimateGas from contract method args r)
       (emitted (run_factory factory op env h)) ->
    match op with
    | AddNFTTemplate _ template | AddTokenTemplate _ template =>
        template <> ZERO_ADDRESS
    | _ => True
    end
    /\ forall index counter,
         indexed_template op = Some (index, counter) ->
         index <> 0
         /\ exists count,
              In (EvCall factory counter [] (Ok count))
                 (emitted (run_factory factory op env h))
              /\ exceeds index count = false.
Proof.
  intros factory op env h from contract method args r.
  pose (post := fun evs (_ : Result Value) =>
          In (EvEstimateGas from contract method args r) evs ->
          match op with
          | AddNFTTemplate _ template | AddTokenTemplate _ template =>
              template <> ZERO_ADDRESS
          | _ => True
          end
          /\ forall index counter,
               indexed_template op = Some (index, counter) ->
               index <> 0
               /\ exists count,
                    In (EvCall factory counter [] (Ok count)) evs
                    /\ exceeds index count = false).
  apply (wp_elim (run_factory factory op) env h post).
  destruct op; cbn [run_factory]; wp_run.
  all: subst post; cbn beta iota; intros Hin; split_membership.
  all: split;
       [ first [ exact I | apply String.eqb_neq; assumption ]
       | intros index counter Hindexed; cbn in Hindexed;
         first [ discriminate Hindexed
               | injection Hindexed as <- <-;
                 split; [ apply Z.eqb_neq; assumption
                        | eexists; split; [find_event | assumption] ] ] ].
Qed.

Lemma template_arguments_are_checked_before_estimation_sample :
  1 <> 0
  /\ exists count,
       In (EvCall Sample.factory "getCurrentNFTTemplateCount" [] (Ok count))
          (emitted (run_factory Sample.factory
                      (DisableNFTTemplate Sample.collector 1) Scenario.chain []))
       /\ exceeds 1 count = false.
Proof.
  refine (proj2 (template_arguments_are_checked_before_estimation Sample.factory
                   (DisableNFTTemplate Sample.collector 1) Scenario.chain []
                   Sample.collector Sample.factory "disable721TokenTemplate"
                   [VNumber 1] (Ok 21000) _)
            1 "getCurrentNFTTemplateCount" eq_refl).
  vm_compute. find_event.
Defined.

(** X14. The token template operations ask for an estimate only when the
    template is not already in the state asked for; the NFT template
    operations do not look at the state. *)
Theorem token_template_state_is_checked_before_estimation :
  forall factory caller index env h from contract method args r,
    (In (EvEstimateGas from contract method args r)
        (emitted (NftFactory.disableTokenTemplate factory caller index env h)) ->
     exists template isActive,
       In (EvCall factory "getTokenTemplate" [VNumber index] (Ok template))
          (emitted (NftFactory.disableTokenTemplate factory caller index env h))
       /\ get_field template "isActive" = Ok isActive
       /\ is_bool isActive false = false)
    /\ (In (EvEstimateGas from contract method args r)
           (emitted (NftFactory.reactivateTokenTemplate factory caller index
                       env h)) ->
        exists template isActive,
          In (EvCall factory "getTokenTemplate" [VNumber index] (Ok template))
             (emitted (NftFactory.reactivateTokenTemplate factory caller index
                         env h))
          /\ get_field template "isActive" = Ok isActive
          /\ is_bool isActive true = false).
Proof.
  intros factory caller index env h from contract method args r.
  split.
  - pose (post := fun evs (_ : Result Value) =>
            In (EvEstimateGas from contract method args r) evs ->
            exists template isActive,
              In (EvCall factory "getTokenTemplate" [VNumber index] (Ok template))
                 evs
              /\ get_field template "isActive" = Ok isActive
              /\ is_bool isActive false = false).
    apply (wp_elim (NftFactory.disableTokenTemplate factory caller index)
             env h post).
    wp_run.
    all: subst post; cbn beta; intros Hin; split_membership.
    all: do 2 eexists; split; [find_event | split; eassumption].
  - pose (post := fun evs (_ : Result Value) =>
            In (EvEstimateGas from contract method args r) evs ->
            exists template isActive,
              In (EvCall factory "getTokenTemplate" [VNumber index] (Ok template))
                 evs
              /\ get_field template "isActive" = Ok isActive
              /\ is_bool isActive true = false).
    apply (wp_elim (NftFactory.reactivateTokenTemplate factory caller index)
             env h post).
    wp_run.
    all: subst post; cbn beta; intros Hin; split_membership.
    all: do 2 eexists; split; [find_event | split; eassumption].
Qed.

Lemma token_template_state_is_checked_before_estimation_sample :
  (exists template isActive,
      In (EvCall Sample.factory "getTokenTemplate" [VNumber 1] (Ok template))
         (emitted (NftFactory.disableTokenTemplate Sample.factory
                     Sample.collector 1 Scenario.chain []))
      /\ get_field template "isActive" = Ok isActive
      /\ is_bool isActive false = false)
  /\ (exists template isActive,
        In (EvCall Sample.factory "getTokenTemplate" [VNumber 2] (Ok template))
           (emitted (NftFactory.reactivateTokenTemplate Sample.factory
                       Sample.collector 2 Scenario.chain []))
        /\ get_field template "isActive" = Ok isActive
        /\ is_bool isActive true = false).
Proof.
  split.
  - apply (proj1 (token_template_state_is_checked_before_estimation
                    Sample.factory Sample.collector 1 Scenario.chain []
                    Sample.collector Sample.factory "disableTokenTemplate"
                    [VNumber 1] (Ok 21000))).
    vm_compute. find_event.
  - apply (proj2 (token_template_state_is_checked_before_estimation
                    Sample.factory Sample.collector 2 Scenario.chain []
                    Sample.collector Sample.factory "reactivateTokenTemplate"
                    [VNumber 2] (Ok 21000))).
    vm_compute. find_event.
Defined.

(** X15. The estimations of the factory whose whole body is inside the [try]
    never throw: they return the estimate the contract answered, or
    [GASLIMIT_DEFAULT]. *)
Theorem factory_estimate_never_throws :
  forall factory op env h,
    estimate_fully_guarded op = true ->
    exists n,
      outcome (run_factory_estimate factory op env h) = Ok n
      /\ (n = NftFactory.GASLIMIT_DEFAULT
          \/ exists from contract method args,
               In (EvEstimateGas from contract method args (Ok n))
                  (emitted (run_factory_estimate factory op env h))).
Proof.
  intros factory op env h Hop.
  pose (post := fun evs (r : Result Z) =>
          exists n,
            r = Ok n
            /\ (n = NftFactory.GASLIMIT_DEFAULT
                \/ exists from contract method args,
                     In (EvEstimateGas from contract method args (Ok n)) evs)).
  apply (wp_elim (run_factory_estimate factory op) env h post).
  destruct op; try discriminate Hop; cbn [run_factory_estimate]; wp_run.
  all: subst post; cbn beta; eexists; split; [reflexivity |].
  all: first [ left; reflexivity | right; do 4 eexists; find_event ].
Qed.

Lemma factory_estimate_never_throws_sample :
  exists n,
    outcome (run_factory_estimate Sample.factory
               (AddNFTTemplate Sample.collector "0x7e3a") Sample.no_estimate [])
    = Ok n
    /\ (n = NftFactory.GASLIMIT_DEFAULT
        \/ exists from contract method args,
             In (EvEstimateGas from contract method args (Ok n))
                (emitted (run_factory_estimate Sample.factory
                            (AddNFTTemplate Sample.collector "0x7e3a")
                            Sample.no_estimate []))).
Proof.
  apply (factory_estimate_never_throws Sample.factory
           (AddNFTTemplate Sample.collector "0x7e3a") Sample.no_estimate []).
  reflexivity.
Defined.

(** X16. Once the transaction of [createNFT] is confirmed, [createNFT] does
    not throw: it returns the first return value of the [NFTCreated] event
    of the receipt, and [null], after a log, when the receipt has no such
    event. *)
Theorem createNFT_returns_created_address :
  forall factory caller nftData env h contract method args from gas price receipt,
    In (EvSend contract method args from gas price (Ok receipt))
       (emitted (NftFactory.createNFT factory caller nftData env h)) ->
    outcome (NftFactory.createNFT factory caller nftData env h)
    = Ok (match NftFactory.created_address receipt with
          | Ok created => created
          | Thrown _ => VNull
          end)
    /\ (forall e, NftFactory.created_address receipt = Thrown e ->
          In (EvLog "ERROR: Failed to create datatoken : " (Some e))
             (emitted (NftFactory.createNFT factory caller nftData env h))).
Proof.
  intros factory caller nftData env h contract method args from gas price receipt.
  pose (post := fun evs (r : Result Value) =>
          In (EvSend contract method args from gas price (Ok receipt)) evs ->
          r = Ok (match NftFactory.created_address receipt with
                  | Ok created => created
                  | Thrown _ => VNull
                  end)
          /\ (forall e, NftFactory.created_address receipt = Thrown e ->
                In (EvLog "ERROR: Failed to create datatoken : " (Some e)) evs)).
  apply (wp_elim (NftFactory.createNFT factory caller nftData) env h post).
  wp_run.
  all: subst post; cbn beta; intros Hin; split_membership.
  all: match goal with
       | H : NftFactory.created_address _ = _ |- _ => rewrite H
       end.
  all: split; [reflexivity | intros e' He'; try discriminate He'].
  all: injection He' as <-; find_event.
Qed.

Lemma createNFT_returns_created_address_sample :
  outcome (NftFactory.createNFT Sample.factory Sample.alice Scenario.unnamed_nft
             Scenario.chain [])
  = Ok (VAddress "0x0721")
  /\ (forall e, NftFactory.created_address Sample.receipt = Thrown e ->
        In (EvLog "ERROR: Failed to create datatoken : " (Some e))
           (emitted (NftFactory.createNFT Sample.factory Sample.alice
                       Scenario.unnamed_nft Scenario.chain []))).
Proof.
  apply (createNFT_returns_created_address Sample.factory Sample.alice
           Scenario.unnamed_nft Scenario.chain []
           Sample.factory "deployERC721Contract" Scenario.generated_args
           Sample.alice 21001 (VUnits 1000000000) Sample.receipt).
  vm_compute. find_event.
Defined.

(** ** Further properties: SideStaking *)

(** X17. The accessors of SideStaking.ts catch nothing: a failed read is the
    outcome of the accessor, after that one read, with nothing logged and
    nothing converted. *)
Theorem staking_read_failure_reaches_caller :
  forall acc env h contract method args e,
    In (EvCall contract method args (Thrown e))
       (emitted (run_staking_accessor acc env h)) ->
    emitted (run_staking_accessor acc env h)
      = [EvCall contract method args (Thrown e)]
    /\ outcome (run_staking_accessor acc env h) = Thrown e.
Proof.
  intros acc env h contract method args e.
  pose (post := fun evs (r : Result Value) =>
          In (EvCall contract method args (Thrown e)) evs ->
          evs = [EvCall contract method args (Thrown e)] /\ r = Thrown e).
  apply (wp_elim (run_staking_accessor acc) env h post).
  destruct acc; cbn [run_staking_accessor]; wp_run.
  all: subst post; cbn beta; intros Hin; split_membership.
  all: split; reflexivity.
Qed.

Lemma staking_read_failure_reaches_caller_sample :
  emitted (run_staking_accessor
             (GetDatatokenBalance Sample.staking Sample.datatoken None)
             Sample.unreachable [])
  = [EvCall Sample.staking "getDatatokenBalance" [VAddress Sample.datatoken]
       (Thrown (Rejected "connection refused"))]
  /\ outcome (run_staking_accessor
                (GetDatatokenBalance Sample.staking Sample.datatoken None)
                Sample.unreachable [])
     = Thrown (Rejected "connection refused").
Proof.
  apply (staking_read_failure_reaches_caller
           (GetDatatokenBalance Sample.staking Sample.datatoken None)
           Sample.unreachable []).
  left. reflexivity.
Defined.

(** X18. [getDatatokenBalance], [getVestingAmount] and [getVestingAmountSoFar]
    of SideStaking.ts return what the converter answers for the value read,
    asked for the datatoken and with the decimals the caller gave; the
    other accessors never ask the converter. *)
Theorem staking_amounts_are_converted_for_the_datatoken :
  forall acc env h,
    match converted_for acc with
    | Some (datatoken, decimals) =>
        forall v, outcome (run_staking_accessor acc env h) = Ok v ->
          exists contract method args raw amount,
            emitted (run_staking_accessor acc env h)
            = [EvCall contract method args (Ok raw);
               EvUnitsToAmount (VAddress datatoken) raw decimals (Ok amount)]
            /\ v = VAmount amount
    | None =>
        existsb is_conversion (emitted (run_staking_accessor acc env h)) = false
    end.
Proof.
  intros acc env h.
  pose (post := fun evs (r : Result Value) =>
          match converted_for acc with
          | Some (datatoken, decimals) =>
              forall v, r = Ok v ->
                exists contract method args raw amount,
                  evs = [EvCall contract method args (Ok raw);
                         EvUnitsToAmount (VAddress datatoken) raw decimals
                           (Ok amount)]
                  /\ v = VAmount amount
          | None => existsb is_conversion evs = false
          end).
  apply (wp_elim (run_staking_accessor acc) env h post).
  destruct acc; cbn [run_staking_accessor]; wp_run.
  all: subst post; cbn beta iota delta [converted_for].
  all: try reflexivity.
  all: intros v Hv; try discriminate Hv; injection Hv as <-.
  all: do 5 eexists; split; reflexivity.
Qed.

Lemma staking_amounts_are_converted_for_the_datatoken_sample :
  exists contract method args raw amount,
    emitted (run_staking_accessor
               (GetDatatokenBalance Sample.staking Sample.datatoken None)
               Sample.healthy [])
    = [EvCall contract method args (Ok raw);
       EvUnitsToAmount (VAddress Sample.datatoken) raw None (Ok amount)]
    /\ VAmount (mkDecimal (5 * 10 ^ 18) 18) = VAmount amount.
Proof.
  apply (staking_amounts_are_converted_for_the_datatoken
           (GetDatatokenBalance Sample.staking Sample.datatoken None)
           Sample.healthy []).
  reflexivity.
Defined.

(** X19. In the revision under src/unnamed/part_001 the conversion is after
    the [catch]: when the read fails, the converter is asked to convert
    [null]. *)
Theorem unnamed_conversion_of_null :
  forall which ss datatoken decimals env h contract method args e,
    In (EvCall contract method args (Thrown e))
       (emitted (run_unnamed_conversion which ss datatoken decimals env h)) ->
    exists r,
      emitted (run_unnamed_conversion which ss datatoken decimals env h)
      = [EvCall contract method args (Thrown e);
         EvLog "ERROR: Failed to get: " (Some e);
         EvUnitsToAmount (VAddress datatoken) VNull decimals r]
      /\ outcome (run_unnamed_conversion which ss datatoken decimals env h)
         = match r with
           | Ok amount => Ok (VAmount amount)
           | Thrown e' => Thrown e'
           end.
Proof.
  intros which ss datatoken decimals env h contract method args e.
  pose (post := fun evs (r : Result Value) =>
          In (EvCall contract method args (Thrown e)) evs ->
          exists r',
            evs = [EvCall contract method args (Thrown e);
                   EvLog "ERROR: Failed to get: " (Some e);
                   EvUnitsToAmount (VAddress datatoken) VNull decimals r']
            /\ r = match r' with
                   | Ok amount => Ok (VAmount amount)
                   | Thrown e' => Thrown e'
                   end).
  apply (wp_elim (run_unnamed_conversion which ss datatoken decimals) env h post).
  destruct which; cbn [run_unnamed_conversion]; wp_run.
  all: subst post; cbn beta; intros Hin; split_membership.
  all: eexists; split; reflexivity.
Qed.

Lemma unnamed_conversion_of_null_sample :
  exists r,
    emitted (run_unnamed_conversion UnnamedVestingAmount Sample.staking
               Sample.datatoken None Sample.unreachable [])
    = [EvCall Sample.staking "getvestingAmount" [VAddress Sample.datatoken]
         (Thrown (Rejected "connection refused"));
       EvLog "ERROR: Failed to get: " (Some (Rejected "connection refused"));
       EvUnitsToAmount (VAddress Sample.datatoken) VNull None r]
    /\ outcome (run_unnamed_conversion UnnamedVestingAmount Sample.staking
                  Sample.datatoken None Sample.unreachable [])
       = match r with
         | Ok amount => Ok (VAmount amount)
         | Thrown e' => Thrown e'
         end.
Proof.
  apply (unnamed_conversion_of_null UnnamedVestingAmount Sample.staking
           Sample.datatoken None Sample.unreachable []).
  left. reflexivity.
Defined.

(** X20. As long as the transaction is confirmed, [getVesting] and
    [setPoolSwapFee] of the two revisions of SideStaking run alike. *)
Theorem staking_revisions_agree_on_success :
  forall account ss datatoken pool fee env h,
    (forall v,
        outcome (SideStaking.getVesting account ss datatoken false env h) = Ok v ->
        SideStakingUnnamed.getVesting account ss datatoken env h
        = SideStaking.getVesting account ss datatoken false env h)
    /\ (forall v,
          outcome (SideStaking.setPoolSwapFee account ss datatoken pool fee false
                     env h) = Ok v ->
          SideStakingUnnamed.setPoolSwapFee account ss datatoken pool fee env h
          = SideStaking.setPoolSwapFee account ss datatoken pool fee false env h).
Proof.
  intros account ss datatoken pool fee env h.
  unfold SideStaking.getVesting, SideStakingUnnamed.getVesting,
    SideStaking.setPoolSwapFee, SideStakingUnnamed.setPoolSwapFee,
    calculateEstimatedGas, estimateGas, submit, bind, try_catch, getContract,
    estimateGasRequest, getFairGasPrice, send, ret, outcome.
  split; intros v.
  - destruct (on_getContract env ss None) as [[] | e]; cbn [snd app];
      [| discriminate].
    destruct (on_estimateGas env _ account ss "getVesting" [VAddress datatoken])
      as [n | e]; cbn [snd app]; [| discriminate].
    destruct (on_fairGasPrice env _) as [p | e]; cbn [snd app]; [| discriminate].
    destruct (on_send env _ ss "getVesting" _ account _ p) as [rc | e];
      cbn [snd app]; [reflexivity | discriminate].
  - destruct (on_getContract env ss None) as [[] | e]; cbn [snd app];
      [| discriminate].
    destruct (on_estimateGas env _ account ss "setPoolSwapFee" _)
      as [n | e]; cbn [snd app]; [| discriminate].
    destruct (on_fairGasPrice env _) as [p | e]; cbn [snd app]; [| discriminate].
    destruct (on_send env _ ss "setPoolSwapFee" _ account _ p) as [rc | e];
      cbn [snd app]; [reflexivity | discriminate].
Qed.

Lemma staking_revisions_agree_on_success_sample :
  SideStakingUnnamed.getVesting Sample.alice Sample.staking Sample.datatoken
    Sample.healthy []
  = SideStaking.getVesting Sample.alice Sample.staking Sample.datatoken false
      Sample.healthy [].
Proof.
  apply (proj1 (staking_revisions_agree_on_success Sample.alice Sample.staking
                  Sample.datatoken Sample.pool 0 Sample.healthy [])
           (VReceipt Sample.receipt)).
  reflexivity.
Defined.

(** ** Further properties: quotes and reads *)

(** X21. A quote that is returned was built from six conversions, in this
    order: the reserve for the bound, the amount, and the four fees.  The
    exact-in quote converts its amount for [tokenOut] and the fees for
    [tokenIn], each from the field of the contract's answer with its
    name. *)
Theorem exact_in_quote_conversions :
  forall pool tokenIn tokenOut amountIn fee decimalsIn decimalsOut env h fields,
    outcome (Pool.getAmountOutExactIn pool tokenIn tokenOut amountIn fee
               decimalsIn decimalsOut env h) = Ok (VObject fields) ->
    exists quoteArgs answer balance reserve
           rawAmount rawLp rawOcean rawPublish rawConsume
           amount lp ocean publish consume,
      In (EvCall pool "getAmountOutExactIn" quoteArgs (Ok answer))
         (emitted (Pool.getAmountOutExactIn pool tokenIn tokenOut amountIn fee
                     decimalsIn decimalsOut env h))
      /\ get_field answer "tokenAmountOut" = Ok rawAmount
      /\ get_field answer "lpFeeAmount" = Ok rawLp
      /\ get_field answer "oceanFeeAmount" = Ok rawOcean
      /\ get_field answer "publishMarketSwapFeeAmount" = Ok rawPublish
      /\ get_field answer "consumeMarketSwapFeeAmount" = Ok rawConsume
      /\ conversions
           (emitted (Pool.getAmountOutExactIn pool tokenIn tokenOut amountIn fee
                       decimalsIn decimalsOut env h))
         = [EvUnitsToAmount (VAddress tokenIn) balance None (Ok reserve);
            EvUnitsToAmount (VAddress tokenOut) rawAmount decimalsOut (Ok amount);
            EvUnitsToAmount (VAddress tokenIn) rawLp decimalsIn (Ok lp);
            EvUnitsToAmount (VAddress tokenIn) rawOcean decimalsIn (Ok ocean);
            EvUnitsToAmount (VAddress tokenIn) rawPublish decimalsIn (Ok publish);
            EvUnitsToAmount (VAddress tokenIn) rawConsume decimalsIn (Ok consume)]
      /\ fields = [("tokenAmount", VAmount amount);
                   ("liquidityProviderSwapFeeAmount", VAmount lp);
                   ("oceanFeeAmount", VAmount ocean);
                   ("publishMarketSwapFeeAmount", VAmount publish);
                   ("consumeMarketSwapFeeAmount", VAmount consume)].
Proof.
  intros pool tokenIn tokenOut amountIn fee decimalsIn decimalsOut env h fields.
  pose (post := fun evs (r : Result Value) =>
          r = Ok (VObject fields) ->
          exists quoteArgs answer balance reserve
                 rawAmount rawLp rawOcean rawPublish rawConsume
                 amount lp ocean publish consume,
            In (EvCall pool "getAmountOutExactIn" quoteArgs (Ok answer)) evs
            /\ get_field answer "tokenAmountOut" = Ok rawAmount
            /\ get_field answer "lpFeeAmount" = Ok rawLp
            /\ get_field answer "oceanFeeAmount" = Ok rawOcean
            /\ get_field answer "publishMarketSwapFeeAmount" = Ok rawPublish
            /\ get_field answer "consumeMarketSwapFeeAmount" = Ok rawConsume
            /\ conversions evs
               = [EvUnitsToAmount (VAddress tokenIn) balance None (Ok reserve);
                  EvUnitsToAmount (VAddress tokenOut) rawAmount decimalsOut
                    (Ok amount);
                  EvUnitsToAmount (VAddress tokenIn) rawLp decimalsIn (Ok lp);
                  EvUnitsToAmount (VAddress tokenIn) rawOcean decimalsIn (Ok ocean);
                  EvUnitsToAmount (VAddress tokenIn) rawPublish decimalsIn
                    (Ok publish);
                  EvUnitsToAmount (VAddress tokenIn) rawConsume decimalsIn
                    (Ok consume)]
            /\ fields = [("tokenAmount", VAmount amount);
                         ("liquidityProviderSwapFeeAmount", VAmount lp);
                         ("oceanFeeAmount", VAmount ocean);
                         ("publishMarketSwapFeeAmount", VAmount publish);
                         ("consumeMarketSwapFeeAmount", VAmount consume)]).
  apply (wp_elim (Pool.getAmountOutExactIn pool tokenIn tokenOut amountIn fee
                    decimalsIn decimalsOut) env h post).
  wp_run.
  all: subst post; cbn beta; intros Hr; try discriminate Hr.
  injection Hr as <-.
  do 14 eexists.
  split; [find_event |].
  repeat (split; [eassumption |]).
  split; reflexivity.
Qed.

Lemma exact_in_quote_conversions_sample :
  exists quoteArgs answer balance reserve
         rawAmount rawLp rawOcean rawPublish rawConsume
         amount lp ocean publish consume,
    In (EvCall Sample.pool "getAmountOutExactIn" quoteArgs (Ok answer))
       (emitted (Pool.getAmountOutExactIn Sample.pool Sample.datatoken Sample.usdc
                   Sample.one Sample.tenth_percent None None Scenario.chain []))
    /\ get_field answer "tokenAmountOut" = Ok rawAmount
    /\ get_field answer "lpFeeAmount" = Ok rawLp
    /\ get_field answer "oceanFeeAmount" = Ok rawOcean
    /\ get_field answer "publishMarketSwapFeeAmount" = Ok rawPublish
    /\ get_field answer "consumeMarketSwapFeeAmount" = Ok rawConsume
    /\ conversions
         (emitted (Pool.getAmountOutExactIn Sample.pool Sample.datatoken
                     Sample.usdc Sample.one Sample.tenth_percent None None
                     Scenario.chain []))
       = [EvUnitsToAmount (VAddress Sample.datatoken) balance None (Ok reserve);
          EvUnitsToAmount (VAddress Sample.usdc) rawAmount None (Ok amount);
          EvUnitsToAmount (VAddress Sample.datatoken) rawLp None (Ok lp);
          EvUnitsToAmount (VAddress Sample.datatoken) rawOcean None (Ok ocean);
          EvUnitsToAmount (VAddress Sample.datatoken) rawPublish None (Ok publish);
          EvUnitsToAmount (VAddress Sample.datatoken) rawConsume None (Ok consume)]
    /\ [("tokenAmount", VAmount (mkDecimal 1900000 6));
        ("liquidityProviderSwapFeeAmount", VAmount (mkDecimal (10 ^ 15) 18));
        ("oceanFeeAmount", VAmount (mkDecimal (10 ^ 14) 18));
        ("publishMarketSwapFeeAmount", VAmount (mkDecimal (10 ^ 13) 18));
        ("consumeMarketSwapFeeAmount", VAmount (mkDecimal (10 ^ 12) 18))]
       = [("tokenAmount", VAmount amount);
          ("liquidityProviderSwapFeeAmount", VAmount lp);
          ("oceanFeeAmount", VAmount ocean);
          ("publishMarketSwapFeeAmount", VAmount publish);
          ("consumeMarketSwapFeeAmount", VAmount consume)].
Proof.
  apply (exact_in_quote_conversions Sample.pool Sample.datatoken Sample.usdc
           Sample.one Sample.tenth_percent None None Scenario.chain []).
  reflexivity.
Defined.

(** X22. [calcPoolOutGivenSingleIn], [calcSingleOutGivenPoolIn] and
    [calcPoolInGivenSingleOut] build their contract object before the
    [try]: when that throws, the quote throws the same and nothing else
    happens.  In every other case they do not throw: their outcome is the
    converted answer, or [null] after a log of whatever failed. *)
Theorem calc_quotes_throw_only_without_contract :
  forall pool token amount poolDecimals tokenDecimals env h,
    let ends_well (run : list Event * Result Value) :=
      match on_getContract env pool None with
      | Thrown e => emitted run = [] /\ outcome run = Thrown e
      | Ok _ =>
          (exists t raw d converted,
              outcome run = Ok (VAmount converted)
              /\ last (emitted run) (EvLog "" None)
                 = EvUnitsToAmount t raw d (Ok converted))
          \/ (exists text e,
                outcome run = Ok VNull
                /\ last (emitted run) (EvLog "" None) = EvLog text (Some e))
      end in
    ends_well (Pool.calcPoolOutGivenSingleIn pool token amount poolDecimals
                 tokenDecimals env h)
    /\ ends_well (Pool.calcSingleOutGivenPoolIn pool (VAddress token) amount
                    poolDecimals tokenDecimals env h)
    /\ ends_well (Pool.calcPoolInGivenSingleOut pool token amount poolDecimals
                    tokenDecimals env h).
Proof.
  intros pool token amount poolDecimals tokenDecimals env h ends_well.
  pose (post := fun evs (r : Result Value) =>
          match on_getContract env pool None with
          | Thrown e => evs = [] /\ r = Thrown e
          | Ok _ =>
              (exists t raw d converted,
                  r = Ok (VAmount converted)
                  /\ last evs (EvLog "" None)
                     = EvUnitsToAmount t raw d (Ok converted))
              \/ (exists text e,
                    r = Ok VNull
                    /\ last evs (EvLog "" None) = EvLog text (Some e))
          end).
  split; [| split].
  - apply (wp_elim (Pool.calcPoolOutGivenSingleIn pool token amount poolDecimals
                      tokenDecimals) env h post).
    wp_run.
    all: subst post; cbn beta iota.
    all: first [ split; reflexivity
               | left; do 4 eexists; split; reflexivity
               | right; do 2 eexists; split; reflexivity ].
  - apply (wp_elim (Pool.calcSingleOutGivenPoolIn pool (VAddress token) amount
                      poolDecimals tokenDecimals) env h post).
    wp_run.
    all: subst post; cbn beta iota.
    all: first [ split; reflexivity
               | left; do 4 eexists; split; reflexivity
               | right; do 2 eexists; split; reflexivity ].
  - apply (wp_elim (Pool.calcPoolInGivenSingleOut pool token amount poolDecimals
                      tokenDecimals) env h post).
    wp_run.
    all: subst post; cbn beta iota.
    all: first [ split; reflexivity
               | left; do 4 eexists; split; reflexivity
               | right; do 2 eexists; split; reflexivity ].
Qed.

(** A quote for a pool whose contract object cannot be built. *)
Example quote_without_contract :
  Pool.calcPoolOutGivenSingleIn Sample.pool Sample.usdc Sample.one None None
    Sample.misaddressed []
  = ([], Thrown (Rejected "Provided address is invalid")).
Proof. reflexivity. Qed.

(** X23. The four [calc...] quotes scale what they are given and what they
    return with the right precision: pool shares for the pool address with
    [poolDecimals], token amounts for the token with its decimals. *)
Theorem calc_quotes_units :
  forall pool token amount poolDecimals tokenDecimals env h v,
    (outcome (Pool.calcPoolOutGivenSingleIn pool token amount poolDecimals
                tokenDecimals env h) = Ok (VAmount v) ->
     exists units raw,
       emitted (Pool.calcPoolOutGivenSingleIn pool token amount poolDecimals
                  tokenDecimals env h)
       = [EvAmountToUnits (VAddress token) amount tokenDecimals (Ok units);
          EvCall pool "calcPoolOutSingleIn" [VAddress token; VUnits units] (Ok raw);
          EvUnitsToAmount (VAddress pool) raw poolDecimals (Ok v)])
    /\ (outcome (Pool.calcSingleInGivenPoolOut pool token amount poolDecimals
                   tokenDecimals env h) = Ok (VAmount v) ->
        exists units raw,
          emitted (Pool.calcSingleInGivenPoolOut pool token amount poolDecimals
                     tokenDecimals env h)
          = [EvAmountToUnits (VAddress pool) amount poolDecimals (Ok units);
             EvCall pool "calcSingleInPoolOut" [VAddress token; VUnits units]
               (Ok raw);
             EvUnitsToAmount (VAddress token) raw tokenDecimals (Ok v)])
    /\ (outcome (Pool.calcSingleOutGivenPoolIn pool (VAddress token) amount
                   poolDecimals tokenDecimals env h) = Ok (VAmount v) ->
        exists units raw,
          emitted (Pool.calcSingleOutGivenPoolIn pool (VAddress token) amount
                     poolDecimals tokenDecimals env h)
          = [EvAmountToUnits (VAddress pool) amount poolDecimals (Ok units);
             EvCall pool "calcSingleOutPoolIn" [VAddress token; VUnits units]
               (Ok raw);
             EvUnitsToAmount (VAddress token) raw tokenDecimals (Ok v)])
    /\ (outcome (Pool.calcPoolInGivenSingleOut pool token amount poolDecimals
                   tokenDecimals env h) = Ok (VAmount v) ->
        exists units raw,
          emitted (Pool.calcPoolInGivenSingleOut pool token amount poolDecimals
                     tokenDecimals env h)
          = [EvAmountToUnits (VAddress token) amount tokenDecimals (Ok units);
             EvCall pool "calcPoolInSingleOut" [VAddress token; VUnits units]
               (Ok raw);
             EvUnitsToAmount (VAddress pool) raw poolDecimals (Ok v)]).
Proof.
  intros pool token amount poolDecimals tokenDecimals env h v.
  repeat split.
  - pose (post := fun evs (r : Result Value) =>
            r = Ok (VAmount v) ->
            exists units raw,
              evs = [EvAmountToUnits (VAddress token) amount tokenDecimals
                       (Ok units);
                     EvCall pool "calcPoolOutSingleIn"
                       [VAddress token; VUnits units] (Ok raw);
                     EvUnitsToAmount (VAddress pool) raw poolDecimals (Ok v)]).
    apply (wp_elim (Pool.calcPoolOutGivenSingleIn pool token amount poolDecimals
                      tokenDecimals) env h post).
    wp_run.
    all: subst post; cbn beta; intros Hr; try discriminate Hr.
    injection Hr as <-. do 2 eexists. reflexivity.
  - pose (post := fun evs (r : Result Value) =>
            r = Ok (VAmount v) ->
            exists units raw,
              evs = [EvAmountToUnits (VAddress pool) amount poolDecimals
                       (Ok units);
                     EvCall pool "calcSingleInPoolOut"
                       [VAddress token; VUnits units] (Ok raw);
                     EvUnitsToAmount (VAddress token) raw tokenDecimals (Ok v)]).
    apply (wp_elim (Pool.calcSingleInGivenPoolOut pool token amount poolDecimals
                      tokenDecimals) env h post).
    wp_run.
    all: subst post; cbn beta; intros Hr; try discriminate Hr.
    injection Hr as <-. do 2 eexists. reflexivity.
  - pose (post := fun evs (r : Result Value) =>
            r = Ok (VAmount v) ->
            exists units raw,
              evs = [EvAmountToUnits (VAddress pool) amount poolDecimals
                       (Ok units);
                     EvCall pool "calcSingleOutPoolIn"
                       [VAddress token; VUnits units] (Ok raw);
                     EvUnitsToAmount (VAddress token) raw tokenDecimals (Ok v)]).
    apply (wp_elim (Pool.calcSingleOutGivenPoolIn pool (VAddress token) amount
                      poolDecimals tokenDecimals) env h post).
    wp_run.
    all: subst post; cbn beta; intros Hr; try discriminate Hr.
    injection Hr as <-. do 2 eexists. reflexivity.
  - pose (post := fun evs (r : Result Value) =>
            r = Ok (VAmount v) ->
            exists units raw,
              evs = [EvAmountToUnits (VAddress token) amount tokenDecimals
                       (Ok units);
                     EvCall pool "calcPoolInSingleOut"
                       [VAddress token; VUnits units] (Ok raw);
                     EvUnitsToAmount (VAddress pool) raw poolDecimals (Ok v)]).
    apply (wp_elim (Pool.calcPoolInGivenSingleOut pool token amount poolDecimals
                      tokenDecimals) env h post).
    wp_run.
    all: subst post; cbn beta; intros Hr; try discriminate Hr.
    injection Hr as <-. do 2 eexists. reflexivity.
Qed.

Lemma calc_quotes_units_sample :
  exists units raw,
    emitted (Pool.calcPoolOutGivenSingleIn Sample.pool Sample.usdc Sample.one
               None None Scenario.chain [])
    = [EvAmountToUnits (VAddress Sample.usdc) Sample.one None (Ok units);
       EvCall Sample.pool "calcPoolOutSingleIn"
         [VAddress Sample.usdc; VUnits units] (Ok raw);
       EvUnitsToAmount (VAddress Sample.pool) raw None
         (Ok (mkDecimal (5 * 10 ^ 17) 18))].
Proof.
  apply (proj1 (calc_quotes_units Sample.pool Sample.usdc Sample.one None None
                  Scenario.chain [] (mkDecimal (5 * 10 ^ 17) 18))).
  reflexivity.
Defined.

(** X24. The accessors and the quotes of [Pool] and the accessors of
    SideStaking.ts only read: none of them asks for an estimate or sends a
    transaction. *)
Theorem reads_never_estimate_or_send :
  (forall acc env h,
      existsb is_estimate (emitted (run_accessor acc env h)) = false
      /\ existsb is_send (emitted (run_accessor acc env h)) = false)
  /\ (forall acc env h,
        existsb is_estimate (emitted (run_staking_accessor acc env h)) = false
        /\ existsb is_send (emitted (run_staking_accessor acc env h)) = false)
  /\ (forall pool tokenIn tokenOut amount fee decimalsIn decimalsOut env h,
        (existsb is_estimate
           (emitted (Pool.getAmountOutExactIn pool tokenIn tokenOut amount fee
                       decimalsIn decimalsOut env h)) = false
         /\ existsb is_send
              (emitted (Pool.getAmountOutExactIn pool tokenIn tokenOut amount fee
                          decimalsIn decimalsOut env h)) = false)
        /\ (existsb is_estimate
              (emitted (Pool.getAmountInExactOut pool tokenIn tokenOut amount fee
                          decimalsIn decimalsOut env h)) = false
            /\ existsb is_send
                 (emitted (Pool.getAmountInExactOut pool tokenIn tokenOut amount
                             fee decimalsIn decimalsOut env h)) = false)).
Proof.
  pose (post := fun evs (_ : Result Value) =>
          existsb is_estimate evs = false /\ existsb is_send evs = false).
  split; [| split].
  - intros acc env h. apply (wp_elim (run_accessor acc) env h post).
    destruct acc; cbn [run_accessor]; wp_run.
    all: subst post; split; reflexivity.
  - intros acc env h. apply (wp_elim (run_staking_accessor acc) env h post).
    destruct acc; cbn [run_staking_accessor]; wp_run.
    all: subst post; split; reflexivity.
  - intros pool tokenIn tokenOut amount fee decimalsIn decimalsOut env h. split.
    + apply (wp_elim (Pool.getAmountOutExactIn pool tokenIn tokenOut amount fee
                        decimalsIn decimalsOut) env h post).
      wp_run.
      all: subst post; split; reflexivity.
    + apply (wp_elim (Pool.getAmountInExactOut pool tokenIn tokenOut amount fee
                        decimalsIn decimalsOut) env h post).
      wp_run.
      all: subst post; split; reflexivity.
Qed.

(** ** Further properties: FetchHelper *)

Module FetchHelperFacts.

Import FetchHelper.

Lemma after_last_slash_no_slash :
  forall name segment,
    has_slash name = false -> after_last_slash name segment = segment +++ name.
Proof.
  induction name as [| c rest IH]; intros segment Hname.
  - cbn. induction segment; cbn; congruence.
  - cbn in Hname. apply orb_false_elim in Hname as [Hc Hrest].
    cbn. rewrite Hc, (IH _ Hrest).
    clear. induction segment; cbn; congruence.
Qed.

Lemma after_last_slash_app :
  forall base name segment,
    has_slash name = false ->
    after_last_slash (base +++ "/" +++ name) segment = name.
Proof.
  induction base as [| c rest IH]; intros name segment Hname.
  - cbn. apply after_last_slash_no_slash with (segment := ""). exact Hname.
  - cbn. destruct (Ascii.eqb c "/"); apply IH; exact Hname.
Qed.

Lemma after_last_slash_has_no_slash :
  forall url segment,
    has_slash segment = false -> has_slash (after_last_slash url segment) = false.
Proof.
  induction url as [| c rest IH]; intros segment Hsegment.
  - exact Hsegment.
  - cbn. destruct (Ascii.eqb c "/") eqn:Hc.
    + apply IH. reflexivity.
    + apply IH. clear IH. induction segment as [| d segment IHs].
      * cbn. rewrite Hc. reflexivity.
      * cbn in *. apply orb_false_elim in Hsegment as [Hd Hs].
        rewrite Hd. cbn. apply IHs. exact Hs.
Qed.

(** X25. The file name taken from a URL is what follows its last slash: it
    holds no slash, it is [name] for a URL [base/name] whose [name] holds no
    slash, and so it is empty for a URL that ends in a slash. *)
Theorem last_segment_follows_last_slash :
  (forall url, has_slash (last_segment url) = false)
  /\ (forall base name,
        has_slash name = false -> last_segment (base +++ "/" +++ name) = name)
  /\ (forall base, last_segment (base +++ "/") = "").
Proof.
  split; [| split].
  - intros url. apply after_last_slash_has_no_slash. reflexivity.
  - intros base name Hname. apply after_last_slash_app. exact Hname.
  - intros base. apply (after_last_slash_app base "" ""). reflexivity.
Qed.

Lemma last_segment_follows_last_slash_sample :
  last_segment ("https://provider.example/files" +++ "/" +++ "data.csv")
  = "data.csv".
Proof.
  apply (proj1 (proj2 last_segment_follows_last_slash)
           "https://provider.example/files" "data.csv").
  reflexivity.
Defined.

(** X26. [fetchData] returns a response only when it is [ok].  A response
    that is not is logged with the method and the URL; then its body is
    read and logged and the response itself is thrown, or the failure to
    read the body is passed on.  A failed [fetch] is passed on unlogged. *)
Theorem fetchData_outcomes :
  forall url opts world h,
    let run := fetchData url opts world h in
    let requested :=
      Logged ("Error requesting [" +++ shown (method opts) +++ "] " +++ url) in
    (exists response,
        ok response = true
        /\ run = ([Fetched url (Some opts) (Done response)], Done response))
    \/ (exists response message,
          ok response = false
          /\ text response = Read message
          /\ run = ([Fetched url (Some opts) (Done response);
                     requested;
                     Logged ("Response message: " +++ newline +++ message)],
                    Failed (ThrownResponse response)))
    \/ (exists response reason,
          ok response = false
          /\ text response = Unreadable reason
          /\ run = ([Fetched url (Some opts) (Done response); requested],
                    Failed (Rejection reason)))
    \/ (exists f,
          run = ([Fetched url (Some opts) (Failed f)], Failed f)).
Proof.
  intros url opts world h run requested. subst run requested.
  unfold fetchData, and_then, fetch.
  destruct (on_fetch world h url (Some opts)) as [response | f].
  - destruct (ok response) eqn:Hok; cbn.
    + left. exists response. split; [exact Hok | reflexivity].
    + right. destruct (text response) as [message | reason] eqn:Htext; cbn.
      * left. exists response, message. repeat split; assumption.
      * right. left. exists response, reason. repeat split; assumption.
  - right. right. right. exists f. reflexivity.
Qed.

Ltac settle :=
  cbn [In] in *;
  repeat match goal with
         | H : _ \/ _ |- _ => destruct H as [H | H]
         | H : False |- _ => destruct H
         | H : @eq Effect _ _ |- _ =>
             first [discriminate H | injection H as; subst]
         | H : @eq (Outcome _) _ _ |- _ =>
             first [discriminate H | injection H as; subst]
         | H : Some _ = Some _ |- _ => injection H as; subst
         end;
  first [ reflexivity | congruence | discriminate
        | left; reflexivity | right; reflexivity
        | eexists; reflexivity
        | eexists; eexists; split; [eassumption | reflexivity]
        | eexists; split; [reflexivity | congruence] ].

(** X27. [downloadFile] touches no file unless the response is [ok]. With a
    destination it makes the directory, reads the body as text, writes it
    to [destination/filename] and returns the destination; without one, or
    with the empty string, it reads the body as a buffer, hands it to
    [save] and returns nothing.  A body that cannot be read as text is
    found out after the directory was made.  The index is never used. *)
Theorem downloadFile_effects :
  forall url destination index world h,
    let run := downloadFile url destination index world h in
    (forall response,
        In (Fetched url None (Done response)) (fst run) ->
        ok response = false ->
        snd run = Failed (ThrownError "Response error.")
        /\ existsb touches_files (fst run) = false)
    /\ (forall f,
          In (Fetched url None (Failed f)) (fst run) ->
          snd run = Failed f /\ existsb touches_files (fst run) = false)
    /\ (forall folder,
          snd run = Done (Some folder) ->
          destination = Some folder
          /\ folder <> ""
          /\ exists response content,
               text response = Read content
               /\ fst run
                  = [Fetched url None (Done response);
                     MadeDirectory folder (Done tt);
                     WroteFile (folder +++ "/"
                                +++ chosen_filename world response url index)
                       content (Done tt)])
    /\ (snd run = Done None ->
        (destination = None \/ destination = Some "")
        /\ exists response content,
             arrayBuffer response = Read content
             /\ fst run
                = [Fetched url None (Done response);
                   Saved content (chosen_filename world response url index)])
    /\ (forall response reason c rest,
          In (Fetched url None (Done response)) (fst run) ->
          ok response = true ->
          text response = Unreadable reason ->
          destination = Some (String c rest) ->
          exists made,
            fst run = [Fetched url None (Done response);
                       MadeDirectory (String c rest) made]
            /\ snd run = match made with
                         | Done _ => Failed (Rejection reason)
                         | Failed f => Failed f
                         end)
    /\ run = downloadFile url destination None world h.
Proof.
  intros url destination index world h run. subst run.
  unfold downloadFile, and_then, fetch, mkdirSync, writeFileSync, save, read,
    done, fail.
  destruct (on_fetch world h url None) as [response | f]; cbn [fst snd app];
    [destruct (ok response) eqn:Hok; cbn [negb fst snd app];
     [destruct destination as [[| c rest] |]; cbn [fst snd app];
      [destruct (arrayBuffer response) eqn:Hbuffer; cbn [fst snd app]
      | destruct (on_mkdirSync world _ _) as [[] | f]; cbn [fst snd app];
         [destruct (text response) eqn:Htext; cbn [fst snd app];
          [destruct (on_writeFileSync world _ _ _) as [[] | f];
           cbn [fst snd app] |] |]
      | destruct (arrayBuffer response) eqn:Hbuffer; cbn [fst snd app] ] |] |].
  all: repeat split; intros; settle.
Qed.

Lemma downloadFile_effects_sample :
  Some "downloads" = Some "downloads"
  /\ "downloads" <> ""
  /\ exists response content,
       text response = Read content
       /\ fst (downloadFile "https://provider.example/files/7"
                 (Some "downloads") (Some 3%nat) Download.world [])
          = [Fetched "https://provider.example/files/7" None (Done response);
             MadeDirectory "downloads" (Done tt);
             WroteFile ("downloads" +++ "/"
                        +++ chosen_filename Download.world response
                              "https://provider.example/files/7" (Some 3%nat))
               content (Done tt)].
Proof.
  apply (proj1 (proj2 (proj2 (downloadFile_effects
                                "https://provider.example/files/7"
                                (Some "downloads") (Some 3%nat)
                                Download.world [])))
           "downloads").
  reflexivity.
Defined.

(** The same download, effect by effect: the name comes from the header. *)
Example download_of_a_report :
  downloadFile "https://provider.example/files/7" (Some "downloads") (Some 3%nat)
    Download.world []
  = ([Fetched "https://provider.example/files/7" None (Done Download.report);
      MadeDirectory "downloads" (Done tt);
      WroteFile "downloads/report.pdf" "quarterly figures" (Done tt)],
     Done (Some "downloads")).
Proof. reflexivity. Qed.

End FetchHelperFacts.
